(** * Recurring-activity occurrence engine, completion ledger, notification
      scheduler and activity store of [app-provider.tsx], with the activity
      form and the activity row that call them

    A shallow embedding of the TypeScript in
    [src/components/providers/app-provider.tsx],
    [src/components/forms/activity-modal.tsx] and
    [src/components/calendar/activity-list-item.tsx], followed by what is
    proved about it.

    The program:
    - [JSDate]: the ECMAScript [Date] operations and the date-fns helpers the
      provider imports, over time values in milliseconds since the epoch;
    - [Model]: the [Activity] / [RecurrenceRule] records;
    - [Generator]: [generateFutureInstancesForNotifications];
    - [Store]: [addActivity], [updateActivity], [deleteActivity],
      [toggleOccurrenceCompletion], [deleteCategory], [deleteAssignee];
    - [Scheduler]: the body of the 60 s notification interval;
    - [StoreOps]: the operations on todos, categories and assignees;
    - [Session]: signing in and out, the list of notifications;
    - [Modal]: what the activity form submits;
    - [ListItem]: the checkbox of an activity row.

    The proofs:
    - [JSDateFacts]: the calendar (days of a month, adding days and months);
    - [GeneratorFacts], [GeneratorSpec]: termination, what is emitted, the
      end of a series, monthly rules, the end-to-end scenario;
    - [StoreSpec]: unknown ids, the completion ledger, back references;
    - [SchedulerSpec]: de-duplication of notifications;
    - [GeneratorMore]: the window, the order of the instances, daily and
      weekly rules;
    - [StoreMore]: the history log, the two collections, lookups, todos,
      categories and assignees;
    - [SchedulerMore]: when each kind of notification is shown;
    - [SessionSpec], [ModalSpec], [ListItemSpec]: the sign-in state, the
      form and the row.

    Conventions.  A JavaScript [Date] is its time value, a [Z] (milliseconds
    since 1970-01-01T00:00:00Z).  Invalid dates and the +-8.64e15 range
    limit are modelled where a call can throw on them
    ([Store.toggleOccurrenceCompletionCall]) and nowhere else.  The local
    time zone is UTC with no daylight saving ([LocalTZA = 0]), so local and
    UTC fields coincide and a calendar day is 86400000 ms long.
    [undefined] and [null] are both [None].  JavaScript truthiness is
    written out: the number 0 and the empty string are falsy. *)

From stdpp Require Import gmap strings list fin_maps pretty sorting.
From Stdlib Require Import ZArith Lia.

(* ===================================================================== *)
(** ** ECMAScript time values and date-fns *)
(* ===================================================================== *)

Module JSDate.
Local Open Scope Z_scope.

(** *** ECMA-262, "Time Values and Time Range" *)

Definition msPerDay : Z := 86400000.
Definition msPerHour : Z := 3600000.
Definition msPerMinute : Z := 60000.
Definition msPerSecond : Z := 1000.

Definition Day (t : Z) : Z := t / msPerDay.
Definition TimeWithinDay (t : Z) : Z := t mod msPerDay.

Definition MakeTime (hour min sec ms : Z) : Z :=
  hour * msPerHour + min * msPerMinute + sec * msPerSecond + ms.

Definition MakeDate (day time : Z) : Z := day * msPerDay + time.

Definition isLeapYear (y : Z) : bool :=
  (y mod 4 =? 0) && (negb (y mod 100 =? 0) || (y mod 400 =? 0)).

(** Months are numbered as in JavaScript: 0 = January .. 11 = December. *)
Definition DaysInMonth (y m : Z) : Z :=
  if m =? 1 then (if isLeapYear y then 29 else 28)
  else if (m =? 3) || (m =? 5) || (m =? 8) || (m =? 10) then 30
  else 31.

(** ECMA-262 defines [YearFromTime], [MonthFromTime] and [DateFromTime] by
    specification ("the largest year such that ...", tables of day ranges).
    They are computed here the way engines do, in the proleptic Gregorian
    calendar: days are counted in 400-year eras of [daysPerEra] days that
    start on 1 March, so that the leap day is the last day of a year. *)

Definition daysPerEra : Z := 146097.
Definition epochShift : Z := 719468.

Definition yearOfEra (doe : Z) : Z :=
  (doe - doe / 1460 + doe / 36524 - doe / 146096) / 365.

Definition dayOfMarchYear (doe : Z) : Z :=
  let yoe := yearOfEra doe in
  doe - (365 * yoe + yoe / 4 - yoe / 100).

Definition marchMonth (doy : Z) : Z := (5 * doy + 2) / 153.

Definition marchMonthStart (mp : Z) : Z := (153 * mp + 2) / 5.

Definition eraOfDay (day : Z) : Z := (day + epochShift) / daysPerEra.
Definition dayOfEra (day : Z) : Z := (day + epochShift) mod daysPerEra.

Definition YearFromTime (t : Z) : Z :=
  let doe := dayOfEra (Day t) in
  let mp := marchMonth (dayOfMarchYear doe) in
  yearOfEra doe + eraOfDay (Day t) * 400 + (if mp <? 10 then 0 else 1).

Definition MonthFromTime (t : Z) : Z :=
  let mp := marchMonth (dayOfMarchYear (dayOfEra (Day t))) in
  if mp <? 10 then mp + 2 else mp - 10.

Definition DateFromTime (t : Z) : Z :=
  let doy := dayOfMarchYear (dayOfEra (Day t)) in
  doy - marchMonthStart (marchMonth doy) + 1.

Definition WeekDay (t : Z) : Z := (Day t + 4) mod 7.

(** Day number of the first day of month [m] (0..11) of year [y]. *)
Definition DayFromYearMonth (y m : Z) : Z :=
  let y' := if m <? 2 then y - 1 else y in
  let mp := if m <? 2 then m + 10 else m - 2 in
  let yoe := y' mod 400 in
  (y' / 400) * daysPerEra
  + (yoe * 365 + yoe / 4 - yoe / 100 + marchMonthStart mp)
  - epochShift.

(** [MakeDay]: months outside 0..11 carry into the year, days outside the
    month carry into the neighbouring months. *)
Definition MakeDay (year month date : Z) : Z :=
  let ym := year + month / 12 in
  let mn := month mod 12 in
  DayFromYearMonth ym mn + date - 1.

(** *** [Date.prototype] methods, local time = UTC *)

Definition getTime (d : Z) : Z := d.
Definition getFullYear (d : Z) : Z := YearFromTime d.
Definition getMonth (d : Z) : Z := MonthFromTime d.
Definition getDate (d : Z) : Z := DateFromTime d.
Definition getDay (d : Z) : Z := WeekDay d.

(** [d.setDate(dt)] *)
Definition Date_setDate (d dt : Z) : Z :=
  MakeDate (MakeDay (YearFromTime d) (MonthFromTime d) dt) (TimeWithinDay d).

(** [d.setMonth(month, dt)] *)
Definition Date_setMonth (d month dt : Z) : Z :=
  MakeDate (MakeDay (YearFromTime d) month dt) (TimeWithinDay d).

(** [d.setFullYear(y, month, dt)] *)
Definition Date_setFullYear (d y month dt : Z) : Z :=
  MakeDate (MakeDay y month dt) (TimeWithinDay d).

(** [d.setHours(h, m, s, ms)] *)
Definition Date_setHours (d h m s ms : Z) : Z :=
  MakeDate (Day d) (MakeTime h m s ms).

(** [new Date(y, month, dt, h, m)] *)
Definition newDate (y month dt h m : Z) : Z :=
  MakeDate (MakeDay y month dt) (MakeTime h m 0 0).

(** *** date-fns (v3) *)

Definition isBefore (date dateToCompare : Z) : bool := date <? dateToCompare.
Definition isAfter (date dateToCompare : Z) : bool := dateToCompare <? date.
Definition isEqual (a b : Z) : bool := a =? b.

(** [isWithinInterval] sorts the two bounds before comparing (date-fns v3;
    v2 raised a [RangeError] on an inverted interval). *)
Definition isWithinInterval (date start_ end_ : Z) : bool :=
  (Z.min start_ end_ <=? date) && (date <=? Z.max start_ end_).

(** [addDays]: [if (!amount) return date; date.setDate(date.getDate() + amount)] *)
Definition addDays (date amount : Z) : Z :=
  if amount =? 0 then date else Date_setDate date (getDate date + amount).

Definition subDays (date amount : Z) : Z := addDays date (- amount).
Definition addWeeks (date amount : Z) : Z := addDays date (amount * 7).
Definition subWeeks (date amount : Z) : Z := addWeeks date (- amount).

(** [addMonths]: the day of the month is kept unless the target month is
    shorter, in which case the last day of the target month is taken. *)
Definition addMonths (date amount : Z) : Z :=
  if amount =? 0 then date else
  let dayOfMonth := getDate date in
  let endOfDesiredMonth := Date_setMonth date (getMonth date + amount + 1) 0 in
  let daysInMonth := getDate endOfDesiredMonth in
  if daysInMonth <=? dayOfMonth then endOfDesiredMonth
  else Date_setFullYear date (getFullYear endOfDesiredMonth)
                        (getMonth endOfDesiredMonth) dayOfMonth.

(** [setDate(date, dayOfMonth)] of date-fns, imported as [setDayOfMonthFn]. *)
Definition setDayOfMonthFn (date dayOfMonth : Z) : Z := Date_setDate date dayOfMonth.

Definition startOfDay (date : Z) : Z := Date_setHours date 0 0 0 0.
Definition endOfDay (date : Z) : Z := Date_setHours date 23 59 59 999.
Definition isSameDay (a b : Z) : bool := startOfDay a =? startOfDay b.

(** [String.prototype.padStart(len, "0")] *)
Definition padStart0 (s : string) (len : nat) : string :=
  String.concat EmptyString (replicate (len - String.length s) "0") +:+ s.

(** [addLeadingZeros(number, targetLength)] *)
Definition addLeadingZeros (n : Z) (targetLength : nat) : string :=
  (if n <? 0 then "-" else EmptyString) +:+ padStart0 (pretty (Z.abs n)) targetLength.

(** [formatISO(date, { representation: 'date' })]: [YYYY-MM-DD]. *)
Definition formatISO_date (date : Z) : string :=
  addLeadingZeros (getFullYear date) 4 +:+ "-" +:+
  addLeadingZeros (getMonth date + 1) 2 +:+ "-" +:+
  addLeadingZeros (getDate date) 2.

(** *** Invalid dates *)

(** A number handed over as a time stamp: an integer, or a value that is
    not finite ([NaN], [Infinity], [-Infinity]).  Fractions, which
    [new Date] truncates, are left out. *)
Inductive JSNumber := Whole (n : Z) | NotFinite.

Definition maxTimeValue : Z := 8640000000000000.

(** [new Date(value)], ECMA-262 [TimeClip]: the time value of the date, or
    [None] for the Invalid Date. *)
Definition Date_ofNumber (value : JSNumber) : option Z :=
  match value with
  | Whole n => if Z.abs n <=? maxTimeValue then Some n else None
  | NotFinite => None
  end.

End JSDate.

(* ===================================================================== *)
(** ** Data model ([@/lib/types], as the provider uses it) *)
(* ===================================================================== *)

Module Model.
Local Open Scope Z_scope.

Inductive RecurrenceType := TNone | Daily | Weekly | Monthly.

#[global] Instance RecurrenceType_eq_dec : EqDecision RecurrenceType.
Proof. solve_decision. Defined.

(** [endDate] is a time value; [daysOfWeek] holds [getDay] indices
    (0 = Sunday); [dayOfMonth] is 1..31 when the form wrote it. *)
Record RecurrenceRule := mkRecurrenceRule {
  type : RecurrenceType;
  endDate : option Z;
  daysOfWeek : option (list Z);
  dayOfMonth : option Z
}.

Record Todo := mkTodo {
  todoId : string;
  text : string;
  todoCompleted : bool
}.

(** [completed] and [completedOccurrences] are optional in the source and
    only ever read through [!a.completed] and
    [!!a.completedOccurrences?.[key]] or spread into a fresh object, so an
    absent value is [false], respectively the empty ledger. *)
Record Activity := mkActivity {
  id : string;
  title : string;
  categoryId : string;
  todos : list Todo;
  createdAt : Z;
  time : option string;
  completed : bool;
  notes : option string;
  recurrence : option RecurrenceRule;
  completedOccurrences : gmap string bool;
  responsiblePersonId : option string
}.

Record Category := mkCategory {
  catId : string;
  catName : string;
  iconName : string;
  mode : string
}.

Record Assignee := mkAssignee {
  asgId : string;
  asgName : string
}.

(** Truthiness of an optional number: [undefined], [null] and [0] are falsy. *)
Definition truthyZ (o : option Z) : option Z :=
  match o with
  | Some n => if n =? 0 then None else Some n
  | None => None
  end.

(** [!!ledger?.[key]] *)
Definition isCompletedOn (ledger : gmap string bool) (key : string) : bool :=
  default false (ledger !! key).

(** [Array.prototype.includes] on numbers. *)
Definition includes (l : list Z) (x : Z) : bool := existsb (Z.eqb x) l.

End Model.

(* ===================================================================== *)
(** ** The occurrence generator *)
(* ===================================================================== *)

Module Generator.
Import JSDate Model.
Local Open Scope Z_scope.

Record FutureInstance := mkFutureInstance {
  instanceDate : Z;
  masterActivityId : string
}.

Definition maxIterations : Z := 366 * 1.

(** The mutable locals of the main [while] loop. *)
Record Walk := mkWalk {
  currentDate : Z;
  iterations : Z;
  instances : list FutureInstance
}.

(** How one pass through the loop body ends: at the bottom of the body or
    at a [continue] ([Next]), or at a [break] ([Stop]). *)
Inductive Outcome := Next (w : Walk) | Stop (w : Walk).

Section Generate.
Variable masterActivity : Activity.
Variables rangeStartDate rangeEndDate : Z.

(** Lines 144-150: no recurrence, or recurrence of type ['none']. *)
Definition singleInstance : list FutureInstance :=
  let activityDate := createdAt masterActivity in
  if isWithinInterval activityDate rangeStartDate rangeEndDate
     && negb (completed masterActivity)
  then [mkFutureInstance activityDate (id masterActivity)]
  else [].

Variable recurrence : RecurrenceRule.

(** Lines 160-165, the weekly fast-forward loop.  [steps] counts its
    iterations; [fuel] only makes the recursion structural, [None] means
    that it ran out. *)
Fixpoint weeklySeek (fuel : nat) (days : list Z) (tempDate steps : Z)
  : option (Z * Z) :=
  if isBefore tempDate (createdAt masterActivity)
     || negb (includes days (getDay tempDate))
     || isBefore tempDate rangeStartDate
  then
    match fuel with
    | O => None
    | S fuel' =>
        let tempDate := addDays tempDate 1 in
        if isAfter tempDate rangeEndDate then Some (tempDate, steps + 1)
        else weeklySeek fuel' days tempDate (steps + 1)
    end
  else Some (tempDate, steps).

(** One step per day from the start of [rangeStartDate]'s day to the first
    day after [rangeEndDate] is all the loop can take. *)
Definition seekFuel : nat :=
  S (Z.to_nat ((rangeEndDate - startOfDay rangeStartDate) / msPerDay + 1)).

(** Lines 154-178: the start of the walk, with the number of iterations of
    the weekly fast-forward loop. *)
Definition fastForward : option (Z * Z) :=
  let currentDate := createdAt masterActivity in
  if isBefore currentDate rangeStartDate then
    match type recurrence with
    | Daily => Some (rangeStartDate, 0)
    | Weekly =>
        match daysOfWeek recurrence with
        | Some days =>
            if (0 <? Z.of_nat (length days))
            then weeklySeek seekFuel days (startOfDay rangeStartDate) 0
            else Some (currentDate, 0)
        | None => Some (currentDate, 0)
        end
    | Monthly =>
        match truthyZ (dayOfMonth recurrence) with
        | Some dom =>
            let tempMasterStartMonthDay :=
              setDayOfMonthFn (createdAt masterActivity) dom in
            let tempMasterStartMonthDay :=
              if isBefore tempMasterStartMonthDay (createdAt masterActivity)
              then addMonths tempMasterStartMonthDay 1
              else tempMasterStartMonthDay in
            let currentDate := setDayOfMonthFn rangeStartDate dom in
            let currentDate :=
              if isBefore currentDate rangeStartDate
              then addMonths currentDate 1 else currentDate in
            let currentDate :=
              if isBefore currentDate tempMasterStartMonthDay
              then tempMasterStartMonthDay else currentDate in
            Some (currentDate, 0)
        | None => Some (currentDate, 0)
        end
    | TNone => Some (currentDate, 0)
    end
  else Some (currentDate, 0).

(** Line 181. *)
Definition seriesEndDate : option Z := truthyZ (endDate recurrence).

(** Lines 201-216. *)
Definition isValidOccurrence (currentDate : Z) : bool :=
  match type recurrence with
  | Daily => true
  | Weekly =>
      match daysOfWeek recurrence with
      | Some days => includes days (getDay currentDate)
      | None => false
      end
  | Monthly =>
      match truthyZ (dayOfMonth recurrence) with
      | Some dom => getDate currentDate =? dom
      | None => false
      end
  | TNone => false
  end.

(** Lines 186-251: the loop body. *)
Definition walkBody (w : Walk) : Outcome :=
  let cur := currentDate w in
  let iterations := iterations w + 1 in
  if match seriesEndDate with
     | Some e => isAfter cur e
     | None => false
     end
  then Stop (mkWalk cur iterations (instances w))
  else if isBefore cur (createdAt masterActivity) then
    match type recurrence with
    | Daily | Weekly => Next (mkWalk (addDays cur 1) iterations (instances w))
    | Monthly =>
        let nextMonth := addMonths cur 1 in
        Next (mkWalk
                match truthyZ (dayOfMonth recurrence) with
                | Some dom => setDayOfMonthFn nextMonth dom
                | None => nextMonth
                end
                iterations (instances w))
    | TNone => Stop (mkWalk cur iterations (instances w))
    end
  else
    let instances :=
      if isValidOccurrence cur then
        let occurrenceDateKey := formatISO_date cur in
        let isInstanceCompleted :=
          isCompletedOn (completedOccurrences masterActivity) occurrenceDateKey in
        if negb isInstanceCompleted
        then instances w ++ [mkFutureInstance cur (id masterActivity)]
        else instances w
      else instances w in
    match type recurrence with
    | Daily | Weekly => Next (mkWalk (addDays cur 1) iterations instances)
    | Monthly =>
        match truthyZ (dayOfMonth recurrence) with
        | Some dom =>
            let currentMonthTargetDay := setDayOfMonthFn cur dom in
            let nextIterationDate :=
              if isAfter currentMonthTargetDay cur
                 && (getDate currentMonthTargetDay =? dom)
              then currentMonthTargetDay
              else setDayOfMonthFn (addMonths cur 1) dom in
            Next (mkWalk nextIterationDate iterations instances)
        | None => Next (mkWalk (addDays cur 1) iterations instances)
        end
    | TNone => Stop (mkWalk cur iterations instances)
    end.

(** Line 185: the main loop.  The loop tests its own counter against
    [maxIterations]; [fuel] only makes the recursion structural. *)
Fixpoint walk (fuel : nat) (w : Walk) : option Walk :=
  if (iterations w <? maxIterations)
     && negb (isAfter (currentDate w) rangeEndDate)
  then
    match fuel with
    | O => None
    | S fuel' =>
        match walkBody w with
        | Next w' => walk fuel' w'
        | Stop w' => Some w'
        end
    end
  else Some w.

(** The recurring branch, lines 152-253: the number of fast-forward
    iterations and the final state of the walk. *)
Definition recurringRun : option (Z * Walk) :=
  match fastForward with
  | Some (start, seekSteps) =>
      match walk (Z.to_nat maxIterations) (mkWalk start 0 []) with
      | Some w => Some (seekSteps, w)
      | None => None
      end
  | None => None
  end.

End Generate.

(** The rule of a recurring activity: [recurrence] present and not of type
    ['none'] (the negation of the test on line 144). *)
Definition recurringRule (masterActivity : Activity) : option RecurrenceRule :=
  match Model.recurrence masterActivity with
  | Some r => if decide (type r = TNone) then None else Some r
  | None => None
  end.

(** [generateFutureInstancesForNotifications].  [recurringRun] never is
    [None] (lemma [recurringRun_total] below), so the last case is dead. *)
Definition generateFutureInstancesForNotifications
    (masterActivity : Activity) (rangeStartDate rangeEndDate : Z)
  : list FutureInstance :=
  match recurringRule masterActivity with
  | None => singleInstance masterActivity rangeStartDate rangeEndDate
  | Some r =>
      match recurringRun masterActivity rangeStartDate rangeEndDate r with
      | Some (_, w) => instances w
      | None => []
      end
  end.

End Generator.

(* ===================================================================== *)
(** ** The activity store *)
(* ===================================================================== *)

Module Store.
Import JSDate Model.
Local Open Scope Z_scope.

Inductive AppMode := Personal | Work.

#[global] Instance AppMode_eq_dec : EqDecision AppMode.
Proof. solve_decision. Defined.

Inductive DetailValue := DString (s : string) | DNumber (n : Z).

(** The identifier and the clock reading that [uuidv4()] and [Date.now()]
    hand to [addHistoryLogEntry]. *)
Record Env := mkEnv { uuid : string; now : Z }.

Record HistoryLogEntry := mkHistoryLogEntry {
  entryId : string;
  timestamp : Z;
  actionKey : string;
  details : list (string * DetailValue);
  scope : string
}.

(** The [useState] cells of [AppProvider] that the operations below touch. *)
Record State := mkState {
  appModeState : AppMode;
  personalActivities : list Activity;
  workActivities : list Activity;
  allCategories : list Category;
  allAssignees : list Assignee;
  historyLog : list HistoryLogEntry
}.

(** [Partial<Activity>]: an absent key is [None].  For the optional fields
    a key may be present with value [undefined] (or [null]), which the
    spread [{...act, ...updates}] copies: that is [Some None]. *)
Record ActivityUpdates := mkActivityUpdates {
  u_id : option string;
  u_title : option string;
  u_categoryId : option string;
  u_todos : option (list Todo);
  u_createdAt : option Z;
  u_time : option (option string);
  u_completed : option bool;
  u_notes : option (option string);
  u_recurrence : option RecurrenceRule;
  u_completedOccurrences : option (gmap string bool);
  u_responsiblePersonId : option (option string)
}.

Definition noUpdates : ActivityUpdates :=
  mkActivityUpdates None None None None None None None None None None None.

Definition getRawActivities (s : State) : list Activity :=
  match appModeState s with
  | Work => workActivities s
  | Personal => personalActivities s
  end.

(** [currentActivitySetter(prev => f(prev))] *)
Definition currentActivitySetter
    (f : list Activity -> list Activity) (s : State) : State :=
  match appModeState s with
  | Work =>
      mkState (appModeState s) (personalActivities s) (f (workActivities s))
              (allCategories s) (allAssignees s) (historyLog s)
  | Personal =>
      mkState (appModeState s) (f (personalActivities s)) (workActivities s)
              (allCategories s) (allAssignees s) (historyLog s)
  end.

Definition scopeOfMode (m : AppMode) : string :=
  match m with Personal => "personal" | Work => "work" end.

(** [setHistoryLog(prevLog => [newEntry, ...prevLog.slice(0, 99)])] *)
Definition addHistoryLogEntry (env : Env) (actionKey : string)
    (details : list (string * DetailValue)) (scope : string) (s : State)
  : State :=
  mkState (appModeState s) (personalActivities s) (workActivities s)
          (allCategories s) (allAssignees s)
          (mkHistoryLogEntry (uuid env) (now env) actionKey details scope
             :: take 99 (historyLog s)).

(** [setAppMode] *)
Definition setAppMode (env : Env) (mode : AppMode) (s : State) : State :=
  let s :=
    if decide (mode = appModeState s) then s
    else addHistoryLogEntry env
           match mode with
           | Personal => "historyLogSwitchToPersonalMode"
           | Work => "historyLogSwitchToWorkMode"
           end [] "account" s in
  mkState mode (personalActivities s) (workActivities s)
          (allCategories s) (allAssignees s) (historyLog s).

(** The first argument of [addActivity]; a new todo is its text. *)
Record ActivityData := mkActivityData {
  d_title : string;
  d_categoryId : string;
  d_todos : option (list string);
  d_time : option string;
  d_notes : option string;
  d_recurrence : option RecurrenceRule;
  d_responsiblePersonId : option string
}.

(** [addActivity]; [activityUuid] and [todoUuid k] are the identifiers that
    [uuidv4()] returns for the activity and for its [k]-th todo. *)
Definition addActivity (env : Env) (activityUuid : string)
    (todoUuid : nat -> string) (activityData : ActivityData)
    (customCreatedAt : option Z) (s : State) : State :=
  let newActivity :=
    mkActivity activityUuid
               (d_title activityData)
               (d_categoryId activityData)
               (imap (fun k todoText => mkTodo (todoUuid k) todoText false)
                     (default [] (d_todos activityData)))
               (default (now env) customCreatedAt)
               match d_time activityData with
               | Some t => if decide (t = EmptyString) then None else Some t
               | None => None
               end
               false
               match d_notes activityData with
               | Some n => if decide (n = EmptyString) then None else Some n
               | None => None
               end
               (Some (default (mkRecurrenceRule TNone None None None)
                              (d_recurrence activityData)))
               ∅
               match appModeState s with
               | Personal => d_responsiblePersonId activityData
               | Work => None
               end in
  let s := currentActivitySetter (fun prev => prev ++ [newActivity]) s in
  addHistoryLogEntry env
    match appModeState s with
    | Personal => "historyLogAddActivityPersonal"
    | Work => "historyLogAddActivityWork"
    end
    [("title", DString (title newActivity))] (scopeOfMode (appModeState s)) s.

(** [a || b] on strings: the empty string is falsy. *)
Definition orString (a : option string) (b : string) : string :=
  match a with
  | Some s => if decide (s = EmptyString) then b else s
  | None => b
  end.

(** Lines 1078-1088: is the completion ledger dropped?  The two
    [JSON.stringify] results differ exactly when the two optional arrays of
    integers differ.  With [undefined] and [null] one value, a rule that
    holds [null] for [dayOfMonth] or [daysOfWeek] compares equal to one
    that holds [undefined], where lines 1083-1084 tell them apart; the form
    writes [undefined] there, never [null]. *)
Definition clearsLedger (updates : ActivityUpdates) (act : Activity) : bool :=
  match u_recurrence updates with
  | None => false
  | Some ur =>
      if decide (type ur = TNone) then true
      else
        bool_decide (Some (type ur) ≠ (type <$> recurrence act))
        || bool_decide (dayOfMonth ur ≠ (recurrence act ≫= dayOfMonth))
        || bool_decide (daysOfWeek ur ≠ (recurrence act ≫= daysOfWeek))
        || match truthyZ (u_createdAt updates) with
           | Some c => bool_decide (getTime c ≠ getTime (createdAt act))
           | None => false
           end
  end.

(** Lines 1070-1095: the activity that replaces [act]. *)
Definition updatedActivity (mode : AppMode) (updates : ActivityUpdates)
    (act : Activity) : Activity :=
  let updatedRecurrence :=
    match u_recurrence updates with
    | Some ur =>
        if decide (type ur = TNone)
        then Some (mkRecurrenceRule TNone None None None)
        else Some ur
    | None => recurrence act
    end in
  let updatedCompletedOccurrences :=
    if clearsLedger updates act then ∅ else completedOccurrences act in
  let updatedResponsiblePersonId :=
    match mode with
    | Personal => default (responsiblePersonId act) (u_responsiblePersonId updates)
    | Work => None
    end in
  mkActivity (default (id act) (u_id updates))
             (default (title act) (u_title updates))
             (default (categoryId act) (u_categoryId updates))
             (default (todos act) (u_todos updates))
             (default (createdAt act) (u_createdAt updates))
             (default (time act) (u_time updates))
             (default (completed act) (u_completed updates))
             (default (notes act) (u_notes updates))
             updatedRecurrence
             updatedCompletedOccurrences
             updatedResponsiblePersonId.

(** [updateActivity].  The title written to the history log is the one
    computed on line 1067, before the state updater runs.  When React runs
    the updater inside the call of the setter and an activity has the id,
    line 1072 replaces it by [updates.title || originalActivity.title]; the
    two differ only in that case, and nothing below states the title of an
    update that finds its activity. *)
Definition updateActivity (env : Env) (activityId : string)
    (updates : ActivityUpdates) (originalActivity : option Activity)
    (s : State) : State :=
  let activityTitleForLog :=
    orString (u_title updates)
             (orString (title <$> originalActivity) "Unknown Activity") in
  let s :=
    currentActivitySetter
      (map (fun act =>
              if decide (id act = activityId)
              then updatedActivity (appModeState s) updates act
              else act)) s in
  addHistoryLogEntry env
    match appModeState s with
    | Personal => "historyLogUpdateActivityPersonal"
    | Work => "historyLogUpdateActivityWork"
    end
    [("title", DString activityTitleForLog)] (scopeOfMode (appModeState s)) s.

(** [Array.prototype.find] *)
Definition findActivity (activityId : string) (l : list Activity)
  : option Activity :=
  List.find (fun act => bool_decide (id act = activityId)) l.

(** [deleteActivity] *)
Definition deleteActivity (env : Env) (activityId : string) (s : State)
  : State :=
  let deletedActivityTitle :=
    match findActivity activityId (getRawActivities s) with
    | Some activityToDelete => title activityToDelete
    | None => "Unknown Activity"
    end in
  let s :=
    currentActivitySetter
      (filter (fun act => id act ≠ activityId)) s in
  addHistoryLogEntry env
    match appModeState s with
    | Personal => "historyLogDeleteActivityPersonal"
    | Work => "historyLogDeleteActivityWork"
    end
    [("title", DString deletedActivityTitle)] (scopeOfMode (appModeState s)) s.

(** Lines 1133-1142: the activity that replaces the master activity. *)
Definition toggledActivity (occurrenceDateKey : string) (completedState : bool)
    (act : Activity) : Activity :=
  let updatedOccurrences :=
    if completedState
    then <[occurrenceDateKey := true]> (completedOccurrences act)
    else delete occurrenceDateKey (completedOccurrences act) in
  mkActivity (id act) (title act) (categoryId act) (todos act) (createdAt act)
             (time act) (completed act) (notes act) (recurrence act)
             updatedOccurrences (responsiblePersonId act).

(** [toggleOccurrenceCompletion] *)
Definition toggleOccurrenceCompletion (env : Env) (masterActivityId : string)
    (occurrenceDateTimestamp : Z) (completedState : bool) (s : State)
  : State :=
  let activityTitleForLog :=
    match findActivity masterActivityId (getRawActivities s) with
    | Some masterActivity => title masterActivity
    | None => "Unknown Activity"
    end in
  let occurrenceDateKey := formatISO_date occurrenceDateTimestamp in
  let s :=
    currentActivitySetter
      (map (fun act =>
              if decide (id act = masterActivityId)
              then toggledActivity occurrenceDateKey completedState act
              else act)) s in
  addHistoryLogEntry env
    match appModeState s with
    | Personal => "historyLogToggleActivityCompletionPersonal"
    | Work => "historyLogToggleActivityCompletionWork"
    end
    [("title", DString activityTitleForLog);
     ("completed", DNumber (if completedState then 1 else 0))]
    (scopeOfMode (appModeState s)) s.

(** *** The call that can throw *)

Inductive Exception := RangeError.

(** How a call ends: it returns, and the state updates it queued are
    applied, or it throws before it queued any. *)
Inductive Completion := Returns (s : State) | Throws (e : Exception).

(** [toggleOccurrenceCompletion] with the number it is handed.  Line 1130
    formats [new Date(occurrenceDateTimestamp)] before any setter is
    called, and [formatISO] starts with
    [if (!isValid(date)) throw new RangeError('Invalid time value')].
    [updateActivity] and [deleteActivity] call nothing that throws
    ([getTime] of an Invalid Date is [NaN], [JSON.stringify] of an array of
    numbers returns). *)
Definition toggleOccurrenceCompletionCall (env : Env)
    (masterActivityId : string) (occurrenceDateTimestamp : JSNumber)
    (completedState : bool) (s : State) : Completion :=
  match Date_ofNumber occurrenceDateTimestamp with
  | Some date =>
      Returns (toggleOccurrenceCompletion env masterActivityId date
                                          completedState s)
  | None => Throws RangeError
  end.

(** [{ ...act, categoryId: '' }] *)
Definition clearCategory (act : Activity) : Activity :=
  mkActivity (id act) (title act) EmptyString (todos act) (createdAt act)
             (time act) (completed act) (notes act) (recurrence act)
             (completedOccurrences act) (responsiblePersonId act).

(** [{ ...act, responsiblePersonId: undefined }] *)
Definition clearResponsiblePerson (act : Activity) : Activity :=
  mkActivity (id act) (title act) (categoryId act) (todos act) (createdAt act)
             (time act) (completed act) (notes act) (recurrence act)
             (completedOccurrences act) None.

(** [deleteCategory] (the toast is not modelled). *)
Definition deleteCategory (env : Env) (categoryId : string) (s : State)
  : State :=
  match List.find (fun cat => bool_decide (catId cat = categoryId))
                  (allCategories s) with
  | None => s
  | Some categoryToDelete =>
      let s :=
        addHistoryLogEntry env "historyLogDeleteCategory"
          [("name", DString (catName categoryToDelete))] "category" s in
      let clear := fun act =>
        if decide (Model.categoryId act = categoryId)
        then clearCategory act else act in
      mkState (appModeState s)
              (map clear (personalActivities s))
              (map clear (workActivities s))
              (filter (fun cat => catId cat ≠ categoryId) (allCategories s))
              (allAssignees s) (historyLog s)
  end.

(** [deleteAssignee] (the toast is not modelled). *)
Definition deleteAssignee (env : Env) (assigneeId : string) (s : State)
  : State :=
  match List.find (fun asg => bool_decide (asgId asg = assigneeId))
                  (allAssignees s) with
  | None => s
  | Some assigneeToDelete =>
      let clearAssigneeFromActivities :=
        map (fun act =>
               if decide (responsiblePersonId act = Some assigneeId)
               then clearResponsiblePerson act else act) in
      let s :=
        mkState (appModeState s)
                (clearAssigneeFromActivities (personalActivities s))
                (workActivities s)
                (allCategories s)
                (filter (fun asg => asgId asg ≠ assigneeId) (allAssignees s))
                (historyLog s) in
      addHistoryLogEntry env "historyLogDeleteAssignee"
        [("name", DString (asgName assigneeToDelete))] "assignee" s
  end.

End Store.

(* ===================================================================== *)
(** ** The notification scheduler *)
(* ===================================================================== *)

Module Scheduler.
Import JSDate Model Generator.
Local Open Scope Z_scope.

(** The two [useState] cells of the scheduler. *)
Record DedupState := mkDedupState {
  lastNotificationCheckDay : option Z;
  notifiedToday : gset string
}.

(** One notification shown by a tick ([showSystemNotification],
    [addUINotification] and [toast] are called together); [typeKey] is the
    last component of the key it was de-duplicated under. *)
Record Emission := mkEmission {
  activityId : string;
  occurrence : Z;
  typeKey : string
}.

(** [`${masterId}:${occurrenceDateKey}:${typeKey}`] *)
Definition notificationKey (masterId occurrenceDateKey typeKey : string)
  : string :=
  masterId +:+ ":" +:+ occurrenceDateKey +:+ ":" +:+ typeKey.

Definition occurrenceDateKey (e : Emission) : string :=
  formatISO_date (occurrence e).

Definition emissionKey (e : Emission) : string :=
  notificationKey (activityId e) (occurrenceDateKey e) (typeKey e).

(** [String.prototype.split(':')]; 58 is the code of the colon. *)
Fixpoint splitColon (s : string) : list string :=
  match s with
  | EmptyString => [EmptyString]
  | String a s' =>
      if Z.of_N (Ascii.N_of_ascii a) =? 58 then EmptyString :: splitColon s'
      else match splitColon s' with
           | piece :: rest => String a piece :: rest
           | [] => [String a EmptyString]
           end
  end.

(** [Number(s)] on a string of decimal digits (the empty string gives 0);
    any other string is [None] here.  [Number] also reads surrounding white
    space, a sign, a fraction, an exponent, [Infinity] and the [0x], [0o]
    and [0b] literals, so [hoursMinutes] is line 725 on the times the form
    lets through ([HH:MM], [Modal.timePattern]) and what is stated about
    the "starting soon" notifications is stated for activities with such a
    time. *)
Fixpoint digitsValue (s : string) (acc : Z) : option Z :=
  match s with
  | EmptyString => Some acc
  | String a s' =>
      let n := Z.of_N (Ascii.N_of_ascii a) in
      if (48 <=? n) && (n <=? 57) then digitsValue s' (10 * acc + (n - 48))
      else None
  end.

(** [const [hours, minutes] = time.split(':').map(Number)]: [None] when
    either is [NaN] or [undefined], in which case [setHours] yields an
    invalid date and both comparisons of line 731 are false. *)
Definition hoursMinutes (time : string) : option (Z * Z) :=
  match splitColon time with
  | h :: m :: _ =>
      match digitsValue h 0, digitsValue m 0 with
      | Some hours, Some minutes => Some (hours, minutes)
      | _, _ => None
      end
  | _ => None
  end.

(** Lines 128-132. *)
Definition getStartOfDayUtil (date : Z) : Z := Date_setHours date 0 0 0 0.

Section Tick.
(** The values of the two state cells that the interval callback closed
    over, and the clock reading of this tick. *)
Variable notified : gset string.
Variable now : Z.

Definition fiveMinutesInMs : Z := 5 * 60 * 1000.

(** Lines 717-742: "starting soon" notifications of one activity. *)
Definition startingSoon (today : Z) (masterActivity : Activity)
  : list Emission :=
  match time masterActivity with
  | None => []
  | Some t =>
      if decide (t = EmptyString) then [] else
      let todayInstances :=
        generateFutureInstancesForNotifications masterActivity today
                                                (endOfDay today) in
      flat_map
        (fun instance =>
           let occurrenceDateKey := formatISO_date (instanceDate instance) in
           let notificationKey5Min :=
             notificationKey (id masterActivity) occurrenceDateKey "5min_soon" in
           let isInstanceCompleted :=
             isCompletedOn (completedOccurrences masterActivity)
                           occurrenceDateKey in
           if negb isInstanceCompleted
              && negb (bool_decide (notificationKey5Min ∈ notified))
           then
             match hoursMinutes t with
             | Some (hours, minutes) =>
                 let activityDateTime :=
                   Date_setHours (instanceDate instance) hours minutes 0 0 in
                 let timeDiffMs := getTime activityDateTime - getTime now in
                 if (0 <=? timeDiffMs) && (timeDiffMs <=? fiveMinutesInMs)
                 then [mkEmission (id masterActivity)
                                  (getTime (instanceDate instance)) "5min_soon"]
                 else []
             | None => []
             end
           else [])
        todayInstances
  end.

(** Lines 755-766: the local function [notify]. *)
Definition notify (masterActivity : Activity) (instance : FutureInstance)
    (typeKey : string) : list Emission :=
  let notificationFullKey :=
    notificationKey (id masterActivity)
                    (formatISO_date (instanceDate instance)) typeKey in
  if bool_decide (notificationFullKey ∈ notified) then []
  else [mkEmission (id masterActivity) (getTime (instanceDate instance)) typeKey].

(** Lines 745-788: reminders for the occurrences of the next eight days. *)
Definition upcoming (today : Z) (masterActivity : Activity) : list Emission :=
  match recurringRule masterActivity with
  | None => []
  | Some recurrence =>
      let recurrenceType := type recurrence in
      let futureCheckEndDate := addDays today 8 in
      let upcomingInstances :=
        generateFutureInstancesForNotifications masterActivity
          (addDays today 1) futureCheckEndDate in
      flat_map
        (fun instance =>
           let instanceDateKey := formatISO_date (instanceDate instance) in
           if isCompletedOn (completedOccurrences masterActivity) instanceDateKey
           then []
           else
             let oneDayBeforeInstance :=
               startOfDay (subDays (instanceDate instance) 1) in
             let twoDaysBeforeInstance :=
               startOfDay (subDays (instanceDate instance) 2) in
             let oneWeekBeforeInstance :=
               startOfDay (subWeeks (instanceDate instance) 1) in
             match recurrenceType with
             | Weekly =>
                 if isSameDay today oneDayBeforeInstance
                 then notify masterActivity instance "1day_weekly" else []
             | Monthly =>
                 (if isSameDay today oneWeekBeforeInstance
                  then notify masterActivity instance "1week_monthly" else [])
                 ++ (if isSameDay today twoDaysBeforeInstance
                     then notify masterActivity instance "2days_monthly" else [])
                 ++ (if isSameDay today oneDayBeforeInstance
                     then notify masterActivity instance "1day_monthly" else [])
             | _ => []
             end)
        upcomingInstances
  end.

(** Line 712: everything one tick shows, in order. *)
Definition emissions (activitiesToScan : list Activity) : list Emission :=
  let today := getStartOfDayUtil now in
  flat_map
    (fun masterActivity =>
       startingSoon today masterActivity ++ upcoming today masterActivity)
    activitiesToScan.

End Tick.

(** Lines 699-790, one run of the interval callback.  The callback reads
    [lastNotificationCheckDay] and [notifiedToday] as they were when the
    interval was set up; both are dependencies of the effect, so that is the
    state the previous tick left.  The callback's state updates are applied
    in call order once it returns: the reset of line 705 first, then one
    [prev => new Set(prev).add(key)] per notification shown. *)
Definition tick (st : DedupState) (now : Z) (activitiesToScan : list Activity)
  : list Emission * DedupState :=
  let currentDayOfMonthFromNow := getDate now in
  let reset :=
    match lastNotificationCheckDay st with
    | Some d => negb (d =? currentDayOfMonthFromNow)
    | None => false
    end in
  let shown := emissions (notifiedToday st) now activitiesToScan in
  (shown,
   mkDedupState
     (Some currentDayOfMonthFromNow)
     (foldl (fun prev e => prev ∪ {[emissionKey e]})
            (if reset then ∅ else notifiedToday st) shown)).

End Scheduler.

(* ===================================================================== *)
(** ** The store: todos, categories and assignees *)
(* ===================================================================== *)

Module StoreOps.
Import Model Store.
Local Open Scope Z_scope.

(** [{ ...act, todos }] *)
Definition withTodos (act : Activity) (l : list Todo) : Activity :=
  mkActivity (id act) (title act) (categoryId act) l (createdAt act)
             (time act) (completed act) (notes act) (recurrence act)
             (completedOccurrences act) (responsiblePersonId act).

(** [addTodoToActivity]; [todoUuid] is what [uuidv4()] returns. *)
Definition addTodoToActivity (todoUuid : string) (activityId todoText : string)
    (s : State) : State :=
  let newTodo := mkTodo todoUuid todoText false in
  currentActivitySetter
    (map (fun act =>
            if decide (id act = activityId)
            then withTodos act (todos act ++ [newTodo])
            else act)) s.

(** [Partial<Todo>]: an absent key is [None]. *)
Record TodoUpdates := mkTodoUpdates {
  tu_id : option string;
  tu_text : option string;
  tu_completed : option bool
}.

(** [{ ...todo, ...updates }] *)
Definition updatedTodo (updates : TodoUpdates) (todo : Todo) : Todo :=
  mkTodo (default (todoId todo) (tu_id updates))
         (default (text todo) (tu_text updates))
         (default (todoCompleted todo) (tu_completed updates)).

(** [updateTodoInActivity] *)
Definition updateTodoInActivity (activityId todoId : string)
    (updates : TodoUpdates) (s : State) : State :=
  currentActivitySetter
    (map (fun act =>
            if decide (id act = activityId)
            then withTodos act
                   (map (fun todo =>
                           if decide (Model.todoId todo = todoId)
                           then updatedTodo updates todo
                           else todo)
                        (todos act))
            else act)) s.

(** [deleteTodoFromActivity] *)
Definition deleteTodoFromActivity (activityId todoId : string) (s : State)
  : State :=
  currentActivitySetter
    (map (fun act =>
            if decide (id act = activityId)
            then withTodos act
                   (filter (fun todo => Model.todoId todo ≠ todoId) (todos act))
            else act)) s.

(** *** Categories *)

(** A category without a [mode] is one whose [mode] is the empty string:
    the provider only ever tests [mode] for truthiness and compares it with
    non-empty strings. *)

(** [filteredCategories], lines 365-370. *)
Definition filteredCategories (isLoading : bool) (s : State) : list Category :=
  if isLoading then []
  else filter (fun cat => mode cat = EmptyString
                          \/ mode cat = "all"
                          \/ mode cat = scopeOfMode (appModeState s))
              (allCategories s).

(** [getCategoryById] *)
Definition getCategoryById (categoryId : string) (s : State) : option Category :=
  List.find (fun cat => bool_decide (catId cat = categoryId)) (allCategories s).

(** [setAllCategories] *)
Definition setAllCategories (f : list Category -> list Category) (s : State)
  : State :=
  mkState (appModeState s) (personalActivities s) (workActivities s)
          (f (allCategories s)) (allAssignees s) (historyLog s).

(** [addCategory]; [categoryUuid] is what [uuidv4()] returns for the
    category (the toast and the icon component are not modelled). *)
Definition addCategory (env : Env) (categoryUuid : string)
    (name iconName mode : string) (s : State) : State :=
  let newCategory := mkCategory ("cat_" +:+ categoryUuid) name iconName mode in
  let s := setAllCategories (fun prev => prev ++ [newCategory]) s in
  let actionKey :=
    if decide (mode = "personal") then "historyLogAddCategoryPersonal"
    else if decide (mode = "work") then "historyLogAddCategoryWork"
    else "historyLogAddCategoryAll" in
  addHistoryLogEntry env actionKey [("name", DString name)] "category" s.

(** [Partial<Omit<Category, 'id' | 'icon'>>] *)
Record CategoryUpdates := mkCategoryUpdates {
  cu_name : option string;
  cu_iconName : option string;
  cu_mode : option string
}.

(** Lines 1225-1240: the category that replaces [cat]. *)
Definition updatedCategory (updates : CategoryUpdates) (cat : Category)
  : Category :=
  mkCategory (catId cat)
             (default (catName cat) (cu_name updates))
             (default (Model.iconName cat) (cu_iconName updates))
             (default (Model.mode cat) (cu_mode updates)).

(** Truthiness of an optional string: [undefined] and [''] are falsy. *)
Definition truthyString (o : option string) : option string :=
  match o with
  | Some s => if decide (s = EmptyString) then None else Some s
  | None => None
  end.

(** The closure variables [categoryNameForLog] and [categoryModeForLog]
    are assigned inside the state updater, once per category with the id:
    [if (!v) v = newValue].  React runs the updater either at the call of
    the setter (when the component has no update pending) or at the next
    render; [eager] says which.  In the second case the variables still
    hold their initial values when the log entry is written. *)
Definition seenByUpdater {X : Type} (eager : bool) (matches : X -> bool)
    (newValue : X -> string) (l : list X) (v : option string) : option string :=
  if eager then
    fold_left (fun v x =>
                 if matches x
                 then match truthyString v with
                      | Some _ => v
                      | None => Some (newValue x)
                      end
                 else v) l v
  else v.

(** [updateCategory] (the toast is not modelled). *)
Definition updateCategory (env : Env) (eager : bool) (categoryId : string)
    (updates : CategoryUpdates) (oldCategoryData : option Category)
    (s : State) : State :=
  let hasId := fun cat => bool_decide (catId cat = categoryId) in
  let categoryNameForLog :=
    seenByUpdater eager hasId
      (fun cat => catName (updatedCategory updates cat))
      (allCategories s) (cu_name updates) in
  let categoryModeForLog :=
    seenByUpdater eager hasId
      (fun cat => Model.mode (updatedCategory updates cat))
      (allCategories s) (cu_mode updates) in
  let s :=
    setAllCategories
      (map (fun cat =>
              if decide (catId cat = categoryId)
              then updatedCategory updates cat
              else cat)) s in
  let catName :=
    orString categoryNameForLog
             (orString (catName <$> oldCategoryData) "Unknown Category") in
  let catMode :=
    orString categoryModeForLog
             (orString (Model.mode <$> oldCategoryData) "all") in
  let actionKey :=
    if decide (catMode = "personal") then "historyLogUpdateCategoryPersonal"
    else if decide (catMode = "work") then "historyLogUpdateCategoryWork"
    else "historyLogUpdateCategoryAll" in
  addHistoryLogEntry env actionKey [("name", DString catName)] "category" s.

(** *** Assignees *)

(** [getAssigneeById] *)
Definition getAssigneeById (assigneeId : string) (s : State) : option Assignee :=
  List.find (fun asg => bool_decide (asgId asg = assigneeId)) (allAssignees s).

(** [setAllAssignees] *)
Definition setAllAssignees (f : list Assignee -> list Assignee) (s : State)
  : State :=
  mkState (appModeState s) (personalActivities s) (workActivities s)
          (allCategories s) (f (allAssignees s)) (historyLog s).

(** [addAssignee] (the toast is not modelled). *)
Definition addAssignee (env : Env) (assigneeUuid : string) (name : string)
    (s : State) : State :=
  let newAssignee := mkAssignee ("asg_" +:+ assigneeUuid) name in
  let s := setAllAssignees (fun prev => prev ++ [newAssignee]) s in
  addHistoryLogEntry env "historyLogAddAssignee" [("name", DString name)]
                     "assignee" s.

(** [updateAssignee]; [updates] is [updates.name].  [oldNameForLog] is
    assigned by the updater as well, unconditionally, so it holds the name
    of the last assignee with the id.  A detail whose value is [undefined]
    is left out of the list. *)
Definition updateAssignee (env : Env) (eager : bool) (assigneeId : string)
    (updates : option string) (s : State) : State :=
  let hasId := fun asg => bool_decide (asgId asg = assigneeId) in
  let newName := fun asg => default (asgName asg) updates in
  let assigneeNameForLog :=
    seenByUpdater eager hasId newName (allAssignees s) updates in
  let oldNameForLog :=
    if eager
    then fold_left (fun v asg => if hasId asg then Some (asgName asg) else v)
                   (allAssignees s) None
    else None in
  let s :=
    setAllAssignees
      (map (fun asg =>
              if decide (asgId asg = assigneeId)
              then mkAssignee (asgId asg) (newName asg)
              else asg)) s in
  let asgName := orString assigneeNameForLog "Unknown Assignee" in
  addHistoryLogEntry env "historyLogUpdateAssignee"
    (("name", DString asgName)
       :: match oldNameForLog with
          | Some old => if decide (old = asgName) then []
                        else [("oldName", DString old)]
          | None => []
          end)
    "assignee" s.

End StoreOps.

(* ===================================================================== *)
(** ** Sign-in state and the notification list *)
(* ===================================================================== *)

Module Session.
Import Model Store.
Local Open Scope Z_scope.

Inductive PomodoroPhase := Off | WorkPhase | ShortBreak | LongBreak.

Record UINotification := mkUINotification {
  notifId : string;
  notifTimestamp : Z;
  read : bool;
  notifTitle : string;
  notifDescription : string;
  notifActivityId : option string;
  notifInstanceDate : option Z
}.

(** [Omit<UINotification, 'id' | 'timestamp' | 'read'>] *)
Record NotificationData := mkNotificationData {
  nd_title : string;
  nd_description : string;
  nd_activityId : option string;
  nd_instanceDate : option Z
}.

(** The [useState] cells of [AppProvider] next to those of [Store.State]. *)
Record Shell := mkShell {
  store : State;
  isAuthenticated : bool;
  loginAttempts : Z;
  lockoutEndTime : option Z;
  sessionExpiryTimestamp : option Z;
  uiNotifications : list UINotification;
  pomodoroPhase : PomodoroPhase;
  pomodoroTimeRemaining : Z;
  pomodoroIsRunning : bool;
  pomodoroCyclesCompleted : Z;
  isPomodoroReady : bool
}.

Definition SESSION_DURATION_24_HOURS_MS : Z := 24 * 60 * 60 * 1000.
Definition SESSION_DURATION_30_DAYS_MS : Z := 30 * 24 * 60 * 60 * 1000.
Definition POMODORO_WORK_DURATION_SECONDS : Z := 25 * 60.

Definition withStore (sh : Shell) (st : State) : Shell :=
  mkShell st (isAuthenticated sh) (loginAttempts sh) (lockoutEndTime sh)
          (sessionExpiryTimestamp sh) (uiNotifications sh) (pomodoroPhase sh)
          (pomodoroTimeRemaining sh) (pomodoroIsRunning sh)
          (pomodoroCyclesCompleted sh) (isPomodoroReady sh).

(** [setUINotifications] *)
Definition setUINotifications
    (f : list UINotification -> list UINotification) (sh : Shell) : Shell :=
  mkShell (store sh) (isAuthenticated sh) (loginAttempts sh) (lockoutEndTime sh)
          (sessionExpiryTimestamp sh) (f (uiNotifications sh)) (pomodoroPhase sh)
          (pomodoroTimeRemaining sh) (pomodoroIsRunning sh)
          (pomodoroCyclesCompleted sh) (isPomodoroReady sh).

(** [setHistoryLog] *)
Definition setHistoryLog (f : list HistoryLogEntry -> list HistoryLogEntry)
    (st : State) : State :=
  mkState (appModeState st) (personalActivities st) (workActivities st)
          (allCategories st) (allAssignees st) (f (historyLog st)).

(** [addUINotification]: [env] holds what [uuidv4()] and [Date.now()]
    return. *)
Definition addUINotification (env : Env) (data : NotificationData) (sh : Shell)
  : Shell :=
  let newNotification :=
    mkUINotification (uuid env) (now env) false (nd_title data)
                     (nd_description data) (nd_activityId data)
                     (nd_instanceDate data) in
  setUINotifications (fun prev => newNotification :: take 49 prev) sh.

(** [{ ...n, read: true }] *)
Definition markRead (n : UINotification) : UINotification :=
  mkUINotification (notifId n) (notifTimestamp n) true (notifTitle n)
                   (notifDescription n) (notifActivityId n) (notifInstanceDate n).

(** [markUINotificationAsRead] *)
Definition markUINotificationAsRead (notificationId : string) (sh : Shell)
  : Shell :=
  setUINotifications
    (map (fun n => if decide (notifId n = notificationId) then markRead n else n))
    sh.

(** [markAllUINotificationsAsRead] *)
Definition markAllUINotificationsAsRead (sh : Shell) : Shell :=
  setUINotifications (map markRead) sh.

(** [clearAllUINotifications] *)
Definition clearAllUINotifications (sh : Shell) : Shell :=
  setUINotifications (fun _ => []) sh.

(** [logout], lines 477-509.  [swController] says whether
    [navigator.serviceWorker.controller] is there; the message to the
    service worker, the removal of the storage keys and the broadcast to
    the other tabs are not modelled. *)
Definition logout (env : Env) (swController : bool) (sh : Shell) : Shell :=
  let st := addHistoryLogEntry env "historyLogLogout" [] "account" (store sh) in
  let st := setHistoryLog (fun _ => []) st in
  if swController then
    mkShell st false 0 None None (uiNotifications sh) (pomodoroPhase sh)
            (pomodoroTimeRemaining sh) (pomodoroIsRunning sh)
            (pomodoroCyclesCompleted sh) (isPomodoroReady sh)
  else
    mkShell st false 0 None None (uiNotifications sh) Off
            POMODORO_WORK_DURATION_SECONDS false 0 false.

(** [setIsAuthenticated], lines 996-1021.  [t] is the translation
    function; [envLog] and [envNotif] hold what [uuidv4()] and [Date.now()]
    return inside [addHistoryLogEntry] and [addUINotification], [nowTime]
    is the [Date.now()] of line 1014.  The system notification is not
    modelled. *)
Definition setIsAuthenticated (t : string -> string) (envLog envNotif : Env)
    (nowTime : Z) (value rememberMe : bool) (sh : Shell) : Shell :=
  let wasAuthenticated := isAuthenticated sh in
  let sh :=
    if value && negb wasAuthenticated then
      let st := addHistoryLogEntry envLog "historyLogLogin" [] "account"
                                   (store sh) in
      let st := setHistoryLog (fun _ => []) st in
      addUINotification envNotif
        (mkNotificationData (t "loginSuccessNotificationTitle")
                            (t "loginSuccessNotificationDescription") None None)
        (withStore sh st)
    else sh in
  let expiry :=
    if value then
      let expiryDuration :=
        if rememberMe then SESSION_DURATION_30_DAYS_MS
        else SESSION_DURATION_24_HOURS_MS in
      Some (nowTime + expiryDuration)
    else None in
  mkShell (store sh) value (loginAttempts sh) (lockoutEndTime sh) expiry
          (uiNotifications sh) (pomodoroPhase sh) (pomodoroTimeRemaining sh)
          (pomodoroIsRunning sh) (pomodoroCyclesCompleted sh)
          (isPomodoroReady sh).

(** Lines 571-580, the test made when the provider mounts: a stored
    session whose expiry time has passed is logged out. *)
Definition sessionExpired (now expiryTime : Z) : bool := expiryTime <? now.

End Session.

(* ===================================================================== *)
(** ** The activity form ([activity-modal.tsx]) *)
(* ===================================================================== *)

Module Modal.
Import JSDate Model Store.
Local Open Scope Z_scope.

(** A todo of the form: [id] and [completed] are optional. *)
Record FormTodo := mkFormTodo {
  ft_id : option string;
  ft_text : string;
  ft_completed : option bool
}.

(** [data.recurrence]: [endDate] is a [Date] or [null]. *)
Record RecurrenceForm := mkRecurrenceForm {
  rf_type : RecurrenceType;
  rf_endDate : option Z;
  rf_daysOfWeek : option (list Z);
  rf_dayOfMonth : option Z
}.

(** [ActivityFormData] *)
Record ActivityFormData := mkActivityFormData {
  fd_title : string;
  fd_categoryId : string;
  fd_activityDate : Z;
  fd_time : option string;
  fd_todos : option (list FormTodo);
  fd_notes : option string;
  fd_recurrence : RecurrenceForm;
  fd_responsiblePersonId : option string
}.

(** Code of a character. *)
Definition code (a : Ascii.ascii) : Z := Z.of_N (Ascii.N_of_ascii a).

(** [\d] *)
Definition isDigit (a : Ascii.ascii) : bool := (48 <=? code a) && (code a <=? 57).

(** The pattern of the [time] field, line 84:
    [/^([01]\d|2[0-3]):([0-5]\d)$/]. *)
Definition timePattern (s : string) : bool :=
  match s with
  | String h1 (String h2 (String c (String m1 (String m2 EmptyString)))) =>
      ((((code h1 =? 48) || (code h1 =? 49)) && isDigit h2)
       || ((code h1 =? 50) && (48 <=? code h2) && (code h2 <=? 51)))
      && (code c =? 58)
      && ((48 <=? code m1) && (code m1 <=? 53))
      && isDigit m2
  | _ => false
  end.

(** The [time] field validates: it matches the pattern, or is the empty
    string, or is absent. *)
Definition timeFieldValid (time : option string) : bool :=
  match time with
  | Some t => timePattern t || bool_decide (t = EmptyString)
  | None => true
  end.

(** Lines 164-169: the rule [onSubmit] builds from the form.  A [Date] and
    an array are truthy whatever they hold. *)
Definition recurrenceRule (data : RecurrenceForm) : option RecurrenceRule :=
  match rf_type data with
  | TNone => None
  | ty =>
      Some (mkRecurrenceRule
              ty
              match rf_endDate data with
              | Some endDate => Some (getTime endDate)
              | None => None
              end
              match ty with
              | Weekly => Some (default [] (rf_daysOfWeek data))
              | _ => None
              end
              match ty with
              | Monthly => truthyZ (rf_dayOfMonth data)
              | _ => None
              end)
  end.

(** Lines 124-139: the recurrence part of the values the form is reset to
    when it opens on an existing activity. *)
Definition recurrenceFormOf (activity : Activity) : RecurrenceForm :=
  let baseDate := createdAt activity in
  mkRecurrenceForm
    (default TNone (type <$> recurrence activity))
    (truthyZ (recurrence activity ≫= endDate))
    (Some (default [] (recurrence activity ≫= daysOfWeek)))
    (Some (default (getDate baseDate)
                   (truthyZ (recurrence activity ≫= dayOfMonth)))).

(** Lines 171-185 and 194-197: what [onSubmit] hands to [addActivity] when
    the form was opened without an activity. *)
Definition newActivityData (appMode : AppMode) (data : ActivityFormData)
  : ActivityData :=
  mkActivityData
    (fd_title data)
    (fd_categoryId data)
    (Some (ft_text <$> default [] (fd_todos data)))
    match fd_time data with
    | Some t => if decide (t = EmptyString) then None else Some t
    | None => None
    end
    (fd_notes data)
    (recurrenceRule (fd_recurrence data))
    match appMode with
    | Personal => fd_responsiblePersonId data
    | Work => None
    end.

(** [onSubmit] on a form opened without an activity (the toast and the
    closing of the dialog are not modelled). *)
Definition onSubmitNew (env : Env) (activityUuid : string)
    (todoUuid : nat -> string) (data : ActivityFormData) (s : State) : State :=
  addActivity env activityUuid todoUuid
              (newActivityData (appModeState s) data)
              (Some (getTime (fd_activityDate data))) s.

(** Line 210: the last day the end-date picker offers. *)
Definition maxRecurrenceEndDate (activityStartDate : Z) : Z :=
  addDays (addMonths activityStartDate 5) 1.

End Modal.

(* ===================================================================== *)
(** ** The row of an activity ([activity-list-item.tsx]) *)
(* ===================================================================== *)

Module ListItem.
Import JSDate Model Store.
Local Open Scope Z_scope.

(** The [activity] prop: a master activity, or a generated instance that
    carries the three optional fields below. *)
Record Shown := mkShown {
  activity : Activity;
  isRecurringInstance : bool;
  masterActivityId : option string;
  originalInstanceDate : option Z
}.

(** Lines 29-34; [instanceDate] is the prop of that name. *)
Definition isCompletedForThisOccurrence (shown : Shown) (instanceDate : option Z)
  : bool :=
  let effectiveDate := default (createdAt (activity shown)) instanceDate in
  let occurrenceDateKey := formatISO_date effectiveDate in
  if isRecurringInstance shown
  then isCompletedOn (completedOccurrences (activity shown)) occurrenceDateKey
  else completed (activity shown).

(** Lines 36-37. *)
Definition completedTodos (shown : Shown) : nat :=
  length (filter (fun t => todoCompleted t = true) (todos (activity shown))).

Definition totalTodos (shown : Shown) : nat := length (todos (activity shown)).

(** [{ ...todo, completed: true }] *)
Definition todoDone (todo : Todo) : Todo := mkTodo (todoId todo) (text todo) true.

(** Truthiness of an optional string. *)
Definition truthyId (o : option string) : option string :=
  match o with
  | Some s => if decide (s = EmptyString) then None else Some s
  | None => None
  end.

(** [handleActivityCompletedChange], lines 39-56. *)
Definition handleActivityCompletedChange (env : Env) (shown : Shown)
    (completedValue : bool) (s : State) : State :=
  match isRecurringInstance shown,
        truthyId (masterActivityId shown),
        truthyZ (originalInstanceDate shown) with
  | true, Some masterId, Some instanceDate =>
      toggleOccurrenceCompletion env masterId instanceDate completedValue s
  | true, _, _ => s
  | false, _, _ =>
      let updatedTodos :=
        if completedValue && (0 <? Z.of_nat (length (todos (activity shown))))
        then map todoDone (todos (activity shown))
        else todos (activity shown) in
      updateActivity env (id (activity shown))
        (mkActivityUpdates None None None (Some updatedTodos) None None
                           (Some completedValue) None None None None)
        None s
  end.

End ListItem.

(* ===================================================================== *)
(** ** Facts about the calendar *)
(* ===================================================================== *)

Module JSDateFacts.
Import JSDate.
Local Open Scope Z_scope.

(** Exhaustive check of a boolean property on [z, z + k). *)
Fixpoint all_from (k : nat) (z : Z) (P : Z -> bool) : bool :=
  match k with
  | O => true
  | S k' => P z && all_from k' (z + 1) P
  end.

Lemma all_from_spec (k : nat) (P : Z -> bool) :
  forall z0, all_from k z0 P = true ->
  forall z, z0 <= z < z0 + Z.of_nat k -> P z = true.
Proof.
  induction k as [|k IH]; simpl; intros z0 H z Hz; [lia|].
  apply andb_prop in H as [H1 H2].
  destruct (Z.eq_dec z z0) as [->|Hne]; [exact H1|].
  apply (IH (z0 + 1)); [exact H2 | lia].
Qed.

(** What one era (400 years) looks like: the year of the era, the month
    and the day of the month are in range, the day of the month fits the
    month, and the day of the era is recovered from them. *)
Definition era_day_ok (doe : Z) : bool :=
  let yoe := yearOfEra doe in
  let doy := dayOfMarchYear doe in
  let mp := marchMonth doy in
  let dt := doy - marchMonthStart mp + 1 in
  let m := if mp <? 10 then mp + 2 else mp - 10 in
  let y := yoe + (if mp <? 10 then 0 else 1) in
  (0 <=? yoe) && (yoe <=? 399) && (0 <=? mp) && (mp <=? 11)
  && (1 <=? dt) && (dt <=? DaysInMonth y m)
  && (yoe * 365 + yoe / 4 - yoe / 100 + marchMonthStart mp + dt - 1 =? doe).

Lemma era_day_ok_all : all_from (Z.to_nat daysPerEra) 0 era_day_ok = true.
Proof. vm_cast_no_check (eq_refl true). Qed.

Lemma era_day_facts (doe : Z) :
  0 <= doe < daysPerEra -> era_day_ok doe = true.
Proof.
  intros H. apply (all_from_spec _ _ 0 era_day_ok_all).
  rewrite Z2Nat.id; [lia | unfold daysPerEra; lia].
Qed.

Lemma dayOfEra_range (day : Z) : 0 <= dayOfEra day < daysPerEra.
Proof. unfold dayOfEra. apply Z.mod_pos_bound. unfold daysPerEra. lia. Qed.

Lemma day_era_decomp (day : Z) :
  day = eraOfDay day * daysPerEra + dayOfEra day - epochShift.
Proof.
  unfold eraOfDay, dayOfEra.
  pose proof (Z.div_mod (day + epochShift) daysPerEra) as H.
  unfold daysPerEra in *. lia.
Qed.

Lemma isLeapYear_add_400 (y k : Z) : isLeapYear (y + k * 400) = isLeapYear y.
Proof.
  unfold isLeapYear.
  replace (y + k * 400) with (y + (k * 100) * 4) at 1 by lia.
  replace (y + k * 400) with (y + (k * 4) * 100) at 1 by lia.
  rewrite !Z.mod_add by lia. reflexivity.
Qed.

Lemma DaysInMonth_add_400 (y k m : Z) :
  DaysInMonth (y + k * 400) m = DaysInMonth y m.
Proof. unfold DaysInMonth. rewrite isLeapYear_add_400. reflexivity. Qed.

Lemma Day_TimeWithinDay (t : Z) : t = MakeDate (Day t) (TimeWithinDay t).
Proof.
  unfold MakeDate, Day, TimeWithinDay.
  pose proof (Z.div_mod t msPerDay). unfold msPerDay in *. lia.
Qed.

Lemma TimeWithinDay_range (t : Z) : 0 <= TimeWithinDay t < msPerDay.
Proof. unfold TimeWithinDay. apply Z.mod_pos_bound. unfold msPerDay. lia. Qed.

Lemma MonthFromTime_range (t : Z) : 0 <= MonthFromTime t <= 11.
Proof.
  pose proof (era_day_facts _ (dayOfEra_range (Day t))) as H.
  unfold era_day_ok in H. cbv zeta in H.
  unfold MonthFromTime.
  destruct (marchMonth (dayOfMarchYear (dayOfEra (Day t))) <? 10) eqn:E;
    lia.
Qed.

(** The day of the month really is a day of that month. *)
Lemma DateFromTime_range (t : Z) :
  1 <= DateFromTime t <= DaysInMonth (YearFromTime t) (MonthFromTime t).
Proof.
  pose proof (era_day_facts _ (dayOfEra_range (Day t))) as H.
  unfold era_day_ok in H. cbv zeta in H.
  unfold DateFromTime, YearFromTime, MonthFromTime.
  set (doe := dayOfEra (Day t)) in *.
  set (mp := marchMonth (dayOfMarchYear doe)) in *.
  replace (yearOfEra doe + eraOfDay (Day t) * 400 + (if mp <? 10 then 0 else 1))
    with (yearOfEra doe + (if mp <? 10 then 0 else 1) + eraOfDay (Day t) * 400)
    by lia.
  rewrite DaysInMonth_add_400. lia.
Qed.

(** [MakeDay] inverts the three calendar fields. *)
Lemma MakeDay_fields (t : Z) :
  MakeDay (YearFromTime t) (MonthFromTime t) (DateFromTime t) = Day t.
Proof.
  pose proof (era_day_facts _ (dayOfEra_range (Day t))) as H.
  pose proof (MonthFromTime_range t) as Hm.
  pose proof (day_era_decomp (Day t)) as Hd.
  unfold era_day_ok in H. cbv zeta in H.
  unfold MakeDay.
  rewrite (Z.div_small (MonthFromTime t) 12), (Z.mod_small (MonthFromTime t) 12) by lia.
  rewrite Z.add_0_r.
  unfold DayFromYearMonth, DateFromTime, YearFromTime, MonthFromTime in *.
  set (doe := dayOfEra (Day t)) in *.
  set (era := eraOfDay (Day t)) in *.
  set (yoe := yearOfEra doe) in *.
  set (mp := marchMonth (dayOfMarchYear doe)) in *.
  assert (Hy : (if (if mp <? 10 then mp + 2 else mp - 10) <? 2
                then yoe + era * 400 + (if mp <? 10 then 0 else 1) - 1
                else yoe + era * 400 + (if mp <? 10 then 0 else 1))
               = yoe + era * 400).
  { destruct (mp <? 10) eqn:E.
    - assert ((mp + 2 <? 2) = false) as -> by lia. lia.
    - assert ((mp - 10 <? 2) = true) as -> by lia. lia. }
  assert (Hp : (if (if mp <? 10 then mp + 2 else mp - 10) <? 2
                then (if mp <? 10 then mp + 2 else mp - 10) + 10
                else (if mp <? 10 then mp + 2 else mp - 10) - 2) = mp).
  { destruct (mp <? 10) eqn:E.
    - assert ((mp + 2 <? 2) = false) as -> by lia. lia.
    - assert ((mp - 10 <? 2) = true) as -> by lia. lia. }
  rewrite Hy, Hp.
  assert (Hq : (yoe + era * 400) / 400 = era).
  { symmetry. apply (Z.div_unique _ 400 era yoe); lia. }
  assert (Hr : (yoe + era * 400) mod 400 = yoe).
  { symmetry. apply (Z.mod_unique _ 400 era yoe); lia. }
  rewrite Hq, Hr. lia.
Qed.

Lemma Date_setDate_spec (d dt : Z) :
  Date_setDate d dt = d + (dt - getDate d) * msPerDay.
Proof.
  assert (H : MakeDay (YearFromTime d) (MonthFromTime d) dt
              = Day d + (dt - getDate d)).
  { pose proof (MakeDay_fields d) as H.
    unfold MakeDay, getDate in *. lia. }
  unfold Date_setDate. rewrite H.
  pose proof (Day_TimeWithinDay d) as Hd.
  unfold MakeDate, msPerDay in *. lia.
Qed.

(** In a zone without daylight saving, adding calendar days adds 24 h each. *)
Lemma addDays_spec (d n : Z) : addDays d n = d + n * msPerDay.
Proof.
  unfold addDays. destruct (n =? 0) eqn:E; [lia|].
  rewrite Date_setDate_spec. lia.
Qed.

Lemma startOfDay_spec (d : Z) : startOfDay d = Day d * msPerDay.
Proof. unfold startOfDay, Date_setHours, MakeDate, MakeTime. lia. Qed.

Lemma startOfDay_le (d : Z) : startOfDay d <= d < startOfDay d + msPerDay.
Proof.
  rewrite startOfDay_spec.
  pose proof (Day_TimeWithinDay d) as H. pose proof (TimeWithinDay_range d).
  unfold MakeDate in H. lia.
Qed.

(** *** Months follow one another *)

Lemma Day_MakeDate (day t : Z) :
  0 <= t < msPerDay -> Day (MakeDate day t) = day.
Proof.
  intros Ht. unfold Day, MakeDate.
  rewrite Z.add_comm, Z.div_add by (unfold msPerDay; lia).
  rewrite Z.div_small by exact Ht. reflexivity.
Qed.

Lemma Day_le_mono (a b : Z) : a <= b -> Day a <= Day b.
Proof. intros H. unfold Day. apply Z.div_le_mono; [unfold msPerDay; lia | exact H]. Qed.

Lemma Day_add_days (d n : Z) : Day (d + n * msPerDay) = Day d + n.
Proof. unfold Day. apply Z.div_add. unfold msPerDay. lia. Qed.

Lemma Day_lt_time (a b : Z) : Day a < Day b -> a < b.
Proof.
  intros H. destruct (Z_lt_le_dec a b) as [Hlt|Hge]; [exact Hlt|].
  apply Day_le_mono in Hge. lia.
Qed.

Lemma DaysInMonth_range (y m : Z) : 28 <= DaysInMonth y m <= 31.
Proof.
  unfold DaysInMonth.
  destruct (m =? 1); [destruct (isLeapYear y); lia|].
  destruct ((m =? 3) || (m =? 5) || (m =? 8) || (m =? 10)); lia.
Qed.

(** The calendar repeats every 400 years, that is every [daysPerEra] days. *)
Lemma DayFromYearMonth_add_400 (y k m : Z) :
  DayFromYearMonth (y + k * 400) m = DayFromYearMonth y m + k * daysPerEra.
Proof.
  unfold DayFromYearMonth.
  destruct (m <? 2).
  - replace (y + k * 400 - 1) with (y - 1 + k * 400) by lia.
    rewrite Z.div_add, Z.mod_add by lia. lia.
  - rewrite Z.div_add, Z.mod_add by lia. lia.
Qed.

(** The first day of the next month is [DaysInMonth] days after the first
    day of this one; [i] encodes year [i / 12] and month [i mod 12]. *)
Definition next_month_ok (i : Z) : bool :=
  let y := i / 12 in
  let m := i mod 12 in
  DayFromYearMonth (y + (m + 1) / 12) ((m + 1) mod 12)
  =? DayFromYearMonth y m + DaysInMonth y m.

Lemma next_month_ok_all : all_from (Z.to_nat 4800) 0 next_month_ok = true.
Proof. vm_cast_no_check (eq_refl true). Qed.

Lemma DayFromYearMonth_next (y m : Z) :
  0 <= m <= 11 ->
  DayFromYearMonth (y + (m + 1) / 12) ((m + 1) mod 12)
  = DayFromYearMonth y m + DaysInMonth y m.
Proof.
  intros Hm.
  pose proof (Z.div_mod y 400 ltac:(lia)) as Hy.
  pose proof (Z.mod_pos_bound y 400 ltac:(lia)) as Hy0.
  set (k := y / 400) in *. set (y0 := y mod 400) in *.
  assert (Hchk : next_month_ok (12 * y0 + m) = true).
  { apply (all_from_spec _ _ 0 next_month_ok_all).
    rewrite Z2Nat.id by lia. lia. }
  unfold next_month_ok in Hchk. cbv zeta in Hchk.
  assert (Hq : (12 * y0 + m) / 12 = y0).
  { symmetry. apply (Z.div_unique _ 12 y0 m); lia. }
  assert (Hr : (12 * y0 + m) mod 12 = m).
  { symmetry. apply (Z.mod_unique _ 12 y0 m); lia. }
  rewrite Hq, Hr in Hchk. apply Z.eqb_eq in Hchk.
  replace y with (y0 + k * 400) by lia.
  replace (y0 + k * 400 + (m + 1) / 12) with (y0 + (m + 1) / 12 + k * 400) by lia.
  rewrite !DayFromYearMonth_add_400, DaysInMonth_add_400. lia.
Qed.

(** Months numbered in a row: month [n] is month [n mod 12] of year
    [n / 12]. *)
Definition monthStart (n : Z) : Z := DayFromYearMonth (n / 12) (n mod 12).
Definition monthLength (n : Z) : Z := DaysInMonth (n / 12) (n mod 12).

Lemma monthStart_succ (n : Z) : monthStart (n + 1) = monthStart n + monthLength n.
Proof.
  unfold monthStart, monthLength.
  pose proof (Z.div_mod n 12 ltac:(lia)) as Hn.
  pose proof (Z.mod_pos_bound n 12 ltac:(lia)) as Hn0.
  rewrite <- (DayFromYearMonth_next (n / 12) (n mod 12)) by lia.
  set (y := n / 12) in *. set (m := n mod 12) in *.
  pose proof (Z.div_mod (m + 1) 12 ltac:(lia)) as Hm.
  pose proof (Z.mod_pos_bound (m + 1) 12 ltac:(lia)) as Hm0.
  assert (Hq : (n + 1) / 12 = y + (m + 1) / 12).
  { symmetry. apply (Z.div_unique _ 12 _ ((m + 1) mod 12)); lia. }
  assert (Hr : (n + 1) mod 12 = (m + 1) mod 12).
  { symmetry. apply (Z.mod_unique _ 12 (y + (m + 1) / 12)); lia. }
  rewrite Hq, Hr. reflexivity.
Qed.

Lemma monthStart_mono (k : nat) (n : Z) :
  monthStart (n + 1) <= monthStart (n + 1 + Z.of_nat k).
Proof.
  induction k as [|k IH].
  - rewrite Z.add_0_r. lia.
  - replace (n + 1 + Z.of_nat (S k)) with (n + 1 + Z.of_nat k + 1) by lia.
    rewrite (monthStart_succ (n + 1 + Z.of_nat k)).
    pose proof (DaysInMonth_range ((n + 1 + Z.of_nat k) / 12)
                                  ((n + 1 + Z.of_nat k) mod 12)).
    unfold monthLength. lia.
Qed.

Lemma monthStart_lt (n1 n2 : Z) :
  n1 < n2 -> monthStart n1 + monthLength n1 <= monthStart n2.
Proof.
  intros H. rewrite <- monthStart_succ.
  replace n2 with (n1 + 1 + Z.of_nat (Z.to_nat (n2 - n1 - 1))) by lia.
  apply monthStart_mono.
Qed.

(** A day lies in one month only. *)
Lemma month_of_day_unique (n1 n2 d1 d2 : Z) :
  1 <= d1 <= monthLength n1 ->
  1 <= d2 <= monthLength n2 ->
  monthStart n1 + d1 - 1 = monthStart n2 + d2 - 1 ->
  n1 = n2 /\ d1 = d2.
Proof.
  intros H1 H2 Heq.
  destruct (Z.lt_trichotomy n1 n2) as [Hlt | [-> | Hgt]].
  - pose proof (monthStart_lt n1 n2 Hlt). lia.
  - split; [reflexivity | lia].
  - pose proof (monthStart_lt n2 n1 Hgt). lia.
Qed.

Lemma monthStart_of (y m : Z) :
  0 <= m <= 11 ->
  monthStart (12 * y + m) = DayFromYearMonth y m
  /\ monthLength (12 * y + m) = DaysInMonth y m.
Proof.
  intros Hm. unfold monthStart, monthLength.
  assert (Hq : (12 * y + m) / 12 = y).
  { symmetry. apply (Z.div_unique _ 12 y m); lia. }
  assert (Hr : (12 * y + m) mod 12 = m).
  { symmetry. apply (Z.mod_unique _ 12 y m); lia. }
  rewrite Hq, Hr. split; reflexivity.
Qed.

Lemma MakeDay_in_range (y m dt : Z) :
  0 <= m <= 11 -> MakeDay y m dt = DayFromYearMonth y m + dt - 1.
Proof.
  intros Hm. unfold MakeDay.
  rewrite Z.div_small, Z.mod_small by lia. rewrite Z.add_0_r. reflexivity.
Qed.

(** The calendar fields of day [dt] of month [m] of year [y]. *)
Lemma fields_of_MakeDay (y m dt t : Z) :
  0 <= m <= 11 ->
  1 <= dt <= DaysInMonth y m ->
  0 <= t < msPerDay ->
  let d := MakeDate (MakeDay y m dt) t in
  YearFromTime d = y /\ MonthFromTime d = m /\ DateFromTime d = dt.
Proof.
  intros Hm Hdt Ht d.
  pose proof (MakeDay_fields d) as Hf.
  pose proof (MonthFromTime_range d) as Hm'.
  pose proof (DateFromTime_range d) as Hd'.
  assert (HD : Day d = MakeDay y m dt) by (apply Day_MakeDate; exact Ht).
  rewrite HD in Hf.
  rewrite !MakeDay_in_range in Hf by lia.
  destruct (monthStart_of y m Hm) as [Hs1 Hl1].
  destruct (monthStart_of (YearFromTime d) (MonthFromTime d) Hm') as [Hs2 Hl2].
  destruct (month_of_day_unique
              (12 * YearFromTime d + MonthFromTime d) (12 * y + m)
              (DateFromTime d) dt) as [Hn Hdd].
  - rewrite Hl2. exact Hd'.
  - rewrite Hl1. exact Hdt.
  - rewrite Hs1, Hs2. lia.
  - repeat split; [lia | lia | exact Hdd].
Qed.

Lemma TimeWithinDay_MakeDate (day t : Z) :
  0 <= t < msPerDay -> TimeWithinDay (MakeDate day t) = t.
Proof.
  intros Ht. unfold TimeWithinDay, MakeDate.
  rewrite Z.add_comm, Z.mod_add by (unfold msPerDay; lia).
  apply Z.mod_small. exact Ht.
Qed.

(** The first day of the month a time value lies in. *)
Definition firstOfMonth (d : Z) : Z :=
  DayFromYearMonth (YearFromTime d) (MonthFromTime d).

Lemma Day_firstOfMonth (d : Z) : Day d = firstOfMonth d + DateFromTime d - 1.
Proof.
  pose proof (MakeDay_fields d) as H.
  rewrite MakeDay_in_range in H by apply MonthFromTime_range.
  unfold firstOfMonth. lia.
Qed.

Lemma Day_setDate (d dt : Z) :
  Day (Date_setDate d dt) = firstOfMonth d + dt - 1.
Proof.
  unfold Date_setDate. rewrite Day_MakeDate by apply TimeWithinDay_range.
  rewrite MakeDay_in_range by apply MonthFromTime_range. reflexivity.
Qed.

(** Setting a day of the month that the month has stays in the month. *)
Lemma fields_of_setDate (d dt : Z) :
  1 <= dt <= DaysInMonth (YearFromTime d) (MonthFromTime d) ->
  YearFromTime (Date_setDate d dt) = YearFromTime d
  /\ MonthFromTime (Date_setDate d dt) = MonthFromTime d
  /\ DateFromTime (Date_setDate d dt) = dt.
Proof.
  intros Hdt. unfold Date_setDate.
  apply fields_of_MakeDay;
    [apply MonthFromTime_range | exact Hdt | apply TimeWithinDay_range].
Qed.

(** [addMonths d 1] lies in the month after [d]'s. *)
Lemma addMonths_1_firstOfMonth (d : Z) :
  firstOfMonth (addMonths d 1)
  = firstOfMonth d + DaysInMonth (YearFromTime d) (MonthFromTime d).
Proof.
  pose proof (MonthFromTime_range d) as Hm.
  pose proof (DateFromTime_range d) as Hd.
  pose proof (TimeWithinDay_range d) as Ht.
  set (y := YearFromTime d) in *. set (m := MonthFromTime d) in *.
  set (y1 := y + (m + 1) / 12). set (m1 := (m + 1) mod 12).
  assert (Hm1 : 0 <= m1 <= 11).
  { unfold m1. pose proof (Z.mod_pos_bound (m + 1) 12 ltac:(lia)). lia. }
  (* the last day of the next month *)
  assert (HE : MakeDay y (m + 1 + 1) 0 = MakeDay y1 m1 (DaysInMonth y1 m1)).
  { rewrite (MakeDay_in_range y1 m1) by exact Hm1.
    rewrite <- (DayFromYearMonth_next y1 m1) by exact Hm1.
    unfold MakeDay.
    assert (Hq : y + (m + 1 + 1) / 12 = y1 + (m1 + 1) / 12).
    { unfold y1, m1.
      pose proof (Z.div_mod (m + 1) 12 ltac:(lia)).
      pose proof (Z.mod_pos_bound (m + 1) 12 ltac:(lia)).
      pose proof (Z.div_mod (m + 1 + 1) 12 ltac:(lia)).
      pose proof (Z.mod_pos_bound (m + 1 + 1) 12 ltac:(lia)).
      pose proof (Z.div_mod ((m + 1) mod 12 + 1) 12 ltac:(lia)).
      pose proof (Z.mod_pos_bound ((m + 1) mod 12 + 1) 12 ltac:(lia)).
      lia. }
    assert (Hr : (m + 1 + 1) mod 12 = (m1 + 1) mod 12).
    { unfold m1.
      pose proof (Z.div_mod (m + 1) 12 ltac:(lia)).
      pose proof (Z.mod_pos_bound (m + 1) 12 ltac:(lia)).
      pose proof (Z.div_mod (m + 1 + 1) 12 ltac:(lia)).
      pose proof (Z.mod_pos_bound (m + 1 + 1) 12 ltac:(lia)).
      pose proof (Z.div_mod ((m + 1) mod 12 + 1) 12 ltac:(lia)).
      pose proof (Z.mod_pos_bound ((m + 1) mod 12 + 1) 12 ltac:(lia)).
      lia. }
    rewrite Hq, Hr. lia. }
  pose proof (DaysInMonth_range y1 m1) as Hlen.
  destruct (fields_of_MakeDay y1 m1 (DaysInMonth y1 m1) (TimeWithinDay d))
    as (HEy & HEm & HEd); [exact Hm1 | lia | exact Ht |].
  assert (Hnext : DayFromYearMonth y1 m1
                  = DayFromYearMonth y m + DaysInMonth y m)
    by (apply DayFromYearMonth_next; exact Hm).
  unfold addMonths. simpl (1 =? 0).  cbv iota.
  unfold getDate, getMonth, getFullYear, Date_setMonth.
  fold y m. rewrite HE, HEy, HEm, HEd.
  destruct (DaysInMonth y1 m1 <=? DateFromTime d) eqn:Hcmp.
  - unfold firstOfMonth. rewrite HEy, HEm. fold y m. exact Hnext.
  - apply Z.leb_gt in Hcmp. unfold Date_setFullYear.
    destruct (fields_of_MakeDay y1 m1 (DateFromTime d) (TimeWithinDay d))
      as (Hxy & Hxm & _); [exact Hm1 | lia | exact Ht |].
    unfold firstOfMonth. rewrite Hxy, Hxm. fold y m. exact Hnext.
Qed.

(** A month further on, whatever day of the month is then set, is at least
    one day further on. *)
Lemma Day_setDate_addMonths (d dom : Z) :
  1 <= dom ->
  Day d + 1 <= Day (setDayOfMonthFn (addMonths d 1) dom).
Proof.
  intros Hdom. unfold setDayOfMonthFn.
  rewrite Day_setDate, addMonths_1_firstOfMonth, (Day_firstOfMonth d).
  pose proof (DateFromTime_range d). lia.
Qed.

Lemma Day_addMonths_1 (d : Z) : Day d + 1 <= Day (addMonths d 1).
Proof.
  rewrite (Day_firstOfMonth (addMonths d 1)), addMonths_1_firstOfMonth,
          (Day_firstOfMonth d).
  pose proof (DateFromTime_range d).
  pose proof (DateFromTime_range (addMonths d 1)). lia.
Qed.

(** *** The calendar on known dates *)

Example epoch_is_thursday :
  formatISO_date 0 = "1970-01-01" /\ getDay 0 = 4.
Proof. split; vm_compute; reflexivity. Qed.

Example monday_2024_01_15 :
  newDate 2024 0 15 9 0 = 1705309200000
  /\ formatISO_date (newDate 2024 0 15 9 0) = "2024-01-15"
  /\ getDay (newDate 2024 0 15 9 0) = 1.
Proof. repeat split; vm_compute; reflexivity. Qed.

(** [addMonths] stops at the last day of a shorter month, and the native
    [setDate] rolls over into the next month. *)
Example end_of_january_plus_one_month :
  formatISO_date (addMonths (newDate 2024 0 31 9 0) 1) = "2024-02-29"
  /\ formatISO_date (setDayOfMonthFn (addMonths (newDate 2024 0 31 9 0) 1) 31)
     = "2024-03-02"
  /\ formatISO_date (addMonths (newDate 2023 0 31 9 0) 1) = "2023-02-28".
Proof. repeat split; vm_compute; reflexivity. Qed.

Example day_boundaries :
  endOfDay (newDate 2024 0 15 9 0) - startOfDay (newDate 2024 0 15 9 0)
  = 86399999
  /\ formatISO_date (addDays (newDate 2023 11 31 23 59) 1) = "2024-01-01"
  /\ formatISO_date (-1) = "1969-12-31".
Proof. repeat split; vm_compute; reflexivity. Qed.

End JSDateFacts.

(* ===================================================================== *)
(** ** Facts about the generator *)
(* ===================================================================== *)

Module GeneratorFacts.
Import JSDate JSDateFacts Model Generator.
Local Open Scope Z_scope.

#[local] Opaque addDays addMonths formatISO_date Date_setDate DateFromTime
  YearFromTime MonthFromTime DaysInMonth DayFromYearMonth TimeWithinDay MakeDay.
#[local] Arguments formatISO_date : simpl never.
#[local] Arguments addDays : simpl never.
#[local] Arguments addMonths : simpl never.
#[local] Arguments setDayOfMonthFn : simpl never.
#[local] Arguments getDate : simpl never.
#[local] Arguments getDay : simpl never.
#[local] Arguments startOfDay : simpl never.
#[local] Arguments walkBody : simpl never.

Definition outcomeWalk (o : Outcome) : Walk :=
  match o with Next w | Stop w => w end.

Section Facts.
Variable A : Activity.
Variables rs re : Z.
Variable r : RecurrenceRule.

(** *** Termination of the weekly fast-forward loop *)

Lemma weeklySeek_total (days : list Z) :
  forall (fuel : nat) (tempDate steps : Z),
    (0 < fuel)%nat ->
    re - tempDate < Z.of_nat fuel * msPerDay ->
    exists tempDate' steps',
      weeklySeek A rs re fuel days tempDate steps = Some (tempDate', steps')
      /\ steps <= steps' <= steps + Z.of_nat fuel.
Proof.
  induction fuel as [|fuel IH]; intros tempDate steps Hpos Hlt; [lia|].
  simpl.
  destruct (isBefore tempDate (createdAt A)
            || negb (includes days (getDay tempDate))
            || isBefore tempDate rs).
  2: { exists tempDate, steps. split; [reflexivity | lia]. }
  rewrite addDays_spec. unfold isAfter.
  destruct (re <? tempDate + 1 * msPerDay) eqn:E.
  - eexists _, _. split; [reflexivity | lia].
  - apply Z.ltb_ge in E.
    destruct fuel as [|fuel'].
    + unfold msPerDay in *. lia.
    + destruct (IH (tempDate + 1 * msPerDay) (steps + 1)) as (t' & s' & Hs & Hb).
      * lia.
      * unfold msPerDay in *. lia.
      * exists t', s'. split; [exact Hs | lia].
Qed.

Lemma seekFuel_enough :
  re - startOfDay rs < Z.of_nat (seekFuel rs re) * msPerDay.
Proof.
  unfold seekFuel. set (d := re - startOfDay rs).
  rewrite Nat2Z.inj_succ.
  pose proof (Z.div_mod d msPerDay) as Hdm.
  pose proof (Z.mod_pos_bound d msPerDay) as Hmb.
  unfold msPerDay in *.
  lia.
Qed.

Lemma fastForward_total :
  exists start seekSteps,
    fastForward A rs re r = Some (start, seekSteps)
    /\ 0 <= seekSteps <= Z.of_nat (seekFuel rs re).
Proof.
  unfold fastForward.
  destruct (isBefore (createdAt A) rs); [| eexists _, _; split; [reflexivity|lia]].
  destruct (type r).
  - eexists _, _; split; [reflexivity|lia].
  - eexists _, _; split; [reflexivity|lia].
  - destruct (daysOfWeek r) as [days|]; [| eexists _, _; split; [reflexivity|lia]].
    destruct (0 <? Z.of_nat (length days)); [| eexists _, _; split; [reflexivity|lia]].
    destruct (weeklySeek_total days (seekFuel rs re) (startOfDay rs) 0)
      as (t' & s' & Hs & Hb).
    + unfold seekFuel. lia.
    + apply seekFuel_enough.
    + exists t', s'. split; [exact Hs | lia].
  - destruct (truthyZ (dayOfMonth r)); eexists _, _; (split; [reflexivity|lia]).
Qed.

(** *** One pass through the body of the main loop *)

Lemma walkBody_iterations (w : Walk) :
  iterations (outcomeWalk (walkBody A r w)) = iterations w + 1.
Proof.
  unfold walkBody. cbv zeta.
  destruct (match seriesEndDate r with
            | Some e => isAfter (currentDate w) e
            | None => false
            end); [reflexivity|].
  destruct (isBefore (currentDate w) (createdAt A));
    destruct (type r); try reflexivity;
    destruct (truthyZ (dayOfMonth r)); reflexivity.
Qed.

(** An instance the body may push while at [cur]. *)
Definition pushedAt (cur : Z) (i : FutureInstance) : Prop :=
  i = mkFutureInstance cur (id A)
  /\ (forall e, seriesEndDate r = Some e -> cur <= e)
  /\ createdAt A <= cur
  /\ isValidOccurrence r cur = true
  /\ isCompletedOn (completedOccurrences A) (formatISO_date cur) = false.

Lemma walkBody_instances (w : Walk) :
  let w' := outcomeWalk (walkBody A r w) in
  instances w' = instances w
  \/ exists i, instances w' = instances w ++ [i] /\ pushedAt (currentDate w) i.
Proof.
  unfold walkBody. cbv zeta.
  destruct (match seriesEndDate r with
            | Some e => isAfter (currentDate w) e
            | None => false
            end) eqn:Hend; [left; reflexivity|].
  destruct (isBefore (currentDate w) (createdAt A)) eqn:Hbefore.
  { destruct (type r); left; reflexivity. }
  destruct (isValidOccurrence r (currentDate w)) eqn:Hvalid.
  2: { destruct (type r); try (left; reflexivity).
       destruct (truthyZ (dayOfMonth r)); left; reflexivity. }
  destruct (isCompletedOn (completedOccurrences A) (formatISO_date (currentDate w)))
    eqn:Hdone; cbv beta iota delta [negb].
  { destruct (type r); try (left; reflexivity).
    destruct (truthyZ (dayOfMonth r)); left; reflexivity. }
  right. exists (mkFutureInstance (currentDate w) (id A)).
  split.
  { destruct (type r); try reflexivity.
    destruct (truthyZ (dayOfMonth r)); reflexivity. }
  unfold pushedAt. repeat split; try assumption.
  - intros e He. rewrite He in Hend. unfold isAfter in Hend. lia.
  - unfold isBefore in Hbefore. lia.
Qed.

(** *** The main loop *)

(** The loop stops by itself: with as much fuel as the cap leaves, it
    returns, and its counter has not passed the cap. *)
Lemma walk_total :
  forall (fuel : nat) (w : Walk),
    iterations w <= maxIterations ->
    maxIterations - iterations w <= Z.of_nat fuel ->
    exists w', walk A re r fuel w = Some w'
               /\ iterations w <= iterations w' <= maxIterations.
Proof.
  induction fuel as [|fuel IH]; intros w Hle Hfuel; simpl.
  - assert ((iterations w <? maxIterations) = false) as -> by lia.
    exists w. split; [reflexivity | lia].
  - destruct ((iterations w <? maxIterations)
              && negb (isAfter (currentDate w) re)) eqn:Hc.
    2: { exists w. split; [reflexivity | lia]. }
    apply andb_prop in Hc as [Hlt _]. apply Z.ltb_lt in Hlt.
    pose proof (walkBody_iterations w) as Hit.
    destruct (walkBody A r w) as [w1|w1]; simpl in Hit.
    + destruct (IH w1) as (w' & Hw' & Hb); [lia | lia |].
      exists w'. split; [exact Hw' | lia].
    + exists w1. split; [reflexivity | lia].
Qed.

(** Every instance the loop returns was pushed at some candidate that is
    not after the end of the range. *)
Definition emitted (i : FutureInstance) : Prop :=
  pushedAt (instanceDate i) i /\ instanceDate i <= re.

Lemma walk_emitted :
  forall (fuel : nat) (w w' : Walk),
    walk A re r fuel w = Some w' ->
    Forall emitted (instances w) ->
    Forall emitted (instances w').
Proof.
  induction fuel as [|fuel IH]; intros w w' Hw Hall; simpl in Hw.
  - destruct ((iterations w <? maxIterations)
              && negb (isAfter (currentDate w) re)); [discriminate|].
    inversion Hw; subst; exact Hall.
  - destruct ((iterations w <? maxIterations)
              && negb (isAfter (currentDate w) re)) eqn:Hc.
    2: { inversion Hw; subst; exact Hall. }
    apply andb_prop in Hc as [_ Hre].
    apply negb_true_iff in Hre. unfold isAfter in Hre.
    assert (Hstep : Forall emitted (instances (outcomeWalk (walkBody A r w)))).
    { destruct (walkBody_instances w) as [Heq | (i & Heq & Hp)].
      - rewrite Heq. exact Hall.
      - rewrite Heq. apply Forall_app. split; [exact Hall|].
        constructor; [|constructor].
        assert (instanceDate i = currentDate w) as Hd
          by (destruct Hp as [-> _]; reflexivity).
        split; [rewrite Hd; exact Hp | lia]. }
    destruct (walkBody A r w) as [w1|w1]; simpl in Hstep.
    + eapply IH; eassumption.
    + inversion Hw; subst; exact Hstep.
Qed.

(** The recurring branch always returns; the main loop has run at most
    [maxIterations] times, the weekly fast-forward loop at most once per
    day of the window plus two. *)
Lemma recurringRun_total :
  exists seekSteps w,
    recurringRun A rs re r = Some (seekSteps, w)
    /\ 0 <= iterations w <= maxIterations
    /\ 0 <= seekSteps <= Z.of_nat (seekFuel rs re)
    /\ Forall emitted (instances w).
Proof.
  destruct fastForward_total as (start & seekSteps & Hff & Hsteps).
  destruct (walk_total (Z.to_nat maxIterations) (mkWalk start 0 []))
    as (w & Hw & Hit); simpl.
  - unfold maxIterations. lia.
  - unfold maxIterations. lia.
  - exists seekSteps, w. unfold recurringRun. rewrite Hff, Hw.
    simpl in Hit.
    repeat split; try lia.
    eapply walk_emitted; [exact Hw | constructor].
Qed.

End Facts.

(** What the generator returns for a recurring activity. *)
Lemma generate_recurring (A : Activity) (rs re : Z) (r : RecurrenceRule) :
  recurringRule A = Some r ->
  Forall (emitted A re r) (generateFutureInstancesForNotifications A rs re).
Proof.
  intros Hr. unfold generateFutureInstancesForNotifications. rewrite Hr.
  destruct (recurringRun_total A rs re r) as (s & w & Hrun & _ & _ & Hall).
  rewrite Hrun. exact Hall.
Qed.

Lemma recurringRule_Some (A : Activity) (r : RecurrenceRule) :
  recurringRule A = Some r <-> recurrence A = Some r /\ type r <> TNone.
Proof.
  unfold recurringRule. destruct (recurrence A) as [r0|].
  - destruct (decide (type r0 = TNone)) as [E|E]; split.
    + discriminate.
    + intros [H1 H2]. inversion H1; subst. contradiction.
    + intros H. inversion H; subst. split; [reflexivity | exact E].
    + intros [H1 _]. exact H1.
  - split; [discriminate | intros [H _]; discriminate].
Qed.

(** *** A window inside one calendar day *)

Section OneDay.
Variable A : Activity.
Variables rs re : Z.
Variable r : RecurrenceRule.

(** A monthly rule with a day of the month below 1 never matches; every
    other rule moves the walk forward by at least one day per pass. *)
Definition movesForward : Prop :=
  type r = Monthly ->
  forall dom, truthyZ (dayOfMonth r) = Some dom -> 1 <= dom.

Lemma not_movesForward_never_valid :
  ~ movesForward -> forall c, isValidOccurrence r c = false.
Proof.
  intros Hnot c. unfold isValidOccurrence.
  destruct (type r) eqn:Hty;
    try (exfalso; apply Hnot; intros Hm; congruence).
  destruct (truthyZ (dayOfMonth r)) as [dom|] eqn:Hdom; [|reflexivity].
  destruct (Z_le_gt_dec 1 dom) as [Hle|Hgt].
  - exfalso. apply Hnot. intros _ dom' Hdom'. congruence.
  - pose proof (DateFromTime_range c). unfold getDate. lia.
Qed.

Lemma movesForward_dec : movesForward \/ ~ movesForward.
Proof.
  unfold movesForward.
  destruct (type r) eqn:Hty; try (left; intros Hm; congruence).
  destruct (truthyZ (dayOfMonth r)) as [dom|] eqn:Hdom.
  - destruct (Z_le_gt_dec 1 dom) as [Hle|Hgt].
    + left. intros _ dom' Hdom'. inversion Hdom'; subst. exact Hle.
    + right. intros H. specialize (H eq_refl dom eq_refl). lia.
  - left. intros _ dom' Hdom'. discriminate.
Qed.

Lemma Some_pair_fst (a c k k' : Z) : Some (a, k) = Some (c, k') -> c = a.
Proof. intros H. inversion H. reflexivity. Qed.

Lemma Next_inj (w w' : Walk) : Next w = Next w' -> w = w'.
Proof. intros H. inversion H. reflexivity. Qed.

Lemma Day_addDays_1 (d : Z) : Day (addDays d 1) = Day d + 1.
Proof. rewrite addDays_spec. apply Day_add_days. Qed.

Lemma walkBody_advances (w w1 : Walk) :
  movesForward ->
  walkBody A r w = Next w1 ->
  Day (currentDate w) + 1 <= Day (currentDate w1).
Proof.
  intros Hfw. destruct w as [cur its insts].
  unfold walkBody. cbn [currentDate iterations instances]. cbv zeta.
  destruct (match seriesEndDate r with
            | Some e => isAfter cur e
            | None => false
            end); [discriminate|].
  destruct (isBefore cur (createdAt A)).
  - destruct (type r) eqn:Hty; try discriminate;
      intros H; apply Next_inj in H; subst w1; cbn [currentDate].
    + rewrite Day_addDays_1. lia.
    + rewrite Day_addDays_1. lia.
    + destruct (truthyZ (dayOfMonth r)) as [dom|] eqn:Hdom.
      * apply Day_setDate_addMonths. apply (Hfw Hty dom Hdom).
      * apply Day_addMonths_1.
  - destruct (type r) eqn:Hty; try discriminate.
    + intros H; apply Next_inj in H; subst w1; cbn [currentDate].
      rewrite Day_addDays_1. lia.
    + intros H; apply Next_inj in H; subst w1; cbn [currentDate].
      rewrite Day_addDays_1. lia.
    + destruct (truthyZ (dayOfMonth r)) as [dom|] eqn:Hdom.
      * intros H; apply Next_inj in H; subst w1; cbn [currentDate].
        destruct (isAfter (setDayOfMonthFn cur dom) cur
                  && (getDate (setDayOfMonthFn cur dom) =? dom)) eqn:Hcmt.
        -- apply andb_prop in Hcmt as [Hafter _].
           unfold isAfter, setDayOfMonthFn in Hafter.
           rewrite Date_setDate_spec in Hafter.
           unfold setDayOfMonthFn.
           rewrite Date_setDate_spec, Day_add_days.
           unfold msPerDay in Hafter. lia.
        -- apply Day_setDate_addMonths. apply (Hfw Hty dom Hdom).
      * intros H; apply Next_inj in H; subst w1; cbn [currentDate].
        rewrite Day_addDays_1. lia.
Qed.

Lemma weeklySeek_ge (days : list Z) :
  forall (fuel : nat) (tempDate steps t' s' : Z),
    weeklySeek A rs re fuel days tempDate steps = Some (t', s') ->
    tempDate <= t'.
Proof.
  induction fuel as [|fuel IH]; intros tempDate steps t' s'; simpl.
  - destruct (_ || _ || _); [discriminate|].
    intros H; inversion H; subst; lia.
  - destruct (_ || _ || _).
    2: { intros H; inversion H; subst; lia. }
    rewrite addDays_spec.
    destruct (isAfter _ _).
    + intros H; inversion H; subst. unfold msPerDay. lia.
    + intros H. apply IH in H. unfold msPerDay in H. lia.
Qed.

Lemma Day_startOfDay (d : Z) : Day (startOfDay d) = Day d.
Proof.
  rewrite startOfDay_spec. unfold Day at 1.
  apply Z.div_mul. unfold msPerDay. lia.
Qed.

(** Where the walk starts: not before the day of [rangeStart], unless it
    starts at [createdAt]. *)
Lemma fastForward_start (start k : Z) :
  movesForward ->
  fastForward A rs re r = Some (start, k) ->
  Day rs <= Day start
  \/ (start = createdAt A /\ forall c, isValidOccurrence r c = false).
Proof.
  intros Hfw. unfold fastForward.
  destruct (isBefore (createdAt A) rs) eqn:Hbefore.
  2: { intros H; inversion H; subst. left. apply Day_le_mono.
       unfold isBefore in Hbefore. lia. }
  destruct (type r) eqn:Hty.
  - intros H; inversion H; subst. right. split; [reflexivity|].
    intros c. unfold isValidOccurrence. rewrite Hty. reflexivity.
  - intros H; inversion H; subst. left. lia.
  - destruct (daysOfWeek r) as [days|] eqn:Hdays.
    + destruct (0 <? Z.of_nat (length days)) eqn:Hlen.
      * intros H. apply weeklySeek_ge in H. left.
        rewrite <- (Day_startOfDay rs). apply Day_le_mono. exact H.
      * intros H; inversion H; subst. right. split; [reflexivity|].
        intros c. unfold isValidOccurrence. rewrite Hty, Hdays.
        destruct days; [reflexivity|].
        exfalso. apply Z.ltb_ge in Hlen. cbn [length] in Hlen. lia.
    + intros H; inversion H; subst. right. split; [reflexivity|].
      intros c. unfold isValidOccurrence. rewrite Hty, Hdays. reflexivity.
  - destruct (truthyZ (dayOfMonth r)) as [dom|] eqn:Hdom.
    2: { intros H; inversion H; subst. right. split; [reflexivity|].
         intros c. unfold isValidOccurrence. rewrite Hty, Hdom. reflexivity. }
    pose proof (Hfw Hty dom Hdom) as Hdom1.
    cbv zeta. intros H. apply Some_pair_fst in H. subst start. left.
    set (target := if isBefore (setDayOfMonthFn (createdAt A) dom) (createdAt A)
                   then addMonths (setDayOfMonthFn (createdAt A) dom) 1
                   else setDayOfMonthFn (createdAt A) dom).
    assert (Hcur : Day rs <=
                   Day (if isBefore (setDayOfMonthFn rs dom) rs
                        then addMonths (setDayOfMonthFn rs dom) 1
                        else setDayOfMonthFn rs dom)).
    { destruct (isBefore (setDayOfMonthFn rs dom) rs) eqn:Hb.
      - (* an earlier day of the same month: the next month is later *)
        unfold isBefore, setDayOfMonthFn in Hb.
        rewrite Date_setDate_spec in Hb.
        assert (Hlt : dom < getDate rs) by (unfold msPerDay in Hb; lia).
        pose proof (DateFromTime_range rs) as Hrange.
        destruct (fields_of_setDate rs dom) as (Hy & Hmo & _);
          [unfold getDate in Hlt; lia|].
        assert (Hfirst : firstOfMonth (Date_setDate rs dom) = firstOfMonth rs)
          by (unfold firstOfMonth; rewrite Hy, Hmo; reflexivity).
        unfold setDayOfMonthFn.
        rewrite (Day_firstOfMonth (addMonths (Date_setDate rs dom) 1)).
        rewrite addMonths_1_firstOfMonth, Hfirst, Hy, Hmo.
        rewrite (Day_firstOfMonth rs).
        pose proof (DateFromTime_range
                      (addMonths (Date_setDate rs dom) 1)) as Hx.
        lia.
      - apply Day_le_mono. unfold isBefore in Hb. lia. }
    destruct (isBefore _ target) eqn:Hb2; [|exact Hcur].
    etransitivity; [exact Hcur|]. apply Day_le_mono.
    unfold isBefore in Hb2. apply Z.ltb_lt in Hb2.
    apply Z.lt_le_incl. exact Hb2.
Qed.

Hypothesis window : Day re <= Day rs.

(** At most one instance so far, and none yet unless the walk has left the
    window. *)
Definition oneSoFar (w : Walk) : Prop :=
  instances w = [] \/ ((exists i, instances w = [i]) /\ re < currentDate w).

Lemma walk_one_instance :
  movesForward ->
  forall (fuel : nat) (w w' : Walk),
    Day rs <= Day (currentDate w) ->
    oneSoFar w ->
    walk A re r fuel w = Some w' ->
    (length (instances w') <= 1)%nat.
Proof.
  intros Hfw. induction fuel as [|fuel IH]; intros w w' Hday Hone; simpl.
  - destruct (_ && _); [discriminate|].
    intros H; inversion H; subst.
    destruct Hone as [-> | [[i ->] _]]; simpl; lia.
  - destruct ((iterations w <? maxIterations)
              && negb (isAfter (currentDate w) re)) eqn:Hc.
    2: { intros H; inversion H; subst.
         destruct Hone as [-> | [[i ->] _]]; simpl; lia. }
    apply andb_prop in Hc as [_ Hre]. apply negb_true_iff in Hre.
    unfold isAfter in Hre.
    assert (Hnil : instances w = []) by (destruct Hone as [H | [_ H]]; [exact H | lia]).
    pose proof (walkBody_instances A r w) as Hinst. cbv zeta in Hinst.
    pose proof (walkBody_advances w) as Hadv.
    destruct (walkBody A r w) as [w1|w1]; simpl in Hinst.
    + intros Hw. specialize (Hadv w1 Hfw eq_refl).
      apply (IH w1 w'); [lia | | exact Hw].
      destruct Hinst as [Heq | (i & Heq & _)].
      * left. rewrite Heq. exact Hnil.
      * right. split; [exists i; rewrite Heq, Hnil; reflexivity|].
        apply Day_lt_time. lia.
    + intros H; inversion H; subst.
      destruct Hinst as [Heq | (i & Heq & _)]; rewrite Heq, Hnil; simpl; lia.
Qed.

End OneDay.

(** A window that does not reach into the next calendar day holds at most
    one occurrence of an activity. *)
Lemma generate_one_per_day (A : Activity) (rs re : Z) :
  Day re <= Day rs ->
  (length (generateFutureInstancesForNotifications A rs re) <= 1)%nat.
Proof.
  intros Hwin. unfold generateFutureInstancesForNotifications.
  destruct (recurringRule A) as [r|] eqn:Hr.
  2: { unfold singleInstance. destruct (_ && _); simpl; lia. }
  destruct (recurringRun A rs re r) as [[k w]|] eqn:Hrun; [|simpl; lia].
  assert (Hnever : (forall c, isValidOccurrence r c = false) ->
                   (length (instances w) <= 1)%nat).
  { intros Hnv.
    destruct (recurringRun_total A rs re r) as (k' & w' & Hrun' & _ & _ & Hall).
    rewrite Hrun in Hrun'. inversion Hrun'; subst.
    destruct (instances w') as [|i l]; [simpl; lia|].
    inversion Hall as [|? ? [(_ & _ & _ & Hvalid & _) _] _]; subst.
    rewrite Hnv in Hvalid. discriminate. }
  destruct (movesForward_dec r) as [Hfw | Hnfw].
  2: { apply Hnever. apply not_movesForward_never_valid. exact Hnfw. }
  unfold recurringRun in Hrun.
  destruct (fastForward A rs re r) as [[start k0]|] eqn:Hff; [|discriminate].
  destruct (walk A re r (Z.to_nat maxIterations) (mkWalk start 0 []))
    as [w0|] eqn:Hw; [|discriminate].
  inversion Hrun; subst.
  destruct (fastForward_start A rs re r start k Hfw Hff) as [Hstart | [_ Hnv]].
  - eapply (walk_one_instance A rs re r Hwin Hfw); [| |exact Hw].
    + exact Hstart.
    + left. reflexivity.
  - apply Hnever. exact Hnv.
Qed.

(** *** Single passes of the main loop, for stepping through a run *)

Lemma walk_unfold A re r fuel w :
  walk A re r (S fuel) w =
  if (iterations w <? maxIterations) && negb (isAfter (currentDate w) re)
  then match walkBody A r w with
       | Next w' => walk A re r fuel w'
       | Stop w' => Some w'
       end
  else Some w.
Proof. reflexivity. Qed.

(** A pass of the body at a candidate that the monthly rule accepts. *)
Lemma walkBody_monthly_emit A r dom e cur its insts :
  type r = Monthly ->
  truthyZ (dayOfMonth r) = Some dom ->
  seriesEndDate r = Some e ->
  cur <= e ->
  createdAt A <= cur ->
  getDate cur = dom ->
  isCompletedOn (completedOccurrences A) (formatISO_date cur) = false ->
  walkBody A r (mkWalk cur its insts) =
  Next (mkWalk (setDayOfMonthFn (addMonths cur 1) dom) (its + 1)
               (insts ++ [mkFutureInstance cur (id A)])).
Proof.
  intros Hty Hdom Hend Hle Hcreated Hday Hdone.
  unfold walkBody. cbn [currentDate iterations instances]. cbv zeta.
  rewrite Hend.
  assert (isAfter cur e = false) as -> by (unfold isAfter; lia).
  assert (isBefore cur (createdAt A) = false) as -> by (unfold isBefore; lia).
  unfold isValidOccurrence. rewrite Hty, Hdom, Hdone.
  assert ((getDate cur =? dom) = true) as -> by lia.
  cbv beta iota delta [negb].
  assert (Hsame : setDayOfMonthFn cur dom = cur).
  { unfold setDayOfMonthFn. rewrite Date_setDate_spec. lia. }
  rewrite Hsame.
  assert (isAfter cur cur = false) as -> by (unfold isAfter; lia).
  reflexivity.
Qed.

(** A pass of the body at a candidate after the end of the series. *)
Lemma walkBody_series_ended A r e cur its insts :
  seriesEndDate r = Some e ->
  e < cur ->
  walkBody A r (mkWalk cur its insts) = Stop (mkWalk cur (its + 1) insts).
Proof.
  intros Hend Hlt. unfold walkBody. cbn [currentDate iterations instances].
  cbv zeta. rewrite Hend.
  assert (isAfter cur e = true) as -> by (unfold isAfter; lia).
  reflexivity.
Qed.

End GeneratorFacts.

(* ===================================================================== *)
(** ** The generator: results *)
(* ===================================================================== *)

Module GeneratorSpec.
Import JSDate JSDateFacts Model Generator GeneratorFacts.
Local Open Scope Z_scope.

Definition occurrenceDates (l : list FutureInstance) : list Z :=
  map instanceDate l.

Definition occurrenceKeys (l : list FutureInstance) : list string :=
  map (fun i => formatISO_date (instanceDate i)) l.

(** *** Non-recurring activities *)

(** A one-off activity at time value 5 that is already marked completed. *)
Definition doneOnce : Activity :=
  mkActivity "a1" "Pay rent" "cat_home" [] 5 None true None
             (Some (mkRecurrenceRule TNone None None None)) ∅ None.

(** C1, as stated, fails: a non-recurring activity whose [createdAt] lies
    inside the window is not returned when it is marked completed. *)
Lemma nonrecurring_completed_not_returned :
  recurringRule doneOnce = None
  /\ 0 <= createdAt doneOnce <= 10
  /\ occurrenceDates (generateFutureInstancesForNotifications doneOnce 0 10) = []
  /\ occurrenceDates (generateFutureInstancesForNotifications doneOnce 0 10)
     <> [createdAt doneOnce].
Proof. repeat split; try reflexivity; try discriminate; vm_compute; discriminate. Qed.

(** C1 (amended): for a non-recurring activity with [createdAt = d] and a
    window with [rangeStart <= rangeEnd], the generator returns exactly the
    one instance at [d] when [rangeStart <= d <= rangeEnd] and the activity
    is not marked completed, and the empty sequence otherwise. *)
Theorem nonrecurring_single_occurrence (A : Activity) (rs re : Z) :
  recurringRule A = None ->
  rs <= re ->
  generateFutureInstancesForNotifications A rs re =
    if bool_decide (rs <= createdAt A <= re) && negb (completed A)
    then [mkFutureInstance (createdAt A) (id A)]
    else [].
Proof.
  intros Hr Hle. unfold generateFutureInstancesForNotifications.
  rewrite Hr. unfold singleInstance, isWithinInterval.
  rewrite Z.min_l, Z.max_r by lia.
  destruct (bool_decide (rs <= createdAt A <= re)) eqn:E.
  - apply bool_decide_eq_true in E.
    assert ((rs <=? createdAt A) && (createdAt A <=? re) = true) as -> by lia.
    reflexivity.
  - apply bool_decide_eq_false in E.
    assert ((rs <=? createdAt A) && (createdAt A <=? re) = false) as -> by lia.
    reflexivity.
Qed.

Definition pendingOnce : Activity :=
  mkActivity "a2" "Dentist" "cat_health" [] 5 None false None None ∅ None.

Lemma nonrecurring_single_occurrence_witness :
  generateFutureInstancesForNotifications pendingOnce 0 10 =
    if bool_decide (0 <= createdAt pendingOnce <= 10)
       && negb (completed pendingOnce)
    then [mkFutureInstance (createdAt pendingOnce) (id pendingOnce)]
    else [].
Proof.
  apply (nonrecurring_single_occurrence pendingOnce 0 10).
  - reflexivity.
  - lia.
Defined.

(** *** The monthly end-to-end scenario *)

(** Created 2024-01-15T09:00, monthly on the 15th, series ending at
    [seriesEnd]. *)
Definition monthlyOn15th (seriesEnd : Z) : Activity :=
  mkActivity "a3" "Invoice" "cat_work" [] (newDate 2024 0 15 9 0) None false
             None (Some (mkRecurrenceRule Monthly (Some seriesEnd) None (Some 15)))
             ∅ None.

Definition year2024Start : Z := newDate 2024 0 1 0 0.
Definition year2024End : Z := newDate 2024 11 31 0 0.

(** C2, as stated, fails: with [endDate] the date 2024-04-15 (the instant
    2024-04-15T00:00) the candidate 2024-04-15T09:00 is after the end of
    the series, and only three dates are returned. *)
Lemma monthly_scenario_three_dates :
  occurrenceKeys (generateFutureInstancesForNotifications
                    (monthlyOn15th (newDate 2024 3 15 0 0))
                    year2024Start year2024End)
  = ["2024-01-15"; "2024-02-15"; "2024-03-15"]
  /\ occurrenceKeys (generateFutureInstancesForNotifications
                       (monthlyOn15th (newDate 2024 3 15 0 0))
                       year2024Start year2024End)
     <> ["2024-01-15"; "2024-02-15"; "2024-03-15"; "2024-04-15"].
Proof. split; vm_compute; [reflexivity | discriminate]. Qed.

(** One pass of the main loop of the scenario at a date the rule accepts;
    [next] is the date the following pass starts at. *)
Ltac scenario_pass next :=
  rewrite walk_unfold;
  match goal with
  | |- context [(?a <? maxIterations) && negb (isAfter ?c ?t)] =>
      replace ((a <? maxIterations) && negb (isAfter c t)) with true
        by (vm_compute; reflexivity)
  end;
  erewrite walkBody_monthly_emit;
  [ | reflexivity | reflexivity | eassumption | lia
    | vm_compute; discriminate | vm_compute; reflexivity
    | vm_compute; reflexivity ];
  match goal with
  | |- context [setDayOfMonthFn (addMonths ?c 1) 15] =>
      replace (setDayOfMonthFn (addMonths c 1) 15) with next
        by (vm_compute; reflexivity)
  end.

(** The pass at which the series has ended. *)
Ltac scenario_end :=
  rewrite walk_unfold;
  match goal with
  | |- context [(?a <? maxIterations) && negb (isAfter ?c ?t)] =>
      replace ((a <? maxIterations) && negb (isAfter c t)) with true
        by (vm_compute; reflexivity)
  end;
  erewrite walkBody_series_ended; [| eassumption | lia];
  vm_compute; reflexivity.

(** The time values of the 15th of January .. May 2024 at 09:00. *)
Lemma scenario_dates :
  newDate 2024 0 15 9 0 = 1705309200000
  /\ newDate 2024 1 15 9 0 = 1707987600000
  /\ newDate 2024 2 15 9 0 = 1710493200000
  /\ newDate 2024 3 15 9 0 = 1713171600000
  /\ newDate 2024 4 15 9 0 = 1715763600000.
Proof. repeat split; vm_compute; reflexivity. Qed.

#[local] Opaque addDays addMonths formatISO_date Date_setDate DateFromTime
  YearFromTime MonthFromTime DaysInMonth DayFromYearMonth TimeWithinDay MakeDay.

(** C2 (amended): in the scenario the generator returns exactly the three
    dates 2024-01-15, 2024-02-15 and 2024-03-15 (each at 09:00), in that
    order, when [endDate] is the instant 2024-04-15T00:00, or any instant
    from 2024-03-15T09:00 on that is before 2024-04-15T09:00; it returns
    the four dates 2024-01-15, 2024-02-15, 2024-03-15 and 2024-04-15 when
    [endDate] is an instant from 2024-04-15T09:00 on that is before
    2024-05-15T09:00. *)
Theorem monthly_scenario (e : Z) :
  (newDate 2024 2 15 9 0 <= e < newDate 2024 3 15 9 0 ->
   occurrenceDates (generateFutureInstancesForNotifications
                      (monthlyOn15th e) year2024Start year2024End)
   = [newDate 2024 0 15 9 0; newDate 2024 1 15 9 0; newDate 2024 2 15 9 0])
  /\ (newDate 2024 3 15 9 0 <= e < newDate 2024 4 15 9 0 ->
      occurrenceDates (generateFutureInstancesForNotifications
                         (monthlyOn15th e) year2024Start year2024End)
      = [newDate 2024 0 15 9 0; newDate 2024 1 15 9 0; newDate 2024 2 15 9 0;
         newDate 2024 3 15 9 0]).
Proof.
  destruct scenario_dates as (-> & -> & -> & -> & ->).
  set (r := mkRecurrenceRule Monthly (Some e) None (Some 15)).
  assert (Hff : fastForward (monthlyOn15th e) year2024Start year2024End r
                = Some (1705309200000, 0)) by (vm_compute; reflexivity).
  assert (Hre : year2024End = 1735603200000) by (vm_compute; reflexivity).
  split; intros He.
  - assert (Hend : seriesEndDate r = Some e).
    { unfold seriesEndDate, r. cbn [endDate truthyZ].
      assert ((e =? 0) = false) as -> by lia. reflexivity. }
    unfold generateFutureInstancesForNotifications.
    change (recurringRule (monthlyOn15th e)) with (Some r). cbv beta iota.
    unfold recurringRun. rewrite Hff, Hre.
    change (Z.to_nat maxIterations) with (S (S (S (S (Z.to_nat 362))))).
    scenario_pass 1707987600000.
    scenario_pass 1710493200000.
    scenario_pass 1713171600000.
    scenario_end.
  - assert (Hend : seriesEndDate r = Some e).
    { unfold seriesEndDate, r. cbn [endDate truthyZ].
      assert ((e =? 0) = false) as -> by lia. reflexivity. }
    unfold generateFutureInstancesForNotifications.
    change (recurringRule (monthlyOn15th e)) with (Some r). cbv beta iota.
    unfold recurringRun. rewrite Hff, Hre.
    change (Z.to_nat maxIterations) with (S (S (S (S (S (Z.to_nat 361)))))).
    scenario_pass 1707987600000.
    scenario_pass 1710493200000.
    scenario_pass 1713171600000.
    scenario_pass 1715763600000.
    scenario_end.
Qed.

Lemma monthly_scenario_witness :
  occurrenceDates (generateFutureInstancesForNotifications
                     (monthlyOn15th (newDate 2024 3 15 0 0))
                     year2024Start year2024End)
  = [newDate 2024 0 15 9 0; newDate 2024 1 15 9 0; newDate 2024 2 15 9 0].
Proof.
  apply (proj1 (monthly_scenario (newDate 2024 3 15 0 0))).
  vm_compute. split; [discriminate | reflexivity].
Defined.

(** With [endDate] at the end of 2024-04-15 the four dates are returned. *)
Example monthly_scenario_end_of_day :
  occurrenceKeys (generateFutureInstancesForNotifications
                    (monthlyOn15th (endOfDay (newDate 2024 3 15 0 0)))
                    year2024Start year2024End)
  = ["2024-01-15"; "2024-02-15"; "2024-03-15"; "2024-04-15"].
Proof. vm_compute. reflexivity. Qed.

(** *** The end of a series *)

(** A one-off activity at time value 2000 whose rule carries an end date. *)
Definition onceWithEnd : Activity :=
  mkActivity "a4" "Renew passport" "cat_home" [] 2000 None false None
             (Some (mkRecurrenceRule TNone (Some 1000) None None)) ∅ None.

(** C3, as stated, fails: the non-recurring branch never looks at
    [endDate]. *)
Lemma nonrecurring_ignores_endDate :
  (exists r, recurrence onceWithEnd = Some r /\ endDate r = Some 1000)
  /\ mkFutureInstance 2000 "a4"
       ∈ generateFutureInstancesForNotifications onceWithEnd 0 3000
  /\ 1000 < instanceDate (mkFutureInstance 2000 "a4").
Proof.
  split; [eexists; split; reflexivity|].
  split; [vm_compute; apply list_elem_of_here | simpl; lia].
Qed.

(** C3 (amended): for every recurring activity (type daily, weekly or
    monthly) whose [endDate] is set to a non-zero time value, and every
    window, no returned occurrence is strictly after [endDate]. *)
Theorem no_occurrence_after_endDate
    (A : Activity) (rs re : Z) (r : RecurrenceRule) (e : Z) :
  recurrence A = Some r ->
  type r <> TNone ->
  endDate r = Some e ->
  e <> 0 ->
  forall i, i ∈ generateFutureInstancesForNotifications A rs re ->
            instanceDate i <= e.
Proof.
  intros Hrec Hty He Hnz i Hi.
  assert (Hr : recurringRule A = Some r) by (apply recurringRule_Some; auto).
  pose proof (generate_recurring A rs re r Hr) as Hall.
  rewrite Forall_forall in Hall.
  destruct (Hall i Hi) as [(_ & Hend & _) _].
  apply Hend. unfold seriesEndDate. rewrite He. simpl.
  destruct (e =? 0) eqn:E; [lia | reflexivity].
Qed.

Lemma no_occurrence_after_endDate_witness :
  instanceDate (mkFutureInstance (newDate 2024 2 15 9 0) "a3")
  <= newDate 2024 3 15 0 0.
Proof.
  apply (no_occurrence_after_endDate
           (monthlyOn15th (newDate 2024 3 15 0 0)) year2024Start year2024End
           (mkRecurrenceRule Monthly (Some (newDate 2024 3 15 0 0)) None (Some 15))
           (newDate 2024 3 15 0 0)).
  - reflexivity.
  - discriminate.
  - reflexivity.
  - vm_compute. discriminate.
  - vm_compute. do 2 apply list_elem_of_further. apply list_elem_of_here.
Defined.

(** *** Termination *)

Lemma fastForward_weekly_empty (A : Activity) (rs re : Z) (r : RecurrenceRule) :
  type r = Weekly ->
  daysOfWeek r = Some [] \/ daysOfWeek r = None ->
  fastForward A rs re r = Some (createdAt A, 0).
Proof.
  intros Hty Hdays. unfold fastForward. rewrite Hty.
  destruct (isBefore (createdAt A) rs); [|reflexivity].
  destruct Hdays as [-> | ->]; reflexivity.
Qed.

Lemma isValidOccurrence_weekly_empty (r : RecurrenceRule) (d : Z) :
  type r = Weekly ->
  daysOfWeek r = Some [] \/ daysOfWeek r = None ->
  isValidOccurrence r d = false.
Proof.
  intros Hty Hdays. unfold isValidOccurrence. rewrite Hty.
  destruct Hdays as [-> | ->]; reflexivity.
Qed.

(** Every Monday from Tuesday 2024-01-02 on, looked at over two years from
    Wednesday 2024-01-03. *)
Definition mondaysRule : RecurrenceRule :=
  mkRecurrenceRule Weekly None (Some [1]) None.

Definition mondays : Activity :=
  mkActivity "a5" "Stand-up" "cat_work" [] (newDate 2024 0 2 0 0) None false
             None (Some mondaysRule) ∅ None.

(** C4, as stated, fails: the cap of 366 bounds the main loop only.  Here
    the weekly fast-forward loop runs 5 times before the main loop runs its
    366, so the generator makes 371 loop iterations. *)
Lemma generator_exceeds_366_iterations :
  option_map (fun '(seekSteps, w) => (seekSteps, iterations w))
             (recurringRun mondays (newDate 2024 0 3 0 0) (newDate 2026 0 1 0 0)
                           mondaysRule)
  = Some (5, 366)
  /\ 366 < 5 + 366.
Proof. split; [vm_compute; reflexivity | lia]. Qed.

(** C4 (amended): for every recurring activity and every window the
    generator returns; its main loop has made at most 366 iterations, and
    the weekly fast-forward loop that may run before it at most one per day
    between the start of [rangeStart]'s day and [rangeEnd], plus two.  For
    a weekly rule with an empty (or absent) [daysOfWeek] the fast-forward
    loop does not run and the result is the empty sequence. *)
Theorem generator_terminates
    (A : Activity) (rs re : Z) (r : RecurrenceRule) :
  recurringRule A = Some r ->
  exists (seekSteps : Z) (w : Walk),
    recurringRun A rs re r = Some (seekSteps, w)
    /\ generateFutureInstancesForNotifications A rs re = instances w
    /\ 0 <= iterations w <= 366
    /\ 0 <= seekSteps <= Z.max 0 ((re - startOfDay rs) / msPerDay + 1) + 1
    /\ (type r = Weekly ->
        daysOfWeek r = Some [] \/ daysOfWeek r = None ->
        seekSteps = 0 /\ instances w = []).
Proof.
  intros Hr.
  destruct (recurringRun_total A rs re r) as (s & w & Hrun & Hit & Hs & Hall).
  exists s, w. split; [exact Hrun|]. split.
  { unfold generateFutureInstancesForNotifications. rewrite Hr, Hrun. reflexivity. }
  split; [exact Hit|]. split.
  { unfold seekFuel in Hs. lia. }
  intros Hty Hdays. split.
  - unfold recurringRun in Hrun.
    rewrite (fastForward_weekly_empty A rs re r Hty Hdays) in Hrun.
    destruct (walk A re r (Z.to_nat maxIterations) (mkWalk (createdAt A) 0 []));
      inversion Hrun; reflexivity.
  - destruct (instances w) as [|i l]; [reflexivity|].
    inversion Hall as [|? ? [(_ & _ & _ & Hvalid & _) _] _]; subst.
    rewrite (isValidOccurrence_weekly_empty r _ Hty Hdays) in Hvalid.
    discriminate.
Qed.

Definition noDaysRule : RecurrenceRule :=
  mkRecurrenceRule Weekly None (Some []) None.

Definition noDays : Activity :=
  mkActivity "a6" "Never" "cat_work" [] (newDate 2024 0 2 0 0) None false
             None (Some noDaysRule) ∅ None.

Lemma generator_terminates_witness :
  exists (seekSteps : Z) (w : Walk),
    recurringRun noDays (newDate 2024 0 3 0 0) (newDate 2026 0 1 0 0) noDaysRule
      = Some (seekSteps, w)
    /\ generateFutureInstancesForNotifications
         noDays (newDate 2024 0 3 0 0) (newDate 2026 0 1 0 0) = instances w
    /\ 0 <= iterations w <= 366
    /\ 0 <= seekSteps
       <= Z.max 0 ((newDate 2026 0 1 0 0 - startOfDay (newDate 2024 0 3 0 0))
                   / msPerDay + 1) + 1
    /\ (type noDaysRule = Weekly ->
        daysOfWeek noDaysRule = Some [] \/ daysOfWeek noDaysRule = None ->
        seekSteps = 0 /\ instances w = []).
Proof.
  apply (generator_terminates noDays (newDate 2024 0 3 0 0)
                              (newDate 2026 0 1 0 0) noDaysRule).
  reflexivity.
Defined.

(** *** Monthly rules and short months *)

(** C10: every occurrence returned for a monthly activity has day of the
    month exactly [dayOfMonth]; no occurrence is returned in a month that
    has fewer days than [dayOfMonth], so a short month is skipped: the
    occurrence is neither moved to its last day nor rolled into the next
    month. *)
Theorem monthly_exact_day_of_month
    (A : Activity) (rs re : Z) (r : RecurrenceRule) (dom : Z) :
  recurrence A = Some r ->
  type r = Monthly ->
  dayOfMonth r = Some dom ->
  (forall i, i ∈ generateFutureInstancesForNotifications A rs re ->
             getDate (instanceDate i) = dom)
  /\ (forall y m, DaysInMonth y m < dom ->
      forall i, i ∈ generateFutureInstancesForNotifications A rs re ->
                ~ (getFullYear (instanceDate i) = y
                   /\ getMonth (instanceDate i) = m)).
Proof.
  intros Hrec Hty Hdom.
  assert (Hr : recurringRule A = Some r).
  { apply recurringRule_Some. split; [exact Hrec | rewrite Hty; discriminate]. }
  pose proof (generate_recurring A rs re r Hr) as Hall.
  rewrite Forall_forall in Hall.
  assert (Hday : forall i,
             i ∈ generateFutureInstancesForNotifications A rs re ->
             getDate (instanceDate i) = dom).
  { intros i Hi. destruct (Hall i Hi) as [(_ & _ & _ & Hvalid & _) _].
    unfold isValidOccurrence in Hvalid. rewrite Hty, Hdom in Hvalid.
    simpl in Hvalid. destruct (dom =? 0); [discriminate | lia]. }
  split; [exact Hday|].
  intros y m Hshort i Hi [Hy Hm].
  pose proof (DateFromTime_range (instanceDate i)) as Hrange.
  pose proof (Hday i Hi) as Hd.
  unfold getDate, getFullYear, getMonth in *.
  rewrite Hy, Hm, Hd in Hrange. lia.
Qed.

(** The 31st of every month, from 2024-01-31T09:00. *)
Definition on31stRule : RecurrenceRule :=
  mkRecurrenceRule Monthly None None (Some 31).

Definition on31st : Activity :=
  mkActivity "a7" "Backup" "cat_work" [] (newDate 2024 0 31 9 0) None false
             None (Some on31stRule) ∅ None.

Lemma monthly_exact_day_of_month_witness :
  (forall i, i ∈ generateFutureInstancesForNotifications
                   on31st year2024Start year2024End ->
             getDate (instanceDate i) = 31)
  /\ (forall y m, DaysInMonth y m < 31 ->
      forall i, i ∈ generateFutureInstancesForNotifications
                      on31st year2024Start year2024End ->
                ~ (getFullYear (instanceDate i) = y
                   /\ getMonth (instanceDate i) = m)).
Proof.
  apply (monthly_exact_day_of_month on31st year2024Start year2024End
                                    on31stRule 31); reflexivity.
Defined.

(** From January to March: February (29 days in 2024) has no occurrence,
    and so have the 30-day months. *)
Example on31st_skips_short_months :
  occurrenceKeys (generateFutureInstancesForNotifications
                    on31st year2024Start (newDate 2024 11 31 23 0))
  = ["2024-01-31"; "2024-03-31"; "2024-05-31"; "2024-07-31"; "2024-08-31";
     "2024-10-31"; "2024-12-31"].
Proof. vm_compute. reflexivity. Qed.

End GeneratorSpec.

(* ===================================================================== *)
(** ** The activity store: results *)
(* ===================================================================== *)

Module StoreSpec.
Import JSDate Model Store.
Local Open Scope Z_scope.

#[local] Arguments formatISO_date : simpl never.

(** *** Helpers on lists *)

Lemma map_unless_id {X : Type} (P : X -> Prop) `{!forall x, Decision (P x)}
    (f : X -> X) (l : list X) :
  (forall x, x ∈ l -> ~ P x) ->
  map (fun x => if decide (P x) then f x else x) l = l.
Proof.
  induction l as [|x l IH]; intros Hall; [reflexivity|]. simpl.
  rewrite decide_False by (apply Hall; left).
  f_equal. apply IH. intros y Hy. apply Hall. right. exact Hy.
Qed.

Lemma filter_all {X : Type} (P : X -> Prop) `{!forall x, Decision (P x)}
    (l : list X) :
  (forall x, x ∈ l -> P x) -> filter P l = l.
Proof.
  induction l as [|x l IH]; intros Hall; [reflexivity|].
  rewrite filter_cons_True by (apply Hall; left).
  f_equal. apply IH. intros y Hy. apply Hall. right. exact Hy.
Qed.

Lemma find_is_Some {X : Type} (f : X -> bool) (l : list X) (x : X) :
  x ∈ l -> f x = true -> exists y, List.find f l = Some y.
Proof.
  induction l as [|z l IH]; intros Hin Hf.
  - inversion Hin.
  - simpl. destruct (f z) eqn:E; [eauto|].
    apply IH; [|exact Hf].
    inversion Hin; subst; [congruence | assumption].
Qed.

Lemma Forall2_map_r_same {X : Type} (R : X -> X -> Prop) (f : X -> X)
    (l : list X) :
  (forall x, R x (f x)) -> Forall2 R l (map f l).
Proof. intros H. induction l; simpl; constructor; auto. Qed.

(** *** State setters leave the other cells alone *)

Definition sameCollections (s s' : State) : Prop :=
  appModeState s' = appModeState s
  /\ personalActivities s' = personalActivities s
  /\ workActivities s' = workActivities s
  /\ allCategories s' = allCategories s
  /\ allAssignees s' = allAssignees s.

Lemma currentActivitySetter_id (f : list Activity -> list Activity) (s : State) :
  f (getRawActivities s) = getRawActivities s ->
  sameCollections s (currentActivitySetter f s).
Proof.
  unfold getRawActivities, currentActivitySetter, sameCollections.
  destruct (appModeState s) eqn:E; simpl; intros Hf; rewrite Hf; auto.
Qed.

Lemma getRaw_currentActivitySetter (f : list Activity -> list Activity) (s : State) :
  getRawActivities (currentActivitySetter f s) = f (getRawActivities s).
Proof.
  unfold getRawActivities, currentActivitySetter.
  destruct (appModeState s) eqn:E; simpl; rewrite ?E; reflexivity.
Qed.

Lemma getRaw_addHistoryLogEntry env k d sc (s : State) :
  getRawActivities (addHistoryLogEntry env k d sc s) = getRawActivities s.
Proof. reflexivity. Qed.

(** *** Unknown activity ids *)

(** With an id that no activity of the current collection carries, the
    three operations leave the mode, both collections, the categories and
    the assignees as they were. *)
Lemma unknown_activity_id_collections (env : Env) (s : State)
    (activityId : string) :
  (forall act, act ∈ getRawActivities s -> id act <> activityId) ->
  (forall ts completedState,
      sameCollections s
        (toggleOccurrenceCompletion env activityId ts completedState s))
  /\ (forall updates originalActivity,
         sameCollections s
           (updateActivity env activityId updates originalActivity s))
  /\ sameCollections s (deleteActivity env activityId s).
Proof.
  intros Hnone. repeat split;
    try (intros; match goal with
         | |- context [toggleOccurrenceCompletion] =>
             unfold toggleOccurrenceCompletion
         | |- context [updateActivity] => unfold updateActivity
         end);
    try unfold deleteActivity;
    match goal with
    | |- context [currentActivitySetter ?f s] =>
        let H := fresh in
        assert (H : sameCollections s (currentActivitySetter f s));
        [ apply currentActivitySetter_id;
          first [ apply map_unless_id; intros x Hx; apply Hnone; exact Hx
                | apply filter_all; intros x Hx; apply Hnone; exact Hx ]
        | destruct H as (H1 & H2 & H3 & H4 & H5); simpl; assumption ]
    end.
Qed.

Lemma find_unknown (activityId : string) (l : list Activity) :
  (forall act, act ∈ l -> id act <> activityId) ->
  findActivity activityId l = None.
Proof.
  unfold findActivity. induction l as [|act l IH]; intros Hnone;
    [reflexivity|].
  cbn [List.find]. rewrite bool_decide_eq_false_2.
  - apply IH. intros x Hx. apply Hnone. apply list_elem_of_further. exact Hx.
  - apply Hnone. apply list_elem_of_here.
Qed.

Lemma historyLog_currentActivitySetter_same
    (f : list Activity -> list Activity) (s : State) :
  historyLog (currentActivitySetter f s) = historyLog s.
Proof. unfold currentActivitySetter. destruct (appModeState s); reflexivity. Qed.

(** What is left by a call that did nothing but write to the history log:
    the mode, both collections, the categories and the assignees as they
    were, and one new entry with the given title, stamped with the clock
    reading, in front of the 99 newest entries. *)
Definition onlyLogged (env : Env) (loggedTitle : string) (s s' : State)
  : Prop :=
  sameCollections s s'
  /\ exists entry,
       historyLog s' = entry :: take 99 (historyLog s)
       /\ entryId entry = uuid env
       /\ timestamp entry = now env
       /\ ("title", DString loggedTitle) ∈ details entry.

Definition groceries : Activity :=
  mkActivity "a1" "Groceries" "cat_home" [] 86400000 None false None
             (Some (mkRecurrenceRule Weekly None (Some [1]) None))
             {["1970-01-05" := true]} (Some "asg_1").

Definition report : Activity :=
  mkActivity "w1" "Report" "cat_home" [] 86400000 None false None None ∅ None.

Definition sampleState : State :=
  mkState Personal [groceries] [report]
          [mkCategory "cat_home" "Home" "Home" "all"]
          [mkAssignee "asg_1" "Ana"] [].

Definition sampleEnv : Env := mkEnv "h1" 1000.

(** C8, as stated, fails: a call with an unknown id is not silent, and
    [toggleOccurrenceCompletion] can throw.  ["zz"] is the id of no
    activity; [deleteActivity] on it changes the state, by an entry titled
    "Unknown Activity" at the head of the history log, and
    [toggleOccurrenceCompletion] on it with [NaN] for the time stamp throws
    the [RangeError] of [formatISO]. *)
Example unknown_activity_id_not_silent :
  findActivity "zz" (getRawActivities sampleState) = None
  /\ deleteActivity sampleEnv "zz" sampleState <> sampleState
  /\ historyLog sampleState = []
  /\ historyLog (deleteActivity sampleEnv "zz" sampleState)
     = [mkHistoryLogEntry "h1" 1000 "historyLogDeleteActivityPersonal"
                          [("title", DString "Unknown Activity")] "personal"]
  /\ toggleOccurrenceCompletionCall sampleEnv "zz" NotFinite true sampleState
     = Throws RangeError.
Proof. repeat split. discriminate. Qed.

(** C8 (amended): [toggleOccurrenceCompletion], [updateActivity] and
    [deleteActivity] called with an id that no activity of the current
    collection carries change nothing but the history log: the mode, both
    activity collections, the categories and the assignees stay, and one
    entry is put in front of the 99 newest entries of the log.  Its title
    is "Unknown Activity" for the toggle and the delete and
    [updates.title || originalActivity?.title || 'Unknown Activity'] for
    the update (no activity has the id, so line 1072 never runs, whenever
    React runs the updater).  [updateActivity] and [deleteActivity] always
    return.  [toggleOccurrenceCompletion] returns when its time stamp is a
    time value (an integer of at most 8.64e15 in absolute value);
    otherwise it throws a [RangeError] and changes nothing. *)
Theorem unknown_activity_id_only_logged (env : Env) (s : State)
    (activityId : string) :
  (forall act, act ∈ getRawActivities s -> id act <> activityId) ->
  (forall ts completedState,
      match Date_ofNumber ts with
      | Some date =>
          exists s',
            toggleOccurrenceCompletionCall env activityId ts completedState s
            = Returns s'
            /\ s' = toggleOccurrenceCompletion env activityId date
                                               completedState s
            /\ onlyLogged env "Unknown Activity" s s'
      | None =>
          toggleOccurrenceCompletionCall env activityId ts completedState s
          = Throws RangeError
      end)
  /\ (forall updates originalActivity,
         onlyLogged env
           (orString (u_title updates)
                     (orString (title <$> originalActivity) "Unknown Activity"))
           s (updateActivity env activityId updates originalActivity s))
  /\ onlyLogged env "Unknown Activity" s (deleteActivity env activityId s).
Proof.
  intros Hnone.
  destruct (unknown_activity_id_collections env s activityId Hnone)
    as (Htoggle & Hupdate & Hdelete).
  pose proof (find_unknown activityId (getRawActivities s) Hnone) as Hfind.
  split; [|split].
  - intros ts completedState. unfold toggleOccurrenceCompletionCall.
    destruct (Date_ofNumber ts) as [date|]; [|reflexivity].
    eexists. split; [reflexivity|]. split; [reflexivity|].
    split; [apply Htoggle|].
    unfold toggleOccurrenceCompletion. rewrite Hfind.
    eexists. cbn [historyLog addHistoryLogEntry].
    rewrite historyLog_currentActivitySetter_same.
    split; [reflexivity|]. cbn [entryId timestamp details].
    split; [reflexivity|]. split; [reflexivity|]. apply list_elem_of_here.
  - intros updates originalActivity. split; [apply Hupdate|].
    unfold updateActivity. eexists. cbn [historyLog addHistoryLogEntry].
    rewrite historyLog_currentActivitySetter_same.
    split; [reflexivity|]. cbn [entryId timestamp details].
    split; [reflexivity|]. split; [reflexivity|]. apply list_elem_of_here.
  - split; [apply Hdelete|].
    unfold deleteActivity. rewrite Hfind.
    eexists. cbn [historyLog addHistoryLogEntry].
    rewrite historyLog_currentActivitySetter_same.
    split; [reflexivity|]. cbn [entryId timestamp details].
    split; [reflexivity|]. split; [reflexivity|]. apply list_elem_of_here.
Qed.

Lemma unknown_activity_id_only_logged_witness :
  (forall ts completedState,
      match Date_ofNumber ts with
      | Some date =>
          exists s',
            toggleOccurrenceCompletionCall sampleEnv "zz" ts completedState
                                           sampleState
            = Returns s'
            /\ s' = toggleOccurrenceCompletion sampleEnv "zz" date
                                               completedState sampleState
            /\ onlyLogged sampleEnv "Unknown Activity" sampleState s'
      | None =>
          toggleOccurrenceCompletionCall sampleEnv "zz" ts completedState
                                         sampleState
          = Throws RangeError
      end)
  /\ (forall updates originalActivity,
         onlyLogged sampleEnv
           (orString (u_title updates)
                     (orString (title <$> originalActivity) "Unknown Activity"))
           sampleState
           (updateActivity sampleEnv "zz" updates originalActivity sampleState))
  /\ onlyLogged sampleEnv "Unknown Activity" sampleState
               (deleteActivity sampleEnv "zz" sampleState).
Proof.
  apply (unknown_activity_id_only_logged sampleEnv sampleState "zz").
  intros act Hact. simpl in Hact.
  apply list_elem_of_singleton in Hact. subst act. simpl. discriminate.
Defined.

(** *** The completion ledger *)

(** No key of the ledger is mapped to [false]. *)
Definition noFalse (ledger : gmap string bool) : Prop :=
  forall k, ledger !! k <> Some false.

(** [{ ...act, completedOccurrences: ledger }] *)
Definition withLedger (act : Activity) (ledger : gmap string bool) : Activity :=
  mkActivity (id act) (title act) (categoryId act) (todos act) (createdAt act)
             (time act) (completed act) (notes act) (recurrence act)
             ledger (responsiblePersonId act).

Lemma withLedger_same (act : Activity) :
  withLedger act (completedOccurrences act) = act.
Proof. destruct act; reflexivity. Qed.

Lemma toggledActivity_on_off (key : string) (act : Activity) :
  toggledActivity key false (toggledActivity key true act)
  = withLedger act (delete key (completedOccurrences act)).
Proof.
  unfold toggledActivity, withLedger. simpl.
  rewrite delete_insert_eq. reflexivity.
Qed.

Lemma noFalse_toggled (key : string) (c : bool) (act : Activity) :
  noFalse (completedOccurrences act) ->
  noFalse (completedOccurrences (toggledActivity key c act)).
Proof.
  intros Hnf k. unfold toggledActivity. simpl. destruct c.
  - destruct (decide (key = k)) as [->|Hne].
    + rewrite lookup_insert_eq. discriminate.
    + rewrite lookup_insert_ne by exact Hne. apply Hnf.
  - destruct (decide (key = k)) as [->|Hne].
    + rewrite lookup_delete_eq. discriminate.
    + rewrite lookup_delete_ne by exact Hne. apply Hnf.
Qed.

Lemma getRaw_toggle env mid ts c (s : State) :
  getRawActivities (toggleOccurrenceCompletion env mid ts c s)
  = map (fun act => if decide (id act = mid)
                    then toggledActivity (formatISO_date ts) c act
                    else act)
        (getRawActivities s).
Proof.
  unfold toggleOccurrenceCompletion.
  rewrite getRaw_addHistoryLogEntry, getRaw_currentActivitySetter.
  reflexivity.
Qed.

(** What completing and then un-completing the occurrence of [key] does
    to one activity of the current collection. *)
Definition onThenOff (mid key : string) (act act' : Activity) : Prop :=
  if decide (id act = mid) then
    act' = withLedger act (delete key (completedOccurrences act))
    /\ completedOccurrences act' !! key = None
    /\ (forall k, k <> key ->
                  completedOccurrences act' !! k = completedOccurrences act !! k)
    /\ (completedOccurrences act !! key = None -> act' = act)
    /\ (noFalse (completedOccurrences act) ->
        noFalse (completedOccurrences act'))
  else act' = act.

(** C5, as stated, fails for a prior ledger that already holds the key:
    the occurrence of 1970-01-05 was complete before, and is not after. *)
Lemma toggle_on_off_forgets_prior_completion :
  let s2 := toggleOccurrenceCompletion sampleEnv "a1" (4 * msPerDay) false
              (toggleOccurrenceCompletion sampleEnv "a1" (4 * msPerDay) true
                 sampleState) in
  formatISO_date (4 * msPerDay) = "1970-01-05"
  /\ (completedOccurrences <$> getRawActivities sampleState)
     = [ {["1970-01-05" := true]} ]
  /\ (completedOccurrences <$> getRawActivities s2) = [ ∅ ]
  /\ (completedOccurrences <$> getRawActivities s2)
     <> (completedOccurrences <$> getRawActivities sampleState).
Proof.
  cbv zeta.
  assert (Hkey : formatISO_date (4 * msPerDay) = "1970-01-05")
    by (vm_compute; reflexivity).
  assert (Hs2 : completedOccurrences <$>
                  getRawActivities
                    (toggleOccurrenceCompletion sampleEnv "a1" (4 * msPerDay) false
                       (toggleOccurrenceCompletion sampleEnv "a1" (4 * msPerDay)
                          true sampleState))
                = [ ∅ ]).
  { rewrite !getRaw_toggle, Hkey. simpl.
    rewrite delete_insert_eq, delete_singleton_eq. reflexivity. }
  split; [exact Hkey|]. split; [reflexivity|]. split; [exact Hs2|].
  rewrite Hs2. simpl. intros H.
  assert (Hm : (∅ : gmap string bool) = {["1970-01-05" := true]})
    by congruence.
  apply (f_equal (fun m => m !! "1970-01-05")) in Hm.
  rewrite lookup_empty, lookup_singleton_eq in Hm. discriminate.
Qed.

(** C5 (amended): for every occurrence timestamp and every prior state,
    [toggleOccurrenceCompletion] with [true] and then with [false] leaves
    every activity with the given id with its prior ledger minus the key
    of that date: the key is absent (not stored as [false]), all other keys
    are unchanged, and the ledger is exactly the prior one whenever the key
    was absent before; every other activity is unchanged.  A toggle never
    introduces a [false] value into a ledger that has none. *)
Theorem toggle_on_then_off
    (env1 env2 : Env) (s : State) (masterActivityId : string) (ts : Z) :
  let s1 := toggleOccurrenceCompletion env1 masterActivityId ts true s in
  let s2 := toggleOccurrenceCompletion env2 masterActivityId ts false s1 in
  Forall2 (onThenOff masterActivityId (formatISO_date ts))
          (getRawActivities s) (getRawActivities s2)
  /\ (forall c env,
        Forall (fun act => noFalse (completedOccurrences act))
               (getRawActivities s) ->
        Forall (fun act => noFalse (completedOccurrences act))
               (getRawActivities
                  (toggleOccurrenceCompletion env masterActivityId ts c s))).
Proof.
  cbv zeta. split.
  - rewrite !getRaw_toggle, map_map.
    apply Forall2_map_r_same. intros act. unfold onThenOff.
    destruct (decide (id act = masterActivityId)) as [Hid|Hid].
    + assert (Hid' : id (toggledActivity (formatISO_date ts) true act)
                     = masterActivityId) by exact Hid.
      rewrite (decide_True _ _ Hid'), toggledActivity_on_off.
      split; [reflexivity|]. simpl.
      split; [apply lookup_delete_eq|].
      split; [intros k Hk; apply lookup_delete_ne; congruence|].
      split.
      * intros Hnone. rewrite delete_id by exact Hnone. apply withLedger_same.
      * intros Hnf k. destruct (decide (formatISO_date ts = k)) as [->|Hne].
        -- rewrite lookup_delete_eq. discriminate.
        -- rewrite lookup_delete_ne by exact Hne. apply Hnf.
    + rewrite (decide_False _ _ Hid). reflexivity.
  - intros c env Hall. rewrite getRaw_toggle.
    rewrite Forall_map. eapply Forall_impl; [exact Hall|].
    intros act Hnf. simpl.
    destruct (decide (id act = masterActivityId)); [|exact Hnf].
    apply noFalse_toggled. exact Hnf.
Qed.

Lemma toggle_on_then_off_witness :
  Forall2 (onThenOff "a1" (formatISO_date (5 * msPerDay)))
          (getRawActivities sampleState)
          (getRawActivities
             (toggleOccurrenceCompletion sampleEnv "a1" (5 * msPerDay) false
                (toggleOccurrenceCompletion sampleEnv "a1" (5 * msPerDay) true
                   sampleState))).
Proof.
  exact (proj1 (toggle_on_then_off sampleEnv sampleEnv sampleState "a1"
                                   (5 * msPerDay))).
Defined.

(** *** Ledger invalidation on update *)

Lemma getRaw_updateActivity env aid updates orig (s : State) :
  getRawActivities (updateActivity env aid updates orig s)
  = map (fun act => if decide (id act = aid)
                    then updatedActivity (appModeState s) updates act
                    else act)
        (getRawActivities s).
Proof.
  unfold updateActivity.
  rewrite getRaw_addHistoryLogEntry, getRaw_currentActivitySetter.
  reflexivity.
Qed.

(** The incoming rule [ur] differs from the stored one in type, day of the
    month or days of the week, or the update carries a non-zero
    [createdAt] that differs from the stored one. *)
Definition shapeChanged (updates : ActivityUpdates) (act : Activity)
    (ur : RecurrenceRule) : Prop :=
  Some (type ur) <> (type <$> recurrence act)
  \/ dayOfMonth ur <> (recurrence act ≫= dayOfMonth)
  \/ daysOfWeek ur <> (recurrence act ≫= daysOfWeek)
  \/ (exists c, u_createdAt updates = Some c /\ c <> 0 /\ c <> createdAt act).

(** Every change of shape that lines 1079-1087 detect empties the ledger
    in the same update. *)
Lemma update_clears_ledger (mode : AppMode) (updates : ActivityUpdates)
    (act : Activity) (ur : RecurrenceRule) :
  u_recurrence updates = Some ur ->
  shapeChanged updates act ur ->
  completedOccurrences (updatedActivity mode updates act) = ∅.
Proof.
  intros Hur Hchg. unfold updatedActivity. simpl.
  assert (Hclear : clearsLedger updates act = true); [|rewrite Hclear; reflexivity].
  unfold clearsLedger. rewrite Hur.
  destruct (decide (type ur = TNone)); [reflexivity|].
  destruct Hchg as [H | [H | [H | (c & Hc & Hnz & Hne)]]].
  - rewrite (bool_decide_eq_true_2 _ H). reflexivity.
  - rewrite (bool_decide_eq_true_2 _ H). apply orb_true_iff. left.
    apply orb_true_iff. left. apply orb_true_r.
  - rewrite (bool_decide_eq_true_2 _ H). apply orb_true_iff. left.
    apply orb_true_r.
  - rewrite Hc. simpl. assert ((c =? 0) = false) as -> by lia.
    unfold getTime. rewrite (bool_decide_eq_true_2 _ Hne). apply orb_true_r.
Qed.

(** The same for the store: after [updateActivity], every activity of the
    current collection that carried the id has an empty ledger. *)
Lemma updateActivity_clears_ledger (env : Env) (s : State) (aid : string)
    (updates : ActivityUpdates) (orig : option Activity) (ur : RecurrenceRule) :
  u_recurrence updates = Some ur ->
  Forall2 (fun act act' =>
             id act = aid -> shapeChanged updates act ur ->
             completedOccurrences act' = ∅)
          (getRawActivities s)
          (getRawActivities (updateActivity env aid updates orig s)).
Proof.
  intros Hur. rewrite getRaw_updateActivity.
  apply Forall2_map_r_same. intros act Hid Hchg.
  rewrite (decide_True _ _ Hid).
  eapply update_clears_ledger; eassumption.
Qed.

(** The stored weekly rule again, with the anchor moved to the epoch. *)
Definition moveToEpoch : ActivityUpdates :=
  mkActivityUpdates None None None None (Some 0) None None None
                    (Some (mkRecurrenceRule Weekly None (Some [1]) None))
                    None None.

(** C6: the guard [updates.createdAt && ...] reads the time value 0 as "no
    [createdAt] given".  Moving the anchor of [groceries] from 1970-01-02
    to 1970-01-01T00:00:00Z changes [createdAt] and keeps the ledger. *)
Theorem update_anchor_to_epoch_keeps_ledger :
  getRawActivities sampleState = [groceries]
  /\ createdAt groceries = 86400000
  /\ exists act',
       getRawActivities
         (updateActivity sampleEnv "a1" moveToEpoch (Some groceries) sampleState)
       = [act']
       /\ createdAt act' = 0
       /\ recurrence act' = recurrence groceries
       /\ completedOccurrences act' = {["1970-01-05" := true]}
       /\ completedOccurrences act' <> ∅.
Proof.
  split; [reflexivity|]. split; [reflexivity|].
  eexists. split; [rewrite getRaw_updateActivity; reflexivity|].
  split; [reflexivity|]. split; [reflexivity|]. split; [reflexivity|].
  simpl. intros Hm.
  apply (f_equal (fun m => m !! "1970-01-05")) in Hm.
  rewrite lookup_empty, lookup_singleton_eq in Hm. discriminate.
Qed.

(** With any other new anchor the ledger is emptied. *)
Example update_anchor_clears_ledger :
  completedOccurrences <$>
    getRawActivities
      (updateActivity sampleEnv "a1"
         (mkActivityUpdates None None None None (Some (2 * 86400000)) None None
            None (Some (mkRecurrenceRule Weekly None (Some [1]) None)) None None)
         (Some groceries) sampleState)
  = [ ∅ ].
Proof. rewrite getRaw_updateActivity. reflexivity. Qed.

(** *** What the store operations keep true *)

(** The calls the UI layer makes on the store. *)
Inductive Op :=
| OpSetAppMode (mode : AppMode)
| OpAddActivity (activityUuid : string) (todoUuid : nat -> string)
                (activityData : ActivityData) (customCreatedAt : option Z)
| OpUpdateActivity (activityId : string) (updates : ActivityUpdates)
                   (originalActivity : option Activity)
| OpDeleteActivity (activityId : string)
| OpToggleOccurrenceCompletion (masterActivityId : string)
                               (occurrenceDateTimestamp : Z)
                               (completedState : bool)
| OpDeleteCategory (categoryId : string)
| OpDeleteAssignee (assigneeId : string).

Definition run (env : Env) (op : Op) (s : State) : State :=
  match op with
  | OpSetAppMode mode => setAppMode env mode s
  | OpAddActivity activityUuid todoUuid activityData customCreatedAt =>
      addActivity env activityUuid todoUuid activityData customCreatedAt s
  | OpUpdateActivity activityId updates originalActivity =>
      updateActivity env activityId updates originalActivity s
  | OpDeleteActivity activityId => deleteActivity env activityId s
  | OpToggleOccurrenceCompletion masterActivityId ts completedState =>
      toggleOccurrenceCompletion env masterActivityId ts completedState s
  | OpDeleteCategory categoryId => deleteCategory env categoryId s
  | OpDeleteAssignee assigneeId => deleteAssignee env assigneeId s
  end.

(** The states the provider can be in: both collections start empty
    ([useState([])]) and change through the operations only. *)
Inductive reachable : State -> Prop :=
| reachable_initial mode cats asgs log :
    reachable (mkState mode [] [] cats asgs log)
| reachable_run env op s :
    reachable s -> reachable (run env op s).

Definition personalKept (act : Activity) : Prop :=
  noFalse (completedOccurrences act).

Definition workKept (act : Activity) : Prop :=
  noFalse (completedOccurrences act) /\ responsiblePersonId act = None.

(** No ledger holds a [false], and no work activity has a responsible
    person. *)
Definition wellKept (s : State) : Prop :=
  Forall personalKept (personalActivities s)
  /\ Forall workKept (workActivities s).

Lemma noFalse_empty : noFalse ∅.
Proof. intros k. rewrite lookup_empty. discriminate. Qed.

Lemma currentActivitySetter_wellKept
    (f : list Activity -> list Activity) (s : State) :
  (appModeState s = Personal ->
   Forall personalKept (personalActivities s) ->
   Forall personalKept (f (personalActivities s))) ->
  (appModeState s = Work ->
   Forall workKept (workActivities s) ->
   Forall workKept (f (workActivities s))) ->
  wellKept s -> wellKept (currentActivitySetter f s).
Proof.
  intros Hp Hw [Hpers Hwork]. unfold currentActivitySetter, wellKept.
  destruct (appModeState s) eqn:E; simpl; split; auto.
Qed.

Lemma Forall_map_kept {X : Type} (P : X -> Prop) (f : X -> X) (l : list X) :
  (forall x, P x -> P (f x)) -> Forall P l -> Forall P (map f l).
Proof.
  intros Hf Hall. rewrite Forall_map. eapply Forall_impl; [exact Hall|].
  exact Hf.
Qed.

Lemma updatedActivity_noFalse mode updates act :
  noFalse (completedOccurrences act) ->
  noFalse (completedOccurrences (updatedActivity mode updates act)).
Proof.
  intros Hnf. unfold updatedActivity. simpl.
  destruct (clearsLedger updates act); [apply noFalse_empty | exact Hnf].
Qed.

Lemma addHistoryLogEntry_wellKept env k d sc (s : State) :
  wellKept s -> wellKept (addHistoryLogEntry env k d sc s).
Proof. intros H. exact H. Qed.

Lemma run_wellKept (env : Env) (op : Op) (s : State) :
  wellKept s -> wellKept (run env op s).
Proof.
  intros Hs.
  destruct op as [m | actUuid todoUuid data created | aid updates orig | aid
                 | mid ts c | cid | aid]; simpl.
  - destruct Hs as [Hp Hw]. unfold setAppMode, wellKept.
    destruct (decide (m = appModeState s)); simpl; auto.
  - unfold addActivity. cbv zeta.
    apply addHistoryLogEntry_wellKept.
    apply currentActivitySetter_wellKept; [| |exact Hs].
    + intros _ Hall. apply Forall_app. split; [exact Hall|].
      constructor; [|constructor]. apply noFalse_empty.
    + intros Hmode Hall. apply Forall_app. split; [exact Hall|].
      constructor; [|constructor]. split; [apply noFalse_empty|].
      simpl. rewrite Hmode. reflexivity.
  - unfold updateActivity. cbv zeta.
    apply addHistoryLogEntry_wellKept.
    apply currentActivitySetter_wellKept; [| |exact Hs].
    + intros _. apply Forall_map_kept. intros act Hact.
      destruct (decide (id act = aid)); [|exact Hact].
      apply updatedActivity_noFalse. exact Hact.
    + intros Hmode. apply Forall_map_kept. intros act [Hnf Hresp].
      destruct (decide (id act = aid)); [|split; assumption].
      split; [apply updatedActivity_noFalse; exact Hnf|].
      rewrite Hmode. reflexivity.
  - unfold deleteActivity. cbv zeta.
    apply addHistoryLogEntry_wellKept.
    apply currentActivitySetter_wellKept; [| |exact Hs];
      intros _ Hall; apply Forall_forall; intros act Hact;
      apply list_elem_of_filter in Hact as [_ Hact];
      rewrite Forall_forall in Hall; apply Hall; exact Hact.
  - unfold toggleOccurrenceCompletion. cbv zeta.
    apply addHistoryLogEntry_wellKept.
    apply currentActivitySetter_wellKept; [| |exact Hs].
    + intros _. apply Forall_map_kept. intros act Hact.
      destruct (decide (id act = mid)); [|exact Hact].
      apply noFalse_toggled. exact Hact.
    + intros _. apply Forall_map_kept. intros act [Hnf Hresp].
      destruct (decide (id act = mid)); [|split; assumption].
      split; [apply noFalse_toggled; exact Hnf | exact Hresp].
  - unfold deleteCategory. destruct (List.find _ _); [|exact Hs].
    destruct Hs as [Hp Hw]. split; simpl.
    + apply Forall_map_kept; [|exact Hp]. intros act Hact.
      destruct (decide (categoryId act = cid)); exact Hact.
    + apply Forall_map_kept; [|exact Hw]. intros act Hact.
      destruct (decide (categoryId act = cid)); exact Hact.
  - unfold deleteAssignee. destruct (List.find _ _); [|exact Hs].
    destruct Hs as [Hp Hw]. split; simpl; [|exact Hw].
    apply Forall_map_kept; [|exact Hp]. intros act Hact.
    destruct (decide (responsiblePersonId act = Some aid)); exact Hact.
Qed.

(** In every state the provider can reach, no ledger holds a [false] value
    and no work activity refers to an assignee. *)
Theorem reachable_wellKept (s : State) : reachable s -> wellKept s.
Proof.
  induction 1 as [mode cats asgs log | env op s _ IH].
  - split; constructor.
  - apply run_wellKept. exact IH.
Qed.

(** *** Deleting a category or an assignee *)

(** [act'] is [act] with [categoryId] emptied if it was [cid]. *)
Definition categoryCleared (cid : string) (act act' : Activity) : Prop :=
  id act' = id act /\ title act' = title act /\ todos act' = todos act
  /\ createdAt act' = createdAt act /\ time act' = time act
  /\ completed act' = completed act /\ notes act' = notes act
  /\ recurrence act' = recurrence act
  /\ completedOccurrences act' = completedOccurrences act
  /\ responsiblePersonId act' = responsiblePersonId act
  /\ (categoryId act = cid -> categoryId act' = EmptyString)
  /\ (categoryId act <> cid -> act' = act).

(** [act'] is [act] with [responsiblePersonId] removed if it was [aid]. *)
Definition assigneeCleared (aid : string) (act act' : Activity) : Prop :=
  id act' = id act /\ title act' = title act
  /\ categoryId act' = categoryId act /\ todos act' = todos act
  /\ createdAt act' = createdAt act /\ time act' = time act
  /\ completed act' = completed act /\ notes act' = notes act
  /\ recurrence act' = recurrence act
  /\ completedOccurrences act' = completedOccurrences act
  /\ (responsiblePersonId act = Some aid -> responsiblePersonId act' = None)
  /\ (responsiblePersonId act <> Some aid -> act' = act).

(** C9: deleting an existing category empties [categoryId] on every
    activity of the personal and of the work collection that refers to it,
    changes nothing else in them and keeps every activity in its place;
    deleting an existing assignee removes [responsiblePersonId] from the
    personal activities that refer to it, changes nothing else and deletes
    none.  The work collection is not touched: its activities carry no
    [responsiblePersonId] (see [reachable_wellKept]), and then no activity
    of either collection refers to the assignee any more. *)
Theorem delete_clears_back_references
    (env : Env) (s : State) (cid aid : string) :
  ((exists cat, cat ∈ allCategories s /\ catId cat = cid) ->
   Forall2 (categoryCleared cid)
           (personalActivities s) (personalActivities (deleteCategory env cid s))
   /\ Forall2 (categoryCleared cid)
              (workActivities s) (workActivities (deleteCategory env cid s)))
  /\ ((exists asg, asg ∈ allAssignees s /\ asgId asg = aid) ->
      Forall2 (assigneeCleared aid)
              (personalActivities s)
              (personalActivities (deleteAssignee env aid s))
      /\ workActivities (deleteAssignee env aid s) = workActivities s
      /\ (Forall (fun act => responsiblePersonId act = None) (workActivities s) ->
          forall act,
            act ∈ personalActivities (deleteAssignee env aid s)
                  ++ workActivities (deleteAssignee env aid s) ->
            responsiblePersonId act <> Some aid)).
Proof.
  assert (Hc : forall act,
             categoryCleared cid act
               (if decide (categoryId act = cid) then clearCategory act else act)).
  { intros act. unfold categoryCleared.
    destruct (decide (categoryId act = cid)) as [E|E]; simpl;
      repeat split; try reflexivity; intros; congruence. }
  assert (Ha : forall act,
             assigneeCleared aid act
               (if decide (responsiblePersonId act = Some aid)
                then clearResponsiblePerson act else act)).
  { intros act. unfold assigneeCleared.
    destruct (decide (responsiblePersonId act = Some aid)) as [E|E]; simpl;
      repeat split; try reflexivity; intros; congruence. }
  split.
  - intros (cat & Hcat & Hcid). unfold deleteCategory.
    destruct (find_is_Some (fun c => bool_decide (catId c = cid))
                           (allCategories s) cat Hcat) as [c' ->].
    { apply bool_decide_eq_true_2. exact Hcid. }
    simpl. split; apply Forall2_map_r_same; exact Hc.
  - intros (asg & Hasg & Haid). unfold deleteAssignee.
    destruct (find_is_Some (fun a => bool_decide (asgId a = aid))
                           (allAssignees s) asg Hasg) as [a' ->].
    { apply bool_decide_eq_true_2. exact Haid. }
    simpl. split; [apply Forall2_map_r_same; exact Ha|].
    split; [reflexivity|].
    intros Hwork act Hact.
    apply elem_of_app in Hact as [Hact | Hact].
    + apply list_elem_of_fmap in Hact as (act0 & -> & _).
      destruct (decide (responsiblePersonId act0 = Some aid)); [discriminate | assumption].
    + rewrite Forall_forall in Hwork. rewrite (Hwork act Hact). discriminate.
Qed.

Lemma delete_clears_back_references_witness :
  (Forall2 (categoryCleared "cat_home")
           (personalActivities sampleState)
           (personalActivities (deleteCategory sampleEnv "cat_home" sampleState))
   /\ Forall2 (categoryCleared "cat_home")
              (workActivities sampleState)
              (workActivities (deleteCategory sampleEnv "cat_home" sampleState)))
  /\ (Forall2 (assigneeCleared "asg_1")
              (personalActivities sampleState)
              (personalActivities (deleteAssignee sampleEnv "asg_1" sampleState))
      /\ workActivities (deleteAssignee sampleEnv "asg_1" sampleState)
         = workActivities sampleState
      /\ (Forall (fun act => responsiblePersonId act = None)
                 (workActivities sampleState) ->
          forall act,
            act ∈ personalActivities (deleteAssignee sampleEnv "asg_1" sampleState)
                  ++ workActivities (deleteAssignee sampleEnv "asg_1" sampleState) ->
            responsiblePersonId act <> Some "asg_1")).
Proof.
  destruct (delete_clears_back_references
              sampleEnv sampleState "cat_home" "asg_1") as [Hcat Hasg].
  split.
  - apply Hcat. exists (mkCategory "cat_home" "Home" "Home" "all").
    split; [apply list_elem_of_here | reflexivity].
  - apply Hasg. exists (mkAssignee "asg_1" "Ana").
    split; [apply list_elem_of_here | reflexivity].
Defined.

(** The end-to-end scenario: the activity stays, its category is gone. *)
Example delete_category_scenario :
  (fun act => (id act, categoryId act))
    <$> personalActivities (deleteCategory sampleEnv "cat_home" sampleState)
  = [("a1", EmptyString)]
  /\ allCategories (deleteCategory sampleEnv "cat_home" sampleState) = [].
Proof. split; reflexivity. Qed.

(** A category that is not in the list: nothing happens at all. *)
Lemma deleteCategory_unknown (env : Env) (s : State) (cid : string) :
  (forall cat, cat ∈ allCategories s -> catId cat <> cid) ->
  deleteCategory env cid s = s.
Proof.
  intros Hnone. unfold deleteCategory.
  destruct (List.find _ _) as [c|] eqn:E; [|reflexivity].
  apply find_some in E as [Hin Hc].
  apply bool_decide_eq_true_1 in Hc.
  exfalso. apply (Hnone c); [apply list_elem_of_In; exact Hin | exact Hc].
Qed.

End StoreSpec.

(* ===================================================================== *)
(** ** The notification scheduler: results *)
(* ===================================================================== *)

Module SchedulerSpec.
Import JSDate JSDateFacts Model Generator GeneratorFacts Scheduler.
Local Open Scope Z_scope.

#[local] Arguments formatISO_date : simpl never.
#[local] Arguments generateFutureInstancesForNotifications : simpl never.

Lemma foldl_add_keys (shown : list Emission) (base : gset string) :
  forall k,
    k ∈ foldl (fun prev e => prev ∪ {[emissionKey e]}) base shown
    <-> k ∈ base \/ exists e, e ∈ shown /\ emissionKey e = k.
Proof.
  revert base. induction shown as [|e shown IH]; intros base k; simpl.
  - split; [auto | intros [H | (e & He & _)]; [exact H | inversion He]].
  - rewrite IH. split.
    + intros [H | (e' & He' & Hk)].
      * apply elem_of_union in H as [H | H]; [left; exact H|].
        apply elem_of_singleton in H. right. exists e.
        split; [left | symmetry; exact H].
      * right. exists e'. split; [right; exact He' | exact Hk].
    + intros [H | (e' & He' & Hk)].
      * left. apply elem_of_union. left. exact H.
      * inversion He'; subst.
        -- left. apply elem_of_union. right. apply elem_of_singleton. reflexivity.
        -- right. exists e'. split; [assumption | reflexivity].
Qed.

Section Fresh.
Variable notified : gset string.
Variable now : Z.

Lemma notify_fresh (A : Activity) (instance : FutureInstance) (tk : string) :
  forall e, e ∈ notify notified A instance tk -> emissionKey e ∉ notified.
Proof.
  intros e. unfold notify.
  destruct (bool_decide _) eqn:E; intros He; [inversion He|].
  apply list_elem_of_singleton in He. subst e.
  apply bool_decide_eq_false_1 in E. exact E.
Qed.

Lemma startingSoon_fresh (today : Z) (A : Activity) :
  forall e, e ∈ startingSoon notified now today A -> emissionKey e ∉ notified.
Proof.
  intros e. unfold startingSoon.
  destruct (time A) as [t|]; [|intros He; inversion He].
  destruct (decide (t = EmptyString)); [intros He; inversion He|].
  intros He. apply list_elem_of_In, in_flat_map in He as (instance & _ & He).
  apply list_elem_of_In in He.
  destruct (negb (isCompletedOn _ _) && negb (bool_decide _)) eqn:E;
    [|inversion He].
  apply andb_prop in E as [_ E]. apply negb_true_iff in E.
  apply bool_decide_eq_false_1 in E.
  destruct (hoursMinutes t) as [[hours minutes]|]; [|inversion He].
  destruct ((0 <=? _) && (_ <=? _)); [|inversion He].
  apply list_elem_of_singleton in He. subst e. exact E.
Qed.

Lemma upcoming_fresh (today : Z) (A : Activity) :
  forall e, e ∈ upcoming notified today A -> emissionKey e ∉ notified.
Proof.
  intros e. unfold upcoming.
  destruct (recurringRule A) as [r|]; [|intros He; inversion He].
  intros He. apply list_elem_of_In, in_flat_map in He as (instance & _ & He).
  apply list_elem_of_In in He.
  destruct (isCompletedOn _ _); [inversion He|].
  destruct (type r); try (inversion He; fail).
  - destruct (isSameDay _ _); [|inversion He].
    eapply notify_fresh; exact He.
  - repeat (apply elem_of_app in He as [He | He]);
      match type of He with
      | _ ∈ (if ?c then _ else _) => destruct c; [|inversion He]
      end;
      eapply notify_fresh; exact He.
Qed.

Lemma emissions_fresh (acts : list Activity) :
  forall e, e ∈ emissions notified now acts -> emissionKey e ∉ notified.
Proof.
  intros e He. unfold emissions in He.
  apply list_elem_of_In, in_flat_map in He as (A & _ & He).
  apply list_elem_of_In, elem_of_app in He as [He | He].
  - eapply startingSoon_fresh; exact He.
  - eapply upcoming_fresh; exact He.
Qed.

End Fresh.

(** A tick shows nothing whose key the previous tick left in the set, and
    leaves the key of everything it shows in the set. *)
Lemma tick_fresh (st : DedupState) (now : Z) (acts : list Activity) :
  forall e, e ∈ (tick st now acts).1 -> emissionKey e ∉ notifiedToday st.
Proof. apply emissions_fresh. Qed.

Lemma tick_records (st : DedupState) (now : Z) (acts : list Activity) :
  forall e, e ∈ (tick st now acts).1 ->
            emissionKey e ∈ notifiedToday (tick st now acts).2.
Proof.
  intros e He. simpl. apply foldl_add_keys. right. exists e. split; [exact He | reflexivity].
Qed.

(** *** One "starting soon" notification per activity and tick *)

(** The "5min_soon" notifications among those shown. *)
Definition soon (shown : list Emission) : list Emission :=
  filter (fun e => typeKey e = "5min_soon") shown.

(** What a notification is about. *)
Definition occurrenceOf (e : Emission) : string * string :=
  (activityId e, occurrenceDateKey e).

Lemma Day_endOfDay (d : Z) : Day (endOfDay d) = Day d.
Proof.
  unfold endOfDay, Date_setHours. apply Day_MakeDate.
  unfold MakeTime, msPerHour, msPerMinute, msPerSecond, msPerDay. lia.
Qed.

Section OnePerActivity.
Variable notified : gset string.
Variable now : Z.

Lemma startingSoon_at_most_one (today : Z) (A : Activity) :
  startingSoon notified now today A = []
  \/ exists e, startingSoon notified now today A = [e]
               /\ activityId e = id A /\ typeKey e = "5min_soon".
Proof.
  unfold startingSoon.
  destruct (time A) as [t|]; [|left; reflexivity].
  destruct (decide (t = EmptyString)); [left; reflexivity|].
  pose proof (generate_one_per_day A today (endOfDay today)) as Hone.
  rewrite Day_endOfDay in Hone. specialize (Hone ltac:(lia)).
  destruct (generateFutureInstancesForNotifications A today (endOfDay today))
    as [|instance [|instance' rest]]; [left; reflexivity | | simpl in Hone; lia].
  cbn [flat_map]. rewrite app_nil_r.
  destruct (negb _ && negb _); [|left; reflexivity].
  destruct (hoursMinutes t) as [[hours minutes]|]; [|left; reflexivity].
  destruct ((0 <=? _) && (_ <=? _)); [|left; reflexivity].
  right. eexists. split; [reflexivity|]. split; reflexivity.
Qed.

Lemma startingSoon_soon (today : Z) (A : Activity) :
  soon (startingSoon notified now today A) = startingSoon notified now today A.
Proof.
  destruct (startingSoon_at_most_one today A) as [-> | (e & -> & _ & Hk)].
  - reflexivity.
  - unfold soon. rewrite filter_cons_True by exact Hk. reflexivity.
Qed.

Lemma notify_typeKey (A : Activity) (instance : FutureInstance) (tk : string) :
  forall e, e ∈ notify notified A instance tk -> typeKey e = tk.
Proof.
  intros e. unfold notify. destruct (bool_decide _); intros He; [inversion He|].
  apply list_elem_of_singleton in He. subst e. reflexivity.
Qed.

Lemma upcoming_not_soon (today : Z) (A : Activity) :
  soon (upcoming notified today A) = [].
Proof.
  unfold soon.
  destruct (filter _ _) as [|e l] eqn:Hf; [reflexivity|].
  assert (He : e ∈ filter (fun e => typeKey e = "5min_soon")
                          (upcoming notified today A))
    by (rewrite Hf; left).
  apply list_elem_of_filter in He as [Hk He]. exfalso.
  unfold upcoming in He.
  destruct (recurringRule A) as [r|]; [|inversion He].
  apply list_elem_of_In, in_flat_map in He as (instance & _ & He).
  apply list_elem_of_In in He.
  destruct (isCompletedOn _ _); [inversion He|].
  destruct (type r); try (inversion He; fail).
  - destruct (isSameDay _ _); [|inversion He].
    apply notify_typeKey in He. rewrite He in Hk. discriminate.
  - repeat (apply elem_of_app in He as [He | He]);
      match type of He with
      | _ ∈ (if ?c then _ else _) => destruct c; [|inversion He]
      end;
      apply notify_typeKey in He; rewrite He in Hk; discriminate.
Qed.

(** The "starting soon" notifications of one tick, per activity. *)
Lemma soon_emissions (acts : list Activity) :
  soon (emissions notified now acts)
  = flat_map (startingSoon notified now (getStartOfDayUtil now)) acts.
Proof.
  unfold emissions. induction acts as [|A acts IH]; [reflexivity|].
  cbn [flat_map]. unfold soon in *. rewrite !filter_app, IH.
  fold (soon (startingSoon notified now (getStartOfDayUtil now) A)).
  fold (soon (upcoming notified (getStartOfDayUtil now) A)).
  rewrite startingSoon_soon, upcoming_not_soon, app_nil_r. reflexivity.
Qed.

Lemma soon_activity_ids (acts : list Activity) :
  forall e, e ∈ flat_map (startingSoon notified now (getStartOfDayUtil now)) acts ->
            activityId e ∈ id <$> acts.
Proof.
  intros e He. apply list_elem_of_In, in_flat_map in He as (A & HA & He).
  apply list_elem_of_In in HA, He.
  destruct (startingSoon_at_most_one (getStartOfDayUtil now) A)
    as [Hnil | (e' & Hone & Hid & _)].
  - rewrite Hnil in He. inversion He.
  - rewrite Hone in He. apply list_elem_of_singleton in He. subst e'.
    rewrite Hid. apply list_elem_of_fmap_2. exact HA.
Qed.

Lemma soon_NoDup (acts : list Activity) :
  NoDup (id <$> acts) ->
  NoDup (activityId <$> soon (emissions notified now acts)).
Proof.
  rewrite soon_emissions.
  induction acts as [|A acts IH]; intros Hnd; [constructor|].
  apply NoDup_cons in Hnd as [Hnotin Hnd].
  cbn [flat_map]. rewrite fmap_app. apply NoDup_app.
  split; [|split; [|apply IH; exact Hnd]].
  - destruct (startingSoon_at_most_one (getStartOfDayUtil now) A)
      as [-> | (e & -> & _ & _)]; [constructor | apply NoDup_singleton].
  - intros x Hx Hx'.
    apply list_elem_of_fmap in Hx as (e & -> & He).
    apply list_elem_of_fmap in Hx' as (e' & Heq & He').
    apply soon_activity_ids in He'.
    destruct (startingSoon_at_most_one (getStartOfDayUtil now) A)
      as [Hnil | (e0 & Hone & Hid & _)].
    + rewrite Hnil in He. inversion He.
    + rewrite Hone in He. apply list_elem_of_singleton in He. subst e0.
      apply Hnotin. change (id A :: (id <$> acts)) with (id <$> (A :: acts)) in *.
      rewrite <- Hid, Heq. exact He'.
Qed.

End OnePerActivity.

(** C7: two consecutive ticks that see the same day of the month never
    show two "5min_soon" notifications for the same activity id and
    occurrence date key: the second tick shows none for a pair the first
    tick showed one for and, activity ids being unique, all those of the
    two ticks together are about different pairs.  A tick that sees
    another day of the month than the tick before it leaves a
    de-duplication set that holds the keys of that tick's own
    notifications and none of the older keys, which therefore may fire
    again at the following ticks. *)
Theorem scheduler_dedup
    (st : DedupState) (now1 now2 : Z) (acts1 acts2 : list Activity) :
  (getDate now2 = getDate now1 ->
   (forall e1 e2,
      e1 ∈ (tick st now1 acts1).1 ->
      e2 ∈ (tick (tick st now1 acts1).2 now2 acts2).1 ->
      typeKey e1 = "5min_soon" -> typeKey e2 = "5min_soon" ->
      ~ (activityId e1 = activityId e2
         /\ occurrenceDateKey e1 = occurrenceDateKey e2))
   /\ (NoDup (id <$> acts1) -> NoDup (id <$> acts2) ->
       NoDup (occurrenceOf <$>
                (soon (tick st now1 acts1).1
                 ++ soon (tick (tick st now1 acts1).2 now2 acts2).1))))
  /\ (forall d, lastNotificationCheckDay st = Some d -> d <> getDate now1 ->
      (forall k, k ∈ notifiedToday (tick st now1 acts1).2
                 <-> exists e, e ∈ (tick st now1 acts1).1 /\ emissionKey e = k)
      /\ (forall k, k ∈ notifiedToday st ->
                    k ∉ notifiedToday (tick st now1 acts1).2)).
Proof.
  assert (Hcross : forall e1 e2,
             e1 ∈ (tick st now1 acts1).1 ->
             e2 ∈ (tick (tick st now1 acts1).2 now2 acts2).1 ->
             typeKey e1 = "5min_soon" -> typeKey e2 = "5min_soon" ->
             ~ (activityId e1 = activityId e2
                /\ occurrenceDateKey e1 = occurrenceDateKey e2)).
  { intros e1 e2 He1 He2 Ht1 Ht2 [Hid Hkey].
    apply tick_records in He1. apply tick_fresh in He2.
    apply He2. replace (emissionKey e2) with (emissionKey e1); [exact He1|].
    unfold emissionKey. rewrite Hid, Hkey, Ht1, Ht2. reflexivity. }
  split.
  - intros _. split; [exact Hcross|].
    intros Hnd1 Hnd2.
    assert (Hfst : forall l : list Emission,
               NoDup (activityId <$> l) -> NoDup (occurrenceOf <$> l)).
    { intros l Hl. apply (NoDup_fmap_1 fst).
      rewrite <- list_fmap_compose. exact Hl. }
    rewrite fmap_app. apply NoDup_app.
    split; [apply Hfst, soon_NoDup; exact Hnd1|].
    split; [|apply Hfst, soon_NoDup; exact Hnd2].
    intros p Hp1 Hp2.
    apply list_elem_of_fmap in Hp1 as (e1 & -> & He1).
    apply list_elem_of_fmap in Hp2 as (e2 & Heq & He2).
    apply list_elem_of_filter in He1 as [Hk1 He1].
    apply list_elem_of_filter in He2 as [Hk2 He2].
    apply (Hcross e1 e2 He1 He2 Hk1 Hk2).
    unfold occurrenceOf in Heq. split; congruence.
  - intros d Hd Hne.
    assert (Hset : forall k,
               k ∈ notifiedToday (tick st now1 acts1).2
               <-> exists e, e ∈ (tick st now1 acts1).1 /\ emissionKey e = k).
    { intros k. simpl. rewrite Hd.
      assert ((d =? getDate now1) = false) as -> by lia. simpl.
      rewrite foldl_add_keys. split.
      - intros [H | H]; [apply not_elem_of_empty in H; contradiction | exact H].
      - intros H. right. exact H. }
    split; [exact Hset|].
    intros k Hk Hin. apply Hset in Hin as (e & He & <-).
    apply tick_fresh in He. contradiction.
Qed.

(** A meeting on 2024-01-15 at 09:00, and three ticks: 08:56 and 08:57 on
    that day, and 08:56 one month later (another day of the month is seen
    in between at 2024-02-14). *)
Definition meeting : Activity :=
  mkActivity "m1" "Meeting" "cat_work" [] (newDate 2024 0 15 0 0) (Some "09:00")
             false None None ∅ None.

Definition firstTick : list Emission * DedupState :=
  tick (mkDedupState None ∅) (newDate 2024 0 15 8 56) [meeting].

Definition secondTick : list Emission * DedupState :=
  tick firstTick.2 (newDate 2024 0 15 8 57) [meeting].

Example first_tick_notifies :
  firstTick.1 = [mkEmission "m1" (newDate 2024 0 15 0 0) "5min_soon"]
  /\ emissionKey <$> firstTick.1 = ["m1:2024-01-15:5min_soon"]
  /\ lastNotificationCheckDay firstTick.2 = Some 15.
Proof. repeat split; vm_compute; reflexivity. Qed.

Example second_tick_is_silent : secondTick.1 = [].
Proof. vm_compute. reflexivity. Qed.

Lemma scheduler_dedup_witness :
  (forall k,
      k ∈ notifiedToday
            (tick firstTick.2 (newDate 2024 1 14 8 56) [meeting]).2
      <-> exists e,
          e ∈ (tick firstTick.2 (newDate 2024 1 14 8 56) [meeting]).1
          /\ emissionKey e = k)
  /\ (forall k,
         k ∈ notifiedToday firstTick.2 ->
         k ∉ notifiedToday
               (tick firstTick.2 (newDate 2024 1 14 8 56) [meeting]).2).
Proof.
  apply (proj2 (scheduler_dedup firstTick.2 (newDate 2024 1 14 8 56)
                                (newDate 2024 1 14 8 57) [meeting] [meeting])
               15).
  - reflexivity.
  - vm_compute. discriminate.
Defined.

End SchedulerSpec.

(* ===================================================================== *)
(** ** The generator: what a run returns *)
(* ===================================================================== *)

Module GeneratorMore.
Import JSDate JSDateFacts Model Generator GeneratorFacts.
Local Open Scope Z_scope.

#[local] Opaque addDays addMonths formatISO_date Date_setDate DateFromTime
  YearFromTime MonthFromTime DaysInMonth DayFromYearMonth TimeWithinDay MakeDay.
#[local] Arguments formatISO_date : simpl never.
#[local] Arguments addDays : simpl never.
#[local] Arguments addMonths : simpl never.
#[local] Arguments setDayOfMonthFn : simpl never.
#[local] Arguments getDate : simpl never.
#[local] Arguments getDay : simpl never.
#[local] Arguments startOfDay : simpl never.
#[local] Arguments walkBody : simpl never.

(** *** Where the walk starts *)

Section Start.
Variable A : Activity.
Variables rs re : Z.
Variable r : RecurrenceRule.

(** The weekly fast-forward loop leaves at a date that is not before
    [rangeStart], or through its [break], past [rangeEnd]. *)
Lemma weeklySeek_exit (days : list Z) :
  forall (fuel : nat) (tempDate steps t' s' : Z),
    weeklySeek A rs re fuel days tempDate steps = Some (t', s') ->
    rs <= t' \/ re < t'.
Proof.
  induction fuel as [|fuel IH]; intros tempDate steps t' s'; simpl.
  - destruct (isBefore tempDate (createdAt A)
              || negb (includes days (getDay tempDate))
              || isBefore tempDate rs) eqn:Hc; [discriminate|].
    intros H; inversion H; subst.
    apply orb_false_iff in Hc as [_ Hc]. unfold isBefore in Hc. left. lia.
  - destruct (isBefore tempDate (createdAt A)
              || negb (includes days (getDay tempDate))
              || isBefore tempDate rs) eqn:Hc.
    2: { intros H; inversion H; subst.
         apply orb_false_iff in Hc as [_ Hc]. unfold isBefore in Hc. left. lia. }
    destruct (isAfter (addDays tempDate 1) re) eqn:Ha.
    + intros H; inversion H; subst. unfold isAfter in Ha. right. lia.
    + apply IH.
Qed.

(** The month after an earlier day of [rs]'s month is after [rs]. *)
Lemma next_month_after (dom : Z) :
  1 <= dom ->
  isBefore (setDayOfMonthFn rs dom) rs = true ->
  rs < addMonths (setDayOfMonthFn rs dom) 1.
Proof.
  intros Hdom1 Hb. apply Day_lt_time.
  unfold isBefore, setDayOfMonthFn in Hb.
  rewrite Date_setDate_spec in Hb.
  assert (Hlt : dom < getDate rs) by (unfold msPerDay in Hb; lia).
  pose proof (DateFromTime_range rs) as Hrange.
  destruct (fields_of_setDate rs dom) as (Hy & Hmo & _);
    [unfold getDate in Hlt; lia|].
  assert (Hfirst : firstOfMonth (Date_setDate rs dom) = firstOfMonth rs)
    by (unfold firstOfMonth; rewrite Hy, Hmo; reflexivity).
  unfold setDayOfMonthFn.
  rewrite (Day_firstOfMonth (addMonths (Date_setDate rs dom) 1)).
  rewrite addMonths_1_firstOfMonth, Hfirst, Hy, Hmo.
  rewrite (Day_firstOfMonth rs).
  pose proof (DateFromTime_range (addMonths (Date_setDate rs dom) 1)) as Hx.
  lia.
Qed.

(** The walk starts inside the window or past its end, unless the rule
    names no day at all. *)
Lemma fastForward_from (start k : Z) :
  movesForward r ->
  fastForward A rs re r = Some (start, k) ->
  rs <= start \/ re < start \/ (forall c, isValidOccurrence r c = false).
Proof.
  intros Hfw. unfold fastForward.
  destruct (isBefore (createdAt A) rs) eqn:Hbefore.
  2: { intros H; inversion H; subst. left.
       unfold isBefore in Hbefore. lia. }
  destruct (type r) eqn:Hty.
  - intros _. right. right.
    intros c. unfold isValidOccurrence. rewrite Hty. reflexivity.
  - intros H; inversion H; subst. left. lia.
  - destruct (daysOfWeek r) as [days|] eqn:Hdays.
    + destruct (0 <? Z.of_nat (length days)) eqn:Hlen.
      * intros H. apply weeklySeek_exit in H. tauto.
      * intros _. right. right.
        intros c. unfold isValidOccurrence. rewrite Hty, Hdays.
        destruct days; [reflexivity|].
        exfalso. apply Z.ltb_ge in Hlen. cbn [length] in Hlen. lia.
    + intros _. right. right.
      intros c. unfold isValidOccurrence. rewrite Hty, Hdays. reflexivity.
  - destruct (truthyZ (dayOfMonth r)) as [dom|] eqn:Hdom.
    2: { intros _. right. right.
         intros c. unfold isValidOccurrence. rewrite Hty, Hdom. reflexivity. }
    pose proof (Hfw Hty dom Hdom) as Hdom1.
    cbv zeta. intros H. apply Some_pair_fst in H. subst start. left.
    set (target := if isBefore (setDayOfMonthFn (createdAt A) dom) (createdAt A)
                   then addMonths (setDayOfMonthFn (createdAt A) dom) 1
                   else setDayOfMonthFn (createdAt A) dom).
    assert (Hcur : rs <= (if isBefore (setDayOfMonthFn rs dom) rs
                          then addMonths (setDayOfMonthFn rs dom) 1
                          else setDayOfMonthFn rs dom)).
    { destruct (isBefore (setDayOfMonthFn rs dom) rs) eqn:Hb.
      - apply Z.lt_le_incl. apply next_month_after; assumption.
      - unfold isBefore in Hb. lia. }
    destruct (isBefore _ target) eqn:Hb2; [|exact Hcur].
    etransitivity; [exact Hcur|].
    unfold isBefore in Hb2. apply Z.ltb_lt in Hb2.
    apply Z.lt_le_incl. exact Hb2.
Qed.

(** *** The dates of a run, in order *)

(** The dates pushed so far are in chronological order, on different
    calendar days, not before [lo] and on days before the candidate of the
    next pass. *)
Definition inOrder (lo : Z) (w : Walk) : Prop :=
  StronglySorted (fun a b => Day a < Day b) (instanceDate <$> instances w)
  /\ Forall (fun d => lo <= d /\ Day d < Day (currentDate w))
            (instanceDate <$> instances w).

Definition ordered (lo : Z) (l : list FutureInstance) : Prop :=
  StronglySorted (fun a b => Day a < Day b) (instanceDate <$> l)
  /\ Forall (fun d => lo <= d) (instanceDate <$> l).

Lemma inOrder_ordered (lo : Z) (w : Walk) :
  inOrder lo w -> ordered lo (instances w).
Proof.
  intros [Hs Hall]. split; [exact Hs|].
  eapply Forall_impl; [exact Hall|]. intros d [Hd _]. exact Hd.
Qed.

Lemma walk_ordered (lo : Z) :
  movesForward r ->
  forall (fuel : nat) (w w' : Walk),
    lo <= currentDate w ->
    inOrder lo w ->
    walk A re r fuel w = Some w' ->
    ordered lo (instances w').
Proof.
  intros Hfw. induction fuel as [|fuel IH]; intros w w' Hlo Hin; simpl.
  - destruct (_ && _); [discriminate|].
    intros H; inversion H; subst. apply inOrder_ordered. exact Hin.
  - destruct ((iterations w <? maxIterations)
              && negb (isAfter (currentDate w) re)) eqn:Hc.
    2: { intros H; inversion H; subst. apply inOrder_ordered. exact Hin. }
    pose proof (walkBody_instances A r w) as Hinst. cbv zeta in Hinst.
    pose proof (walkBody_advances A r w) as Hadv.
    assert (Hpush : forall i,
               pushedAt A r (currentDate w) i ->
               StronglySorted (fun a b => Day a < Day b)
                              (instanceDate <$> (instances w ++ [i]))
               /\ Forall (fun d => lo <= d /\ Day d <= Day (currentDate w))
                         (instanceDate <$> (instances w ++ [i]))).
    { intros i Hp. destruct Hp as [-> _]. destruct Hin as [Hs Hall].
      rewrite fmap_app. cbn [fmap list_fmap instanceDate]. split.
      - apply StronglySorted_app_2; [| exact Hs | repeat constructor].
        intros x1 x2 Hx1 Hx2. apply list_elem_of_singleton in Hx2. subst x2.
        rewrite Forall_forall in Hall. apply (Hall x1 Hx1).
      - apply Forall_app. split.
        + eapply Forall_impl; [exact Hall|]. cbv beta. intros d [H1 H2].
          split; [exact H1 | lia].
        + constructor; [|constructor]. cbv beta. lia. }
    destruct (walkBody A r w) as [w1|w1]; cbn [outcomeWalk] in Hinst.
    + intros Hw. specialize (Hadv w1 Hfw eq_refl).
      apply (IH w1 w'); [| |exact Hw].
      * pose proof (Day_lt_time (currentDate w) (currentDate w1)). lia.
      * unfold inOrder.
        destruct Hinst as [Heq | (i & Heq & Hp)]; rewrite Heq.
        -- destruct Hin as [Hs Hall]. split; [exact Hs|].
           eapply Forall_impl; [exact Hall|]. cbv beta. intros d [H1 H2].
           split; [exact H1 | lia].
        -- destruct (Hpush i Hp) as [Hs Hall]. split; [exact Hs|].
           eapply Forall_impl; [exact Hall|]. cbv beta. intros d [H1 H2].
           split; [exact H1 | lia].
    + intros H; inversion H; subst. unfold ordered.
      destruct Hinst as [Heq | (i & Heq & Hp)]; rewrite Heq.
      * apply inOrder_ordered. exact Hin.
      * destruct (Hpush i Hp) as [Hs Hall]. split; [exact Hs|].
        eapply Forall_impl; [exact Hall|]. cbv beta. intros d [H1 _]. exact H1.
Qed.

End Start.

(** The result of a run on a recurring activity: in chronological order,
    one date per calendar day at most, none before [rangeStart]. *)
Lemma generate_ordered (A : Activity) (rs re : Z) (r : RecurrenceRule) :
  recurringRule A = Some r ->
  ordered rs (generateFutureInstancesForNotifications A rs re).
Proof.
  intros Hr. unfold generateFutureInstancesForNotifications. rewrite Hr.
  destruct (recurringRun A rs re r) as [[k w]|] eqn:Hrun;
    [|split; constructor].
  assert (Hnever : (forall c, isValidOccurrence r c = false) ->
                   ordered rs (instances w)).
  { intros Hnv.
    destruct (recurringRun_total A rs re r) as (k' & w' & Hrun' & _ & _ & Hall).
    rewrite Hrun in Hrun'. inversion Hrun'; subst.
    destruct (instances w') as [|i l]; [split; constructor|].
    inversion Hall as [|? ? [(_ & _ & _ & Hvalid & _) _] _]; subst.
    rewrite Hnv in Hvalid. discriminate. }
  destruct (movesForward_dec r) as [Hfw | Hnfw].
  2: { apply Hnever. apply not_movesForward_never_valid. exact Hnfw. }
  unfold recurringRun in Hrun.
  destruct (fastForward A rs re r) as [[start k0]|] eqn:Hff; [|discriminate].
  destruct (walk A re r (Z.to_nat maxIterations) (mkWalk start 0 []))
    as [w0|] eqn:Hw; [|discriminate].
  inversion Hrun; subst.
  destruct (fastForward_from A rs re r start k Hfw Hff) as [Hstart | [Hpast | Hnv]].
  - eapply (walk_ordered A re r rs Hfw); [| |exact Hw].
    + exact Hstart.
    + split; constructor.
  - (* past the end of the window: the loop is not entered *)
    change (Z.to_nat maxIterations) with (S 365) in Hw.
    rewrite walk_unfold in Hw. cbn [currentDate iterations] in Hw.
    assert (isAfter start re = true) as Ha by (unfold isAfter; lia).
    rewrite Ha, andb_false_r in Hw. inversion Hw; subst.
    split; constructor.
  - apply Hnever. exact Hnv.
Qed.

(** *** Daily rules *)

(** The candidates of a daily rule, spelled out from what the loop is meant
    to do: [d], one calendar day after [d], one calendar day after that,
    ..., [n] of them at most, up to the first that is after [last]. *)
Fixpoint dailyCandidates (n : nat) (d last : Z) : list Z :=
  match n with
  | O => []
  | S n' =>
      if d <=? last then d :: dailyCandidates n' (addDays d 1) last else []
  end.

Section DailyRule.
Variable A : Activity.
Variables rs re : Z.
Variable r : RecurrenceRule.
Hypothesis daily : type r = Daily.

(** The last instant a candidate may have: the end of the window, or the
    end of the series if that is earlier. *)
Definition lastInstant : Z :=
  match seriesEndDate r with
  | Some e => Z.min re e
  | None => re
  end.

Definition notCompleted (d : Z) : Prop :=
  isCompletedOn (completedOccurrences A) (formatISO_date d) = false.

(** One calendar day on is later: all that the lemmas on daily rules use
    of [addDays]. *)
Lemma addDays_1_later (d : Z) : d < addDays d 1.
Proof. rewrite addDays_spec. unfold msPerDay. lia. Qed.

(** A pass of the body of the main loop at a candidate of a daily rule. *)
Lemma walkBody_daily (cur its : Z) (insts : list FutureInstance) :
  createdAt A <= cur ->
  cur <= lastInstant ->
  walkBody A r (mkWalk cur its insts) =
  Next (mkWalk (addDays cur 1) (its + 1)
               (if isCompletedOn (completedOccurrences A) (formatISO_date cur)
                then insts
                else insts ++ [mkFutureInstance cur (id A)])).
Proof.
  intros Hcreated Hlast.
  unfold walkBody. cbn [currentDate iterations instances]. cbv zeta.
  unfold lastInstant in Hlast.
  assert (match seriesEndDate r with
          | Some e => isAfter cur e
          | None => false
          end = false) as ->.
  { destruct (seriesEndDate r); [unfold isAfter; lia | reflexivity]. }
  assert (isBefore cur (createdAt A) = false) as -> by (unfold isBefore; lia).
  unfold isValidOccurrence. rewrite daily.
  destruct (isCompletedOn (completedOccurrences A) (formatISO_date cur));
    reflexivity.
Qed.

Lemma dailyCandidates_past (n : nat) (d last : Z) :
  last < d -> dailyCandidates n d last = [].
Proof.
  intros Hlt. destruct n as [|n]; [reflexivity|].
  cbn [dailyCandidates].
  assert ((d <=? last) = false) as -> by lia. reflexivity.
Qed.

Lemma walk_daily :
  forall (fuel : nat) (cur its : Z) (insts : list FutureInstance) (w' : Walk),
    createdAt A <= cur ->
    0 <= its ->
    366 - its <= Z.of_nat fuel ->
    walk A re r fuel (mkWalk cur its insts) = Some w' ->
    instanceDate <$> instances w'
    = (instanceDate <$> insts)
      ++ filter notCompleted
                (dailyCandidates (Z.to_nat (366 - its)) cur lastInstant).
Proof.
  induction fuel as [|fuel IH]; intros cur its insts w' Hcur Hits Hfuel.
  - cbn [walk currentDate iterations].
    assert ((its <? maxIterations) = false) as ->
      by (unfold maxIterations; lia).
    intros H; inversion H; subst. cbn [instances].
    replace (Z.to_nat (366 - its)) with 0%nat by lia.
    rewrite app_nil_r. reflexivity.
  - rewrite walk_unfold. cbn [currentDate iterations].
    destruct ((its <? maxIterations) && negb (isAfter cur re)) eqn:Hc.
    2: { intros H; inversion H; subst. cbn [instances].
         apply andb_false_iff in Hc as [Hc | Hc].
         - unfold maxIterations in Hc.
           replace (Z.to_nat (366 - its)) with 0%nat by lia.
           rewrite app_nil_r. reflexivity.
         - apply negb_false_iff in Hc. unfold isAfter in Hc.
           rewrite dailyCandidates_past;
             [rewrite app_nil_r; reflexivity|].
           unfold lastInstant. destruct (seriesEndDate r); lia. }
    apply andb_prop in Hc as [Hlt Hre].
    apply negb_true_iff in Hre. unfold isAfter in Hre.
    unfold maxIterations in Hlt.
    destruct (Z_lt_le_dec lastInstant cur) as [Hend | Hin].
    + (* the series has ended *)
      assert (exists e, seriesEndDate r = Some e /\ e < cur)
        as (e & He & Hlte).
      { unfold lastInstant in Hend. destruct (seriesEndDate r) as [e|].
        - exists e. split; [reflexivity | lia].
        - lia. }
      rewrite (walkBody_series_ended A r e _ _ _ He Hlte).
      intros H; inversion H; subst. cbn [instances].
      rewrite dailyCandidates_past by exact Hend.
      rewrite app_nil_r. reflexivity.
    + rewrite walkBody_daily by assumption.
      intros Hw. pose proof (addDays_1_later cur) as Hlater.
      apply IH in Hw; [|lia|lia|lia]. rewrite Hw.
      replace (Z.to_nat (366 - its))
        with (S (Z.to_nat (366 - (its + 1)))) by lia.
      cbn [dailyCandidates].
      assert ((cur <=? lastInstant) = true) as -> by lia.
      unfold notCompleted at 2.
      destruct (isCompletedOn (completedOccurrences A) (formatISO_date cur))
        eqn:Hdone.
      * rewrite filter_cons_False by (rewrite Hdone; discriminate).
        reflexivity.
      * rewrite filter_cons_True by exact Hdone.
        rewrite fmap_app. cbn [fmap list_fmap instanceDate].
        rewrite <- app_assoc. reflexivity.
Qed.

(** What a run returns for a daily rule. *)
Lemma recurringRun_daily :
  exists k w,
    recurringRun A rs re r = Some (k, w)
    /\ instanceDate <$> instances w
       = filter notCompleted
                (dailyCandidates 366 (Z.max (createdAt A) rs) lastInstant).
Proof.
  destruct (recurringRun_total A rs re r) as (k & w & Hrun & _).
  exists k, w. split; [exact Hrun|].
  unfold recurringRun in Hrun.
  assert (Hff : fastForward A rs re r = Some (Z.max (createdAt A) rs, 0)).
  { unfold fastForward. rewrite daily. unfold isBefore.
    destruct (createdAt A <? rs) eqn:E; f_equal; f_equal; lia. }
  rewrite Hff in Hrun.
  destruct (walk A re r (Z.to_nat maxIterations)
                 (mkWalk (Z.max (createdAt A) rs) 0 [])) as [w0|] eqn:Hw;
    [|discriminate].
  inversion Hrun; subst.
  rewrite (walk_daily (Z.to_nat maxIterations) (Z.max (createdAt A) rs) 0 [] w);
    [reflexivity | lia | lia | unfold maxIterations; lia | exact Hw].
Qed.

End DailyRule.

(** *** What the result depends on *)

Section SameSchedule.
Variables A A' : Activity.
Variables rs re : Z.
Variable r : RecurrenceRule.
Hypothesis same_id : id A' = id A.
Hypothesis same_createdAt : createdAt A' = createdAt A.
Hypothesis same_ledger : completedOccurrences A' = completedOccurrences A.

Lemma weeklySeek_same (days : list Z) :
  forall (fuel : nat) (tempDate steps : Z),
    weeklySeek A' rs re fuel days tempDate steps
    = weeklySeek A rs re fuel days tempDate steps.
Proof.
  induction fuel as [|fuel IH]; intros tempDate steps; simpl;
    rewrite same_createdAt; [reflexivity|].
  destruct (_ || _ || _); [|reflexivity].
  destruct (isAfter _ _); [reflexivity | apply IH].
Qed.

Lemma fastForward_same : fastForward A' rs re r = fastForward A rs re r.
Proof.
  unfold fastForward. rewrite same_createdAt.
  destruct (isBefore (createdAt A) rs); [|reflexivity].
  destruct (type r); try reflexivity.
  destruct (daysOfWeek r) as [days|]; [|reflexivity].
  destruct (0 <? Z.of_nat (length days)); [|reflexivity].
  apply weeklySeek_same.
Qed.

Lemma walkBody_same (w : Walk) : walkBody A' r w = walkBody A r w.
Proof.
  unfold walkBody. rewrite same_id, same_createdAt, same_ledger. reflexivity.
Qed.

Lemma walk_same :
  forall (fuel : nat) (w : Walk), walk A' re r fuel w = walk A re r fuel w.
Proof.
  induction fuel as [|fuel IH]; intros w; [reflexivity|].
  rewrite !walk_unfold, walkBody_same.
  destruct (_ && _); [|reflexivity].
  destruct (walkBody A r w); [apply IH | reflexivity].
Qed.

Lemma recurringRun_same : recurringRun A' rs re r = recurringRun A rs re r.
Proof.
  unfold recurringRun. rewrite fastForward_same.
  destruct (fastForward A rs re r) as [[start k]|]; [|reflexivity].
  rewrite walk_same. reflexivity.
Qed.

End SameSchedule.

(** *** Results *)

Lemma includes_elem_of (l : list Z) (x : Z) : includes l x = true -> x ∈ l.
Proof.
  unfold includes. intros H. apply existsb_exists in H as (y & Hy & Hxy).
  apply Z.eqb_eq in Hxy. subst y. apply list_elem_of_In. exact Hy.
Qed.

Lemma recurringRule_None_or_Some (A : Activity) :
  recurringRule A = None \/ exists r, recurringRule A = Some r.
Proof. destruct (recurringRule A) as [r|]; [right; exists r|left]; reflexivity. Qed.

(** A gym session every day at 09:00 from 2024-01-01 on; the session of
    2024-01-03 is done. *)
Definition gymRule : RecurrenceRule := mkRecurrenceRule Daily None None None.

Definition gym : Activity :=
  mkActivity "g1" "Gym" "cat_health" [] (newDate 2024 0 1 9 0) (Some "09:00")
             false None (Some gymRule) {["2024-01-03" := true]} None.

(** Every Monday and Wednesday at 18:30 from Monday 2024-01-01 on. *)
Definition classRule : RecurrenceRule :=
  mkRecurrenceRule Weekly None (Some [1; 3]) None.

Definition class : Activity :=
  mkActivity "c1" "Class" "cat_study" [] (newDate 2024 0 1 18 30) (Some "18:30")
             false None (Some classRule) ∅ None.

(** The window from 2024-01-02T00:00 to 2024-01-05T23:00. *)
Definition windowStart : Z := newDate 2024 0 2 0 0.
Definition windowEnd : Z := newDate 2024 0 5 23 0.

Lemma generate_bounds (A : Activity) (rs re : Z) (i : FutureInstance) :
  i ∈ generateFutureInstancesForNotifications A rs re ->
  masterActivityId i = id A
  /\ createdAt A <= instanceDate i
  /\ Z.min rs re <= instanceDate i <= Z.max rs re
  /\ (recurringRule A <> None -> rs <= instanceDate i <= re).
Proof.
  intros Hi.
  destruct (recurringRule_None_or_Some A) as [Hnone | [r Hr]].
  - unfold generateFutureInstancesForNotifications in Hi. rewrite Hnone in Hi.
    unfold singleInstance in Hi.
    destruct (isWithinInterval (createdAt A) rs re && negb (completed A)) eqn:E;
      [|inversion Hi].
    apply list_elem_of_singleton in Hi. subst i. cbn [masterActivityId instanceDate].
    apply andb_prop in E as [E _]. unfold isWithinInterval in E.
    apply andb_prop in E as [E1 E2].
    repeat split; try lia. all: intros Hx; contradiction.
  - pose proof (generate_recurring A rs re r Hr) as Hall.
    rewrite Forall_forall in Hall.
    destruct (Hall i Hi) as [(Heq & _ & Hcreated & _) Hre].
    destruct (generate_ordered A rs re r Hr) as [_ Hlo].
    rewrite Forall_forall in Hlo.
    assert (Hrs : rs <= instanceDate i).
    { apply Hlo. apply list_elem_of_fmap. exists i. split; [reflexivity | exact Hi]. }
    split; [rewrite Heq; reflexivity|].
    split; [exact Hcreated|]. split; [lia|]. intros _. lia.
Qed.

(** X1: Every instance the generator returns carries the id of the activity,
    is not before the activity's start date [createdAt] and lies between
    the two ends of the window; for a recurring activity it lies between
    [rangeStart] and [rangeEnd] in that order, so a window whose end is
    before its start yields nothing. *)
Theorem occurrences_in_window (A : Activity) (rs re : Z) (i : FutureInstance) :
  i ∈ generateFutureInstancesForNotifications A rs re ->
  masterActivityId i = id A
  /\ createdAt A <= instanceDate i
  /\ Z.min rs re <= instanceDate i <= Z.max rs re
  /\ (recurringRule A <> None -> rs <= instanceDate i <= re).
Proof. apply generate_bounds. Qed.

Lemma occurrences_in_window_witness :
  masterActivityId (mkFutureInstance (newDate 2024 0 2 0 0) "g1") = id gym
  /\ createdAt gym <= instanceDate (mkFutureInstance (newDate 2024 0 2 0 0) "g1")
  /\ Z.min windowStart windowEnd
     <= instanceDate (mkFutureInstance (newDate 2024 0 2 0 0) "g1")
     <= Z.max windowStart windowEnd
  /\ (recurringRule gym <> None ->
      windowStart <= instanceDate (mkFutureInstance (newDate 2024 0 2 0 0) "g1")
      <= windowEnd).
Proof.
  apply (occurrences_in_window gym windowStart windowEnd).
  vm_compute. apply list_elem_of_here.
Defined.

(** X2: A one-off activity is returned only while its [completed] flag is
    unset, and then at [createdAt]; its ledger is not looked at.  A
    recurring activity is never returned at a date whose key the ledger
    marks complete. *)
Theorem occurrences_not_completed (A : Activity) (rs re : Z) (i : FutureInstance) :
  i ∈ generateFutureInstancesForNotifications A rs re ->
  (recurringRule A = None ->
   completed A = false /\ instanceDate i = createdAt A)
  /\ (recurringRule A <> None ->
      isCompletedOn (completedOccurrences A) (formatISO_date (instanceDate i))
      = false).
Proof.
  intros Hi. split.
  - intros Hnone.
    unfold generateFutureInstancesForNotifications in Hi. rewrite Hnone in Hi.
    unfold singleInstance in Hi.
    destruct (isWithinInterval (createdAt A) rs re && negb (completed A)) eqn:E;
      [|inversion Hi].
    apply list_elem_of_singleton in Hi. subst i.
    apply andb_prop in E as [_ E]. apply negb_true_iff in E.
    split; [exact E | reflexivity].
  - intros Hsome.
    destruct (recurringRule_None_or_Some A) as [Hnone | [r Hr]]; [contradiction|].
    pose proof (generate_recurring A rs re r Hr) as Hall.
    rewrite Forall_forall in Hall.
    destruct (Hall i Hi) as [(_ & _ & _ & _ & Hdone) _]. exact Hdone.
Qed.

Lemma occurrences_not_completed_witness :
  (recurringRule gym = None ->
   completed gym = false
   /\ instanceDate (mkFutureInstance (newDate 2024 0 4 0 0) "g1") = createdAt gym)
  /\ (recurringRule gym <> None ->
      isCompletedOn (completedOccurrences gym)
        (formatISO_date (instanceDate (mkFutureInstance (newDate 2024 0 4 0 0) "g1")))
      = false).
Proof.
  apply (occurrences_not_completed gym windowStart windowEnd).
  vm_compute. apply list_elem_of_further, list_elem_of_here.
Defined.

(** The session of 2024-01-03 is left out. *)
Example gym_in_window :
  formatISO_date <$>
    (instanceDate <$>
       generateFutureInstancesForNotifications gym windowStart windowEnd)
  = ["2024-01-02"; "2024-01-04"; "2024-01-05"].
Proof. vm_compute. reflexivity. Qed.

(** X3: For a recurring activity the result is a function of the window and of
    the activity's [id], [createdAt], [recurrence] and
    [completedOccurrences]: its [completed] flag, title, time, todos and
    the other fields play no part. *)
Theorem recurring_result_depends_on (A A' : Activity) (rs re : Z) :
  recurringRule A <> None ->
  id A' = id A ->
  createdAt A' = createdAt A ->
  recurrence A' = recurrence A ->
  completedOccurrences A' = completedOccurrences A ->
  generateFutureInstancesForNotifications A' rs re
  = generateFutureInstancesForNotifications A rs re.
Proof.
  intros Hsome Hid Hcreated Hrec Hledger.
  unfold generateFutureInstancesForNotifications.
  assert (Hr : recurringRule A' = recurringRule A)
    by (unfold recurringRule; rewrite Hrec; reflexivity).
  rewrite Hr. destruct (recurringRule A) as [r|]; [|contradiction].
  rewrite (recurringRun_same A A' rs re r Hid Hcreated Hledger). reflexivity.
Qed.

(** The gym series with the master activity ticked off. *)
Definition gymTicked : Activity :=
  mkActivity "g1" "Gym (done)" "cat_health" [] (newDate 2024 0 1 9 0) None
             true (Some "note") (Some gymRule) {["2024-01-03" := true]} None.

Lemma recurring_result_depends_on_witness :
  generateFutureInstancesForNotifications gymTicked windowStart windowEnd
  = generateFutureInstancesForNotifications gym windowStart windowEnd.
Proof.
  apply (recurring_result_depends_on gym gymTicked windowStart windowEnd);
    [vm_compute; discriminate | reflexivity..].
Defined.

(** X4: The instances are returned in chronological order and no two of them
    fall on the same calendar day. *)
Theorem occurrences_chronological (A : Activity) (rs re : Z) :
  StronglySorted (fun a b => Day a < Day b)
    (instanceDate <$> generateFutureInstancesForNotifications A rs re).
Proof.
  destruct (recurringRule_None_or_Some A) as [Hnone | [r Hr]].
  - unfold generateFutureInstancesForNotifications. rewrite Hnone.
    unfold singleInstance. destruct (_ && _); repeat constructor.
  - apply (generate_ordered A rs re r Hr).
Qed.

(** X5: Every instance of a weekly activity falls on one of the days of the
    week the rule lists. *)
Theorem weekly_on_listed_weekdays
    (A : Activity) (rs re : Z) (r : RecurrenceRule) (i : FutureInstance) :
  recurrence A = Some r ->
  type r = Weekly ->
  i ∈ generateFutureInstancesForNotifications A rs re ->
  exists days, daysOfWeek r = Some days /\ getDay (instanceDate i) ∈ days.
Proof.
  intros Hrec Hty Hi.
  assert (Hr : recurringRule A = Some r).
  { apply recurringRule_Some. split; [exact Hrec | rewrite Hty; discriminate]. }
  pose proof (generate_recurring A rs re r Hr) as Hall.
  rewrite Forall_forall in Hall.
  destruct (Hall i Hi) as [(_ & _ & _ & Hvalid & _) _].
  unfold isValidOccurrence in Hvalid. rewrite Hty in Hvalid.
  destruct (daysOfWeek r) as [days|]; [|discriminate].
  exists days. split; [reflexivity|]. apply includes_elem_of. exact Hvalid.
Qed.

Lemma weekly_on_listed_weekdays_witness :
  exists days,
    daysOfWeek classRule = Some days
    /\ getDay (instanceDate (mkFutureInstance (newDate 2024 0 3 0 0) "c1")) ∈ days.
Proof.
  apply (weekly_on_listed_weekdays class windowStart windowEnd classRule);
    [reflexivity | reflexivity |].
  vm_compute. apply list_elem_of_here.
Defined.

(** X6: For a daily activity the generator returns the candidates [first],
    [addDays first 1], [addDays (addDays first 1) 1], ..., where [first]
    is the later of [createdAt] and [rangeStart]: one step of [addDays]
    (a calendar day) at a time, up to the first candidate that is after
    the end of the window or after the end of the series, 366 candidates
    at most, leaving out those whose date the ledger marks complete.
    When the window starts after [createdAt] the first candidate is
    [rangeStart] itself, not [createdAt]'s time of day on that day.  The
    proof uses of [addDays] only that one day on is later. *)
Theorem daily_occurrences (A : Activity) (rs re : Z) (r : RecurrenceRule) :
  recurrence A = Some r ->
  type r = Daily ->
  let first := Z.max (createdAt A) rs in
  let last := match truthyZ (endDate r) with
              | Some e => Z.min re e
              | None => re
              end in
  instanceDate <$> generateFutureInstancesForNotifications A rs re
  = filter (fun d => isCompletedOn (completedOccurrences A) (formatISO_date d)
                     = false)
           (dailyCandidates 366 first last).
Proof.
  intros Hrec Hty. cbv zeta.
  assert (Hr : recurringRule A = Some r).
  { apply recurringRule_Some. split; [exact Hrec | rewrite Hty; discriminate]. }
  unfold generateFutureInstancesForNotifications. rewrite Hr.
  destruct (recurringRun_daily A rs re r Hty) as (k & w & Hrun & Hdates).
  rewrite Hrun. exact Hdates.
Qed.

Lemma daily_occurrences_witness :
  let first := Z.max (createdAt gym) windowStart in
  let last := match truthyZ (endDate gymRule) with
              | Some e => Z.min windowEnd e
              | None => windowEnd
              end in
  instanceDate <$> generateFutureInstancesForNotifications gym windowStart windowEnd
  = filter (fun d => isCompletedOn (completedOccurrences gym) (formatISO_date d)
                     = false)
           (dailyCandidates 366 first last).
Proof.
  apply (daily_occurrences gym windowStart windowEnd gymRule); reflexivity.
Defined.

(** The candidates of the gym series in the window: four days, at the time
    of day of the start of the window. *)
Example gym_candidates :
  dailyCandidates 366 (Z.max (createdAt gym) windowStart) windowEnd
  = [newDate 2024 0 2 0 0; newDate 2024 0 3 0 0; newDate 2024 0 4 0 0;
     newDate 2024 0 5 0 0].
Proof. vm_compute. reflexivity. Qed.

(** X7: A monthly rule whose day of the month no month has (absent, 0,
    negative or above 31) yields no instance. *)
Theorem monthly_without_usable_day
    (A : Activity) (rs re : Z) (r : RecurrenceRule) :
  recurrence A = Some r ->
  type r = Monthly ->
  (forall dom, dayOfMonth r = Some dom -> dom < 1 \/ 31 < dom) ->
  generateFutureInstancesForNotifications A rs re = [].
Proof.
  intros Hrec Hty Hdom.
  assert (Hr : recurringRule A = Some r).
  { apply recurringRule_Some. split; [exact Hrec | rewrite Hty; discriminate]. }
  pose proof (generate_recurring A rs re r Hr) as Hall.
  destruct (generateFutureInstancesForNotifications A rs re) as [|i l];
    [reflexivity|].
  inversion Hall as [|? ? [(_ & _ & _ & Hvalid & _) _] _]; subst.
  unfold isValidOccurrence in Hvalid. rewrite Hty in Hvalid.
  destruct (dayOfMonth r) as [dom|] eqn:E; [|discriminate].
  cbn [truthyZ] in Hvalid.
  destruct (dom =? 0); [discriminate|].
  pose proof (DateFromTime_range (instanceDate i)) as Hrange.
  pose proof (DaysInMonth_range (YearFromTime (instanceDate i))
                                (MonthFromTime (instanceDate i))) as Hlen.
  specialize (Hdom dom eq_refl). unfold getDate in Hvalid. lia.
Qed.

(** "The 32nd of every month". *)
Definition on32ndRule : RecurrenceRule :=
  mkRecurrenceRule Monthly None None (Some 32).

Definition on32nd : Activity :=
  mkActivity "m1" "Never" "cat_work" [] (newDate 2024 0 1 9 0) None false None
             (Some on32ndRule) ∅ None.

Lemma monthly_without_usable_day_witness :
  generateFutureInstancesForNotifications on32nd windowStart windowEnd = [].
Proof.
  apply (monthly_without_usable_day on32nd windowStart windowEnd on32ndRule);
    [reflexivity | reflexivity |].
  intros dom H. inversion H; subst. right. lia.
Defined.

End GeneratorMore.

(* ===================================================================== *)
(** ** The store: further results *)
(* ===================================================================== *)

Module StoreMore.
Import JSDate Model Generator GeneratorFacts Store StoreOps StoreSpec.
Local Open Scope Z_scope.

#[local] Arguments formatISO_date : simpl never.
#[local] Arguments generateFutureInstancesForNotifications : simpl never.

(** *** Helpers on lists *)

Lemma find_app_fresh {X : Type} (f : X -> bool) (l : list X) (x : X) :
  (forall y, y ∈ l -> f y = false) ->
  List.find f (l ++ [x]) = if f x then Some x else None.
Proof.
  induction l as [|z l IH]; intros Hall; [reflexivity|]. simpl.
  rewrite (Hall z) by left. apply IH. intros y Hy. apply Hall. right. exact Hy.
Qed.

Lemma find_app_other {X : Type} (f : X -> bool) (l : list X) (x : X) :
  f x = false -> List.find f (l ++ [x]) = List.find f l.
Proof.
  intros Hx. induction l as [|z l IH]; simpl; [rewrite Hx; reflexivity|].
  destruct (f z); [reflexivity | exact IH].
Qed.

Lemma find_filter_none {X : Type} (f : X -> bool) (P : X -> Prop)
    `{!forall x, Decision (P x)} (l : list X) :
  (forall x, f x = true -> ~ P x) -> List.find f (filter P l) = None.
Proof.
  intros Hf. induction l as [|z l IH]; [reflexivity|].
  destruct (decide (P z)) as [Hz|Hz].
  - rewrite filter_cons_True by exact Hz. simpl.
    destruct (f z) eqn:E; [exfalso; exact (Hf z E Hz) | exact IH].
  - rewrite filter_cons_False by exact Hz. exact IH.
Qed.

Lemma find_filter_other {X : Type} (f : X -> bool) (P : X -> Prop)
    `{!forall x, Decision (P x)} (l : list X) :
  (forall x, f x = true -> P x) -> List.find f (filter P l) = List.find f l.
Proof.
  intros Hf. induction l as [|z l IH]; [reflexivity|].
  destruct (decide (P z)) as [Hz|Hz].
  - rewrite filter_cons_True by exact Hz. simpl.
    destruct (f z); [reflexivity | exact IH].
  - rewrite filter_cons_False by exact Hz. simpl.
    destruct (f z) eqn:E; [exfalso; exact (Hz (Hf z E)) | exact IH].
Qed.

Lemma find_map_other {X : Type} (f : X -> bool) (g : X -> X) (l : list X) :
  (forall x, f (g x) = f x) ->
  (forall x, f x = true -> g x = x) ->
  List.find f (map g l) = List.find f l.
Proof.
  intros Hfg Hg. induction l as [|z l IH]; [reflexivity|]. simpl.
  rewrite Hfg. destruct (f z) eqn:E; [rewrite (Hg z E); reflexivity | exact IH].
Qed.

Lemma filter_app_fresh {X : Type} (P : X -> Prop) `{!forall x, Decision (P x)}
    (l : list X) (x : X) :
  (forall y, y ∈ l -> P y) -> ~ P x -> filter P (l ++ [x]) = l.
Proof.
  intros Hall Hx. rewrite filter_app, (filter_all P l Hall).
  rewrite filter_cons_False by exact Hx. rewrite filter_nil. apply app_nil_r.
Qed.

Lemma map_id_on {X : Type} (g : X -> X) (l : list X) :
  (forall x, x ∈ l -> g x = x) -> map g l = l.
Proof.
  induction l as [|z l IH]; intros Hall; [reflexivity|]. simpl.
  rewrite (Hall z) by left. f_equal. apply IH. intros y Hy. apply Hall.
  right. exact Hy.
Qed.

Lemma withTodos_same (act : Activity) : withTodos act (todos act) = act.
Proof. destruct act; reflexivity. Qed.

Lemma currentActivitySetter_same (f : list Activity -> list Activity) (s : State) :
  f (getRawActivities s) = getRawActivities s ->
  currentActivitySetter f s = s.
Proof.
  unfold getRawActivities, currentActivitySetter.
  destruct s as [m p w c a h]; destruct m; simpl; intros ->; reflexivity.
Qed.

Lemma currentActivitySetter_compose (f g : list Activity -> list Activity)
    (s : State) :
  currentActivitySetter g (currentActivitySetter f s)
  = currentActivitySetter (fun l => g (f l)) s.
Proof.
  unfold currentActivitySetter.
  destruct s as [m p w c a h]; destruct m; reflexivity.
Qed.

(** *** Every operation of the store *)

(** The calls the UI layer makes on the store: those of [Op] and the
    operations on todos, categories and assignees. *)
Inductive Action :=
| Earlier (op : Op)
| AddTodoToActivity (todoUuid activityId todoText : string)
| UpdateTodoInActivity (activityId todoId : string) (updates : TodoUpdates)
| DeleteTodoFromActivity (activityId todoId : string)
| AddCategory (categoryUuid name iconName mode : string)
| UpdateCategory (eager : bool) (categoryId : string)
                 (updates : CategoryUpdates) (oldCategoryData : option Category)
| AddAssignee (assigneeUuid name : string)
| UpdateAssignee (eager : bool) (assigneeId : string) (updates : option string).

Definition perform (env : Env) (a : Action) (s : State) : State :=
  match a with
  | Earlier op => run env op s
  | AddTodoToActivity todoUuid activityId todoText =>
      addTodoToActivity todoUuid activityId todoText s
  | UpdateTodoInActivity activityId todoId updates =>
      updateTodoInActivity activityId todoId updates s
  | DeleteTodoFromActivity activityId todoId =>
      deleteTodoFromActivity activityId todoId s
  | AddCategory categoryUuid name iconName mode =>
      addCategory env categoryUuid name iconName mode s
  | UpdateCategory eager categoryId updates oldCategoryData =>
      updateCategory env eager categoryId updates oldCategoryData s
  | AddAssignee assigneeUuid name => addAssignee env assigneeUuid name s
  | UpdateAssignee eager assigneeId updates =>
      updateAssignee env eager assigneeId updates s
  end.

(** *** The history log *)

(** What an operation does to the log: nothing, or one entry at the head,
    stamped with the clock, in front of the 99 newest entries. *)
Definition logged (env : Env) (before after : list HistoryLogEntry) : Prop :=
  after = before
  \/ exists e, after = e :: take 99 before
               /\ entryId e = uuid env /\ timestamp e = now env.

Lemma logged_addHistoryLogEntry env k d sc (s : State) :
  logged env (historyLog s) (historyLog (addHistoryLogEntry env k d sc s)).
Proof. right. eexists. split; [reflexivity|]. split; reflexivity. Qed.

Lemma historyLog_currentActivitySetter f (s : State) :
  historyLog (currentActivitySetter f s) = historyLog s.
Proof. unfold currentActivitySetter. destruct (appModeState s); reflexivity. Qed.

Lemma logged_after_setter env k d sc f (s : State) :
  logged env (historyLog s)
    (historyLog (addHistoryLogEntry env k d sc (currentActivitySetter f s))).
Proof.
  rewrite <- (historyLog_currentActivitySetter f s) at 1.
  apply logged_addHistoryLogEntry.
Qed.

Lemma perform_logged (env : Env) (a : Action) (s : State) :
  logged env (historyLog s) (historyLog (perform env a s)).
Proof.
  destruct a as [op | tu aid tt | aid tid upd | aid tid | cu n i m
                | eager cid upd old | au n | eager aid upd]; simpl.
  - destruct op as [m | actUuid todoUuid data created | aid updates orig | aid
                   | mid ts c | cid | aid]; simpl.
    + unfold setAppMode. destruct (decide (m = appModeState s)); simpl.
      * left. reflexivity.
      * apply logged_addHistoryLogEntry.
    + apply logged_after_setter.
    + apply logged_after_setter.
    + apply logged_after_setter.
    + apply logged_after_setter.
    + unfold deleteCategory. destruct (List.find _ _); [|left; reflexivity].
      simpl. right. eexists. split; [reflexivity|]. split; reflexivity.
    + unfold deleteAssignee. destruct (List.find _ _); [|left; reflexivity].
      simpl. right. eexists. split; [reflexivity|]. split; reflexivity.
  - left. apply historyLog_currentActivitySetter.
  - left. apply historyLog_currentActivitySetter.
  - left. apply historyLog_currentActivitySetter.
  - right. eexists. split; [reflexivity|]. split; reflexivity.
  - right. eexists. split; [reflexivity|]. split; reflexivity.
  - right. eexists. split; [reflexivity|]. split; reflexivity.
  - right. eexists. split; [reflexivity|]. split; reflexivity.
Qed.

Definition shopping : Activity :=
  mkActivity "a1" "Shopping" "cat_home"
             [mkTodo "t1" "Milk" false; mkTodo "t2" "Bread" true]
             86400000 None false None
             (Some (mkRecurrenceRule Weekly None (Some [1]) None))
             {["1970-01-05" := true]} (Some "asg_1").

Definition audit : Activity :=
  mkActivity "w1" "Audit" "cat_office" [] 86400000 None false None None ∅ None.

Definition home : State :=
  mkState Personal [shopping] [audit]
          [mkCategory "cat_home" "Home" "Home" "all";
           mkCategory "cat_office" "Office" "Briefcase" "work"]
          [mkAssignee "asg_1" "Ana"] [].

Definition clock : Env := mkEnv "h1" 1000.

(** X8: Every operation of the store leaves the history log as it is or puts
    one entry, stamped with the clock reading, in front of its 99 newest
    entries: the log never grows beyond 100 entries. *)
Theorem history_log_bounded (env : Env) (a : Action) (s : State) :
  logged env (historyLog s) (historyLog (perform env a s))
  /\ (length (historyLog (perform env a s))
      <= Nat.max 100 (length (historyLog s)))%nat.
Proof.
  pose proof (perform_logged env a s) as Hl. split; [exact Hl|].
  destruct Hl as [-> | (e & -> & _)]; [lia|].
  cbn [length]. rewrite length_take. lia.
Qed.

(** *** The two collections *)

(** The collection of the mode that is not selected. *)
Definition otherActivities (s : State) : list Activity :=
  match appModeState s with
  | Personal => workActivities s
  | Work => personalActivities s
  end.

(** The operations on activities and on their todos. *)
Definition onActivities (a : Action) : bool :=
  match a with
  | Earlier (OpAddActivity _ _ _ _) | Earlier (OpUpdateActivity _ _ _)
  | Earlier (OpDeleteActivity _) | Earlier (OpToggleOccurrenceCompletion _ _ _)
  | AddTodoToActivity _ _ _ | UpdateTodoInActivity _ _ _
  | DeleteTodoFromActivity _ _ => true
  | _ => false
  end.

Definition sameElsewhere (s s' : State) : Prop :=
  appModeState s' = appModeState s
  /\ otherActivities s' = otherActivities s
  /\ allCategories s' = allCategories s
  /\ allAssignees s' = allAssignees s.

Lemma sameElsewhere_setter (f : list Activity -> list Activity) (s : State) :
  sameElsewhere s (currentActivitySetter f s).
Proof.
  unfold sameElsewhere, otherActivities, currentActivitySetter.
  destruct (appModeState s) eqn:E; simpl; rewrite ?E; auto.
Qed.

Lemma sameElsewhere_logged env k d sc (s s' : State) :
  sameElsewhere s s' -> sameElsewhere s (addHistoryLogEntry env k d sc s').
Proof. intros H. exact H. Qed.

(** X9: An operation on the activities of the selected mode, or on their
    todos, leaves the collection of the other mode, the categories, the
    assignees and the mode as they are. *)
Theorem other_mode_untouched (env : Env) (a : Action) (s : State) :
  onActivities a = true ->
  sameElsewhere s (perform env a s).
Proof.
  destruct a as [op | tu aid tt | aid tid upd | aid tid | cu n i m
                | eager cid upd old | au n | eager aid upd]; simpl;
    try discriminate.
  - destruct op as [m | actUuid todoUuid data created | aid updates orig | aid
                   | mid ts c | cid | aid]; simpl; try discriminate; intros _.
    + unfold addActivity. cbv zeta.
      apply sameElsewhere_logged, sameElsewhere_setter.
    + unfold updateActivity. cbv zeta.
      apply sameElsewhere_logged, sameElsewhere_setter.
    + unfold deleteActivity. cbv zeta.
      apply sameElsewhere_logged, sameElsewhere_setter.
    + unfold toggleOccurrenceCompletion. cbv zeta.
      apply sameElsewhere_logged, sameElsewhere_setter.
  - intros _. apply sameElsewhere_setter.
  - intros _. apply sameElsewhere_setter.
  - intros _. apply sameElsewhere_setter.
Qed.

Lemma other_mode_untouched_witness :
  sameElsewhere home (perform clock (Earlier (OpDeleteActivity "a1")) home).
Proof.
  apply (other_mode_untouched clock (Earlier (OpDeleteActivity "a1")) home).
  reflexivity.
Defined.

(** *** Adding, finding and deleting an activity *)

Lemma imap_texts (g : nat -> string -> Todo) (l : list string) :
  (forall k t, text (g k t) = t) -> text <$> imap g l = l.
Proof.
  revert g. induction l as [|x l IH]; intros g Hg; [reflexivity|].
  cbn [imap fmap list_fmap]. rewrite Hg. f_equal.
  apply (IH (g ∘ S)). intros k t. apply Hg.
Qed.

Lemma imap_Forall {X Y : Type} (P : Y -> Prop) (g : nat -> X -> Y) (l : list X) :
  (forall k x, P (g k x)) -> Forall P (imap g l).
Proof.
  revert g. induction l as [|x l IH]; intros g Hg; [constructor|].
  cbn [imap]. constructor; [apply Hg|].
  apply (IH (g ∘ S)). intros k y. apply Hg.
Qed.

Lemma getRaw_addActivity env activityUuid todoUuid data created (s : State) :
  exists act,
    getRawActivities (addActivity env activityUuid todoUuid data created s)
    = getRawActivities s ++ [act]
    /\ id act = activityUuid
    /\ title act = d_title data
    /\ categoryId act = d_categoryId data
    /\ createdAt act = default (now env) created
    /\ completed act = false
    /\ completedOccurrences act = ∅
    /\ recurrence act
       = Some (default (mkRecurrenceRule TNone None None None)
                       (d_recurrence data))
    /\ text <$> todos act = default [] (d_todos data)
    /\ Forall (fun t => todoCompleted t = false) (todos act)
    /\ responsiblePersonId act
       = match appModeState s with
         | Personal => d_responsiblePersonId data
         | Work => None
         end.
Proof.
  eexists. split.
  { unfold addActivity. cbv zeta.
    rewrite getRaw_addHistoryLogEntry, getRaw_currentActivitySetter.
    reflexivity. }
  cbn [id title categoryId createdAt completed completedOccurrences recurrence
       todos responsiblePersonId].
  repeat split.
  - apply imap_texts. reflexivity.
  - apply imap_Forall. reflexivity.
Qed.

(** X10: After [addActivity] with an identifier that no activity of the
    selected collection carries, the new activity is the last of the
    collection and is what [find] returns for the identifier; it starts at
    the given date (at the clock reading if none is given), is not
    completed, has an empty ledger and only open todos, with the given
    texts; if no rule is given its rule is of type none.  Looking up any
    other identifier gives what it gave before. *)
Theorem addActivity_then_find
    (env : Env) (activityUuid : string) (todoUuid : nat -> string)
    (data : ActivityData) (created : option Z) (s : State) :
  (forall act, act ∈ getRawActivities s -> id act <> activityUuid) ->
  let s' := addActivity env activityUuid todoUuid data created s in
  exists act,
    findActivity activityUuid (getRawActivities s') = Some act
    /\ getRawActivities s' = getRawActivities s ++ [act]
    /\ id act = activityUuid
    /\ title act = d_title data
    /\ createdAt act = default (now env) created
    /\ completed act = false
    /\ completedOccurrences act = ∅
    /\ recurrence act
       = Some (default (mkRecurrenceRule TNone None None None)
                       (d_recurrence data))
    /\ text <$> todos act = default [] (d_todos data)
    /\ Forall (fun t => todoCompleted t = false) (todos act)
    /\ (forall other,
           other <> activityUuid ->
           findActivity other (getRawActivities s')
           = findActivity other (getRawActivities s)).
Proof.
  intros Hfresh. cbv zeta.
  destruct (getRaw_addActivity env activityUuid todoUuid data created s)
    as (act & Hraw & Hid & Htitle & _ & Hcreated & Hdone & Hledger & Hrec
        & Htexts & Hopen & _).
  exists act. rewrite Hraw. unfold findActivity.
  split.
  { rewrite find_app_fresh.
    - rewrite bool_decide_eq_true_2 by exact Hid. reflexivity.
    - intros y Hy. apply bool_decide_eq_false_2. apply Hfresh. exact Hy. }
  repeat (split; [assumption || reflexivity|]).
  intros other Hother. apply find_app_other.
  apply bool_decide_eq_false_2. congruence.
Qed.

Definition errand : ActivityData :=
  mkActivityData "Errand" "cat_home" (Some ["Stamps"; "Parcel"]) None None None
                 (Some "asg_1").

Lemma addActivity_then_find_witness :
  let s' := addActivity clock "a2" (fun k => "t" +:+ pretty k) errand None home in
  exists act,
    findActivity "a2" (getRawActivities s') = Some act
    /\ getRawActivities s' = getRawActivities home ++ [act]
    /\ id act = "a2"
    /\ title act = d_title errand
    /\ createdAt act = default (now clock) None
    /\ completed act = false
    /\ completedOccurrences act = ∅
    /\ recurrence act
       = Some (default (mkRecurrenceRule TNone None None None)
                       (d_recurrence errand))
    /\ text <$> todos act = default [] (d_todos errand)
    /\ Forall (fun t => todoCompleted t = false) (todos act)
    /\ (forall other,
           other <> "a2" ->
           findActivity other (getRawActivities s')
           = findActivity other (getRawActivities home)).
Proof.
  apply (addActivity_then_find clock "a2" (fun k => "t" +:+ pretty k) errand
                               None home).
  intros act Hact. simpl in Hact.
  apply list_elem_of_singleton in Hact. subst act. simpl. discriminate.
Defined.

Lemma getRaw_deleteActivity env aid (s : State) :
  getRawActivities (deleteActivity env aid s)
  = filter (fun act => id act ≠ aid) (getRawActivities s).
Proof.
  unfold deleteActivity. cbv zeta.
  rewrite getRaw_addHistoryLogEntry, getRaw_currentActivitySetter.
  reflexivity.
Qed.

(** X11: After [deleteActivity] no activity of the selected collection carries
    the identifier, whether one did before or not, and looking up any other
    identifier gives what it gave before.  Deleting an activity that was
    added with a fresh identifier gives the collection back as it was. *)
Theorem deleteActivity_then_find (env : Env) (activityId : string) (s : State) :
  let s' := deleteActivity env activityId s in
  findActivity activityId (getRawActivities s') = None
  /\ (forall act, act ∈ getRawActivities s' -> id act <> activityId)
  /\ (forall other,
         other <> activityId ->
         findActivity other (getRawActivities s')
         = findActivity other (getRawActivities s))
  /\ (forall env0 todoUuid data created,
         (forall act, act ∈ getRawActivities s -> id act <> activityId) ->
         getRawActivities
           (deleteActivity env activityId
              (addActivity env0 activityId todoUuid data created s))
         = getRawActivities s).
Proof.
  cbv zeta. rewrite getRaw_deleteActivity. unfold findActivity.
  split.
  { apply find_filter_none. intros x Hx Hne.
    apply bool_decide_eq_true_1 in Hx. contradiction. }
  split.
  { intros act Hact. apply list_elem_of_filter in Hact as [Hne _]. exact Hne. }
  split.
  { intros other Hother. apply find_filter_other. intros x Hx.
    apply bool_decide_eq_true_1 in Hx. congruence. }
  intros env0 todoUuid data created Hfresh.
  rewrite getRaw_deleteActivity.
  destruct (getRaw_addActivity env0 activityId todoUuid data created s)
    as (act & Hraw & Hid & _).
  rewrite Hraw. apply filter_app_fresh.
  - exact Hfresh.
  - intros Hne. apply Hne. exact Hid.
Qed.

(** *** Updates and the ledger *)

(** What [updateActivity] may do to the ledger and the rule of an
    activity. *)
Definition ledgerAfterUpdate (updates : ActivityUpdates) (act act' : Activity)
  : Prop :=
  (completedOccurrences act' = completedOccurrences act
   \/ completedOccurrences act' = ∅)
  /\ (u_recurrence updates = None ->
      completedOccurrences act' = completedOccurrences act
      /\ recurrence act' = recurrence act).

(** X12: [updateActivity] never writes the ledger it is handed: whatever
    [updates.completedOccurrences] holds, the ledger of an activity is
    afterwards the one it had or the empty one.  An update that carries no
    rule (ticking the activity off, editing its todos or its title) keeps
    both the ledger and the rule. *)
Theorem update_keeps_or_empties_ledger
    (env : Env) (activityId : string) (updates : ActivityUpdates)
    (originalActivity : option Activity) (s : State) :
  Forall2 (ledgerAfterUpdate updates)
          (getRawActivities s)
          (getRawActivities
             (updateActivity env activityId updates originalActivity s)).
Proof.
  rewrite getRaw_updateActivity. apply Forall2_map_r_same. intros act.
  unfold ledgerAfterUpdate.
  destruct (decide (id act = activityId)); [|split; auto].
  unfold updatedActivity.
  cbn [completedOccurrences recurrence]. split.
  - destruct (clearsLedger updates act); auto.
  - intros Hnone. unfold clearsLedger. rewrite Hnone. split; reflexivity.
Qed.

(** *** Todos *)

(** [act'] is [act] with other todos. *)
Definition onlyTodosChanged (act act' : Activity) : Prop :=
  act' = withTodos act (todos act').

Lemma onlyTodosChanged_map (activityId : string)
    (g : list Todo -> list Todo) (l : list Activity) :
  Forall2 (fun act act' =>
             onlyTodosChanged act act'
             /\ (id act <> activityId -> act' = act)
             /\ (id act = activityId -> todos act' = g (todos act)))
          l
          (map (fun act => if decide (id act = activityId)
                           then withTodos act (g (todos act)) else act) l).
Proof.
  apply Forall2_map_r_same. intros act. unfold onlyTodosChanged.
  destruct (decide (id act = activityId)) as [E|E].
  - split; [reflexivity|]. split; [contradiction | reflexivity].
  - split; [symmetry; apply withTodos_same|]. split; [reflexivity | contradiction].
Qed.

Lemma getRaw_addTodo tu aid tt (s : State) :
  getRawActivities (addTodoToActivity tu aid tt s)
  = map (fun act => if decide (id act = aid)
                    then withTodos act (todos act ++ [mkTodo tu tt false])
                    else act)
        (getRawActivities s).
Proof. apply getRaw_currentActivitySetter. Qed.

(** X13: The three operations on todos change the todos of the activities with
    the given identifier and nothing else: no other field, no other
    activity, and unlike the operations on activities they write nothing
    to the history log.  [addTodoToActivity] appends one open todo,
    [deleteTodoFromActivity] removes every todo with the identifier and
    keeps the others in order, [updateTodoInActivity] keeps the number of
    todos. *)
Theorem todo_operations_change_todos_only
    (activityId todoId todoUuid todoText : string) (updates : TodoUpdates)
    (s : State) :
  (historyLog (addTodoToActivity todoUuid activityId todoText s) = historyLog s
   /\ Forall2 (fun act act' =>
                 onlyTodosChanged act act'
                 /\ (id act <> activityId -> act' = act)
                 /\ (id act = activityId ->
                     todos act' = todos act ++ [mkTodo todoUuid todoText false]))
              (getRawActivities s)
              (getRawActivities (addTodoToActivity todoUuid activityId todoText s)))
  /\ (historyLog (deleteTodoFromActivity activityId todoId s) = historyLog s
      /\ Forall2 (fun act act' =>
                    onlyTodosChanged act act'
                    /\ (id act <> activityId -> act' = act)
                    /\ (id act = activityId ->
                        todos act'
                        = filter (fun t => Model.todoId t ≠ todoId) (todos act)))
                 (getRawActivities s)
                 (getRawActivities (deleteTodoFromActivity activityId todoId s)))
  /\ (historyLog (updateTodoInActivity activityId todoId updates s) = historyLog s
      /\ Forall2 (fun act act' =>
                    onlyTodosChanged act act'
                    /\ (id act <> activityId -> act' = act)
                    /\ (id act = activityId ->
                        Forall2 (fun t t' =>
                                   if decide (Model.todoId t = todoId)
                                   then t' = updatedTodo updates t
                                   else t' = t)
                                (todos act) (todos act')))
                 (getRawActivities s)
                 (getRawActivities
                    (updateTodoInActivity activityId todoId updates s))).
Proof.
  split; [|split]; (split; [apply historyLog_currentActivitySetter|]).
  - unfold addTodoToActivity. cbv zeta. rewrite getRaw_currentActivitySetter.
    apply (onlyTodosChanged_map activityId
             (fun l => l ++ [mkTodo todoUuid todoText false])).
  - unfold deleteTodoFromActivity. rewrite getRaw_currentActivitySetter.
    apply (onlyTodosChanged_map activityId
             (fun l => filter (fun t => Model.todoId t ≠ todoId) l)).
  - unfold updateTodoInActivity. rewrite getRaw_currentActivitySetter.
    eapply Forall2_impl.
    + apply (onlyTodosChanged_map activityId
               (map (fun todo => if decide (Model.todoId todo = todoId)
                                 then updatedTodo updates todo else todo))).
    + cbv beta. intros act act' (H1 & H2 & H3).
      split; [exact H1|]. split; [exact H2|].
      intros Hid. rewrite (H3 Hid). apply Forall2_map_r_same.
      intros t. destruct (decide (Model.todoId t = todoId)); reflexivity.
Qed.

(** X14: A todo added with a fresh identifier and then deleted leaves the whole
    state, history log included, as it was; so do [deleteTodoFromActivity]
    and [updateTodoInActivity] on an activity identifier or a todo
    identifier that is not there. *)
Theorem todo_add_then_delete
    (activityId todoId todoText : string) (updates : TodoUpdates) (s : State) :
  (forall act t,
      act ∈ getRawActivities s -> id act = activityId ->
      t ∈ todos act -> Model.todoId t <> todoId) ->
  deleteTodoFromActivity activityId todoId
    (addTodoToActivity todoId activityId todoText s) = s
  /\ deleteTodoFromActivity activityId todoId s = s
  /\ updateTodoInActivity activityId todoId updates s = s.
Proof.
  intros Hfresh. split; [|split].
  - unfold deleteTodoFromActivity, addTodoToActivity. cbv zeta.
    rewrite currentActivitySetter_compose.
    apply currentActivitySetter_same. rewrite map_map.
    apply map_id_on. intros act Hact.
    set (new := mkTodo todoId todoText false).
    destruct (decide (id act = activityId)) as [E|E].
    + change (id (withTodos act (todos act ++ [new]))) with (id act).
      rewrite (decide_True _ _ E).
      change (todos (withTodos act (todos act ++ [new])))
        with (todos act ++ [new]).
      rewrite filter_app_fresh.
      * destruct act; reflexivity.
      * intros t Ht. apply (Hfresh act t Hact E Ht).
      * intros Hne. apply Hne. reflexivity.
    + rewrite (decide_False _ _ E). reflexivity.
  - unfold deleteTodoFromActivity.
    apply currentActivitySetter_same. apply map_id_on. intros act Hact.
    destruct (decide (id act = activityId)) as [E|E]; [|reflexivity].
    rewrite filter_all; [apply withTodos_same|].
    intros t Ht. apply (Hfresh act t Hact E Ht).
  - unfold updateTodoInActivity.
    apply currentActivitySetter_same. apply map_id_on. intros act Hact.
    destruct (decide (id act = activityId)) as [E|E]; [|reflexivity].
    rewrite map_unless_id; [apply withTodos_same|].
    intros t Ht. apply (Hfresh act t Hact E Ht).
Qed.

Lemma todo_add_then_delete_witness :
  deleteTodoFromActivity "a1" "t9" (addTodoToActivity "t9" "a1" "Eggs" home) = home
  /\ deleteTodoFromActivity "a1" "t9" home = home
  /\ updateTodoInActivity "a1" "t9" (mkTodoUpdates None None (Some true)) home
     = home.
Proof.
  apply (todo_add_then_delete "a1" "t9" "Eggs"
           (mkTodoUpdates None None (Some true)) home).
  intros act t Hact _ Ht. simpl in Hact.
  apply list_elem_of_singleton in Hact. subst act. simpl in Ht.
  apply elem_of_cons in Ht as [-> | Ht]; [simpl; discriminate|].
  apply list_elem_of_singleton in Ht. subst t. simpl. discriminate.
Defined.

(** *** Categories *)

Lemma find_map_key {X : Type} (f : X -> bool) (g : X -> X) (l : list X) :
  (forall x, f (g x) = f x) ->
  List.find f (map g l) = g <$> List.find f l.
Proof.
  intros Hfg. induction l as [|z l IH]; [reflexivity|]. simpl.
  rewrite Hfg. destruct (f z); [reflexivity | exact IH].
Qed.

Lemma fmap_map_key {X K : Type} (k : X -> K) (g : X -> X) (l : list X) :
  (forall x, k (g x) = k x) -> k <$> map g l = k <$> l.
Proof.
  intros Hk. induction l as [|z l IH]; [reflexivity|].
  cbn [map fmap list_fmap]. rewrite Hk. f_equal. exact IH.
Qed.

Lemma find_none_elem {X : Type} (f : X -> bool) (l : list X) :
  List.find f l = None -> forall x, x ∈ l -> f x = false.
Proof.
  intros Hnone x Hx. apply list_elem_of_In in Hx.
  exact (find_none f l Hnone x Hx).
Qed.

(** X15: A category added with an identifier that is not in the list is the
    last of the list and is what [getCategoryById] returns for
    [cat_<uuid>]; the other lookups and the activities are as before.  The
    category is offered in the selected mode exactly when its mode is that
    mode, ['all'] or empty. *)
Theorem addCategory_then_get
    (env : Env) (categoryUuid name iconName mode : string) (s : State) :
  (forall cat, cat ∈ allCategories s -> catId cat <> "cat_" +:+ categoryUuid) ->
  let s' := addCategory env categoryUuid name iconName mode s in
  let added := mkCategory ("cat_" +:+ categoryUuid) name iconName mode in
  getCategoryById ("cat_" +:+ categoryUuid) s' = Some added
  /\ allCategories s' = allCategories s ++ [added]
  /\ (forall other,
         other <> "cat_" +:+ categoryUuid ->
         getCategoryById other s' = getCategoryById other s)
  /\ personalActivities s' = personalActivities s
  /\ workActivities s' = workActivities s
  /\ (added ∈ filteredCategories false s'
      <-> mode = EmptyString \/ mode = "all"
          \/ mode = scopeOfMode (appModeState s)).
Proof.
  intros Hfresh. cbv zeta. unfold getCategoryById.
  change (allCategories (addCategory env categoryUuid name iconName mode s))
    with (allCategories s
          ++ [mkCategory ("cat_" +:+ categoryUuid) name iconName mode]).
  split.
  { rewrite find_app_fresh.
    - rewrite bool_decide_eq_true_2 by reflexivity. reflexivity.
    - intros y Hy. apply bool_decide_eq_false_2. apply Hfresh. exact Hy. }
  split; [reflexivity|]. split.
  { intros other Hother. apply find_app_other.
    apply bool_decide_eq_false_2. cbn [catId]. congruence. }
  split; [reflexivity|]. split; [reflexivity|].
  unfold filteredCategories.
  change (allCategories (addCategory env categoryUuid name iconName mode s))
    with (allCategories s
          ++ [mkCategory ("cat_" +:+ categoryUuid) name iconName mode]).
  change (appModeState (addCategory env categoryUuid name iconName mode s))
    with (appModeState s).
  rewrite list_elem_of_filter. cbn [Model.mode]. split.
  - intros [H _]. exact H.
  - intros H. split; [exact H|]. apply elem_of_app. right. apply list_elem_of_here.
Qed.

Lemma addCategory_then_get_witness :
  let s' := addCategory clock "9f" "Garden" "Flower" "personal" home in
  let added := mkCategory ("cat_" +:+ "9f") "Garden" "Flower" "personal" in
  getCategoryById ("cat_" +:+ "9f") s' = Some added
  /\ allCategories s' = allCategories home ++ [added]
  /\ (forall other,
         other <> "cat_" +:+ "9f" ->
         getCategoryById other s' = getCategoryById other home)
  /\ personalActivities s' = personalActivities home
  /\ workActivities s' = workActivities home
  /\ (added ∈ filteredCategories false s'
      <-> "personal" = EmptyString \/ "personal" = "all"
          \/ "personal" = scopeOfMode (appModeState home)).
Proof.
  apply (addCategory_then_get clock "9f" "Garden" "Flower" "personal" home).
  intros cat Hcat. simpl in Hcat.
  apply elem_of_cons in Hcat as [-> | Hcat]; [simpl; discriminate|].
  apply list_elem_of_singleton in Hcat. subst cat. simpl. discriminate.
Defined.

(** X16: [updateCategory] keeps the identifiers of the categories and their
    order, and touches no activity, so every reference from an activity to
    a category stays good.  The category with the identifier is replaced by
    its update, the other lookups are as before; for an identifier that is
    not in the list the categories are unchanged.  This holds whenever
    React runs the state updater. *)
Theorem updateCategory_keeps_identifiers
    (env : Env) (eager : bool) (categoryId : string)
    (updates : CategoryUpdates) (oldCategoryData : option Category) (s : State) :
  let s' := updateCategory env eager categoryId updates oldCategoryData s in
  catId <$> allCategories s' = catId <$> allCategories s
  /\ personalActivities s' = personalActivities s
  /\ workActivities s' = workActivities s
  /\ getCategoryById categoryId s'
     = updatedCategory updates <$> getCategoryById categoryId s
  /\ (forall other,
         other <> categoryId ->
         getCategoryById other s' = getCategoryById other s)
  /\ (getCategoryById categoryId s = None -> allCategories s' = allCategories s).
Proof.
  cbv zeta. unfold getCategoryById.
  change (allCategories
            (updateCategory env eager categoryId updates oldCategoryData s))
    with (map (fun cat => if decide (catId cat = categoryId)
                          then updatedCategory updates cat else cat)
              (allCategories s)).
  split.
  { apply fmap_map_key. intros cat.
    destruct (decide (catId cat = categoryId)); reflexivity. }
  split; [reflexivity|]. split; [reflexivity|]. split.
  { rewrite find_map_key.
    - destruct (List.find _ (allCategories s)) as [cat|] eqn:E; [|reflexivity].
      apply find_some in E as [_ E]. apply bool_decide_eq_true_1 in E.
      cbn [fmap option_fmap option_map]. rewrite (decide_True _ _ E). reflexivity.
    - intros cat. destruct (decide (catId cat = categoryId)); reflexivity. }
  split.
  { intros other Hother. apply find_map_other.
    - intros cat. destruct (decide (catId cat = categoryId)); reflexivity.
    - intros cat Hcat. apply bool_decide_eq_true_1 in Hcat.
      apply decide_False. congruence. }
  intros Hnone. apply map_unless_id. intros cat Hcat.
  pose proof (find_none_elem _ _ Hnone cat Hcat) as Hf.
  apply bool_decide_eq_false_1 in Hf. exact Hf.
Qed.

(** After [deleteCategory], [getCategoryById] finds nothing under the
    identifier, whether a category carried it or not, and the other
    lookups are as before. *)
Lemma deleteCategory_then_get (env : Env) (categoryId : string) (s : State) :
  let s' := deleteCategory env categoryId s in
  getCategoryById categoryId s' = None
  /\ (forall other,
         other <> categoryId ->
         getCategoryById other s' = getCategoryById other s).
Proof.
  cbv zeta. unfold getCategoryById, deleteCategory.
  destruct (List.find (fun cat => bool_decide (catId cat = categoryId))
                      (allCategories s)) as [c|] eqn:E.
  - cbn [allCategories addHistoryLogEntry]. split.
    + apply find_filter_none. intros x Hx Hne.
      apply bool_decide_eq_true_1 in Hx. contradiction.
    + intros other Hother. apply find_filter_other. intros x Hx.
      apply bool_decide_eq_true_1 in Hx. congruence.
  - split; [exact E | reflexivity].
Qed.

(** *** Assignees *)

(** X17: The assignee list behaves like the category list: an assignee added
    with a fresh identifier is the last of the list and is found under
    [asg_<uuid>]; [updateAssignee] changes the name of the assignee found
    under the identifier and keeps identifiers, order, the other lookups
    and the activities; after [deleteAssignee] nothing is found under the
    identifier and the other lookups are as before. *)
Theorem assignee_add_update_delete
    (env : Env) (eager : bool) (assigneeUuid assigneeId name : string)
    (updates : option string) (s : State) :
  ((forall asg, asg ∈ allAssignees s -> asgId asg <> "asg_" +:+ assigneeUuid) ->
   getAssigneeById ("asg_" +:+ assigneeUuid) (addAssignee env assigneeUuid name s)
   = Some (mkAssignee ("asg_" +:+ assigneeUuid) name)
   /\ allAssignees (addAssignee env assigneeUuid name s)
      = allAssignees s ++ [mkAssignee ("asg_" +:+ assigneeUuid) name])
  /\ (asgId <$> allAssignees (updateAssignee env eager assigneeId updates s)
      = asgId <$> allAssignees s
      /\ getAssigneeById assigneeId (updateAssignee env eager assigneeId updates s)
         = (fun asg => mkAssignee (asgId asg) (default (asgName asg) updates))
             <$> getAssigneeById assigneeId s
      /\ (forall other,
             other <> assigneeId ->
             getAssigneeById other (updateAssignee env eager assigneeId updates s)
             = getAssigneeById other s)
      /\ personalActivities (updateAssignee env eager assigneeId updates s)
         = personalActivities s
      /\ workActivities (updateAssignee env eager assigneeId updates s)
         = workActivities s)
  /\ (getAssigneeById assigneeId (deleteAssignee env assigneeId s) = None
      /\ (forall other,
             other <> assigneeId ->
             getAssigneeById other (deleteAssignee env assigneeId s)
             = getAssigneeById other s)).
Proof.
  split; [|split].
  - intros Hfresh. unfold getAssigneeById.
    change (allAssignees (addAssignee env assigneeUuid name s))
      with (allAssignees s ++ [mkAssignee ("asg_" +:+ assigneeUuid) name]).
    split; [|reflexivity].
    rewrite find_app_fresh.
    + rewrite bool_decide_eq_true_2 by reflexivity. reflexivity.
    + intros y Hy. apply bool_decide_eq_false_2. apply Hfresh. exact Hy.
  - unfold getAssigneeById.
    change (allAssignees (updateAssignee env eager assigneeId updates s))
      with (map (fun asg => if decide (asgId asg = assigneeId)
                            then mkAssignee (asgId asg)
                                            (default (asgName asg) updates)
                            else asg)
                (allAssignees s)).
    split.
    { apply fmap_map_key. intros asg.
      destruct (decide (asgId asg = assigneeId)); reflexivity. }
    split; [|split; [|split; reflexivity]].
    + rewrite find_map_key.
      * destruct (List.find _ (allAssignees s)) as [asg|] eqn:E; [|reflexivity].
        apply find_some in E as [_ E]. apply bool_decide_eq_true_1 in E.
        cbn [fmap option_fmap option_map]. rewrite (decide_True _ _ E).
        reflexivity.
      * intros asg. destruct (decide (asgId asg = assigneeId)); reflexivity.
    + intros other Hother. apply find_map_other.
      * intros asg. destruct (decide (asgId asg = assigneeId)); reflexivity.
      * intros asg Hasg. apply bool_decide_eq_true_1 in Hasg.
        apply decide_False. congruence.
  - unfold getAssigneeById, deleteAssignee.
    destruct (List.find (fun asg => bool_decide (asgId asg = assigneeId))
                        (allAssignees s)) as [a|] eqn:E;
      [|split; [exact E | reflexivity]].
    cbn [allAssignees addHistoryLogEntry]. split.
    + apply find_filter_none. intros x Hx Hne.
      apply bool_decide_eq_true_1 in Hx. contradiction.
    + intros other Hother. apply find_filter_other. intros x Hx.
      apply bool_decide_eq_true_1 in Hx. congruence.
Qed.

(** *** The ledger and the generator *)

(** X18: Once an occurrence is ticked off with [toggleOccurrenceCompletion],
    the generator no longer returns an instance whose date has that
    occurrence's key, for any window, for the recurring activities with
    the identifier. *)
Theorem completed_occurrence_not_generated
    (env : Env) (masterActivityId : string) (ts : Z) (s : State)
    (act : Activity) (rs re : Z) (i : FutureInstance) :
  act ∈ getRawActivities
          (toggleOccurrenceCompletion env masterActivityId ts true s) ->
  id act = masterActivityId ->
  recurringRule act <> None ->
  i ∈ generateFutureInstancesForNotifications act rs re ->
  formatISO_date (instanceDate i) <> formatISO_date ts.
Proof.
  intros Hact Hid Hrec Hi Hkey.
  rewrite getRaw_toggle in Hact.
  apply list_elem_of_fmap in Hact as (act0 & -> & Hact0).
  destruct (decide (id act0 = masterActivityId)) as [E|E]; [|contradiction].
  destruct (recurringRule (toggledActivity (formatISO_date ts) true act0))
    as [r|] eqn:Hr; [|contradiction].
  pose proof (generate_recurring _ rs re r Hr) as Hall.
  rewrite Forall_forall in Hall.
  destruct (Hall i Hi) as [(_ & _ & _ & _ & Hdone) _].
  rewrite Hkey in Hdone. unfold isCompletedOn, toggledActivity in Hdone.
  cbn [completedOccurrences] in Hdone.
  rewrite lookup_insert_eq in Hdone. discriminate.
Qed.

Lemma completed_occurrence_not_generated_witness :
  formatISO_date (instanceDate (mkFutureInstance (11 * 86400000) "a1"))
  <> formatISO_date (18 * 86400000).
Proof.
  apply (completed_occurrence_not_generated clock "a1" (18 * 86400000) home
           (toggledActivity "1970-01-19" true shopping) 0 (30 * 86400000)).
  - vm_compute. apply list_elem_of_here.
  - reflexivity.
  - vm_compute. discriminate.
  - vm_compute. apply list_elem_of_here.
Defined.

End StoreMore.

(* ===================================================================== *)
(** ** The notification scheduler: what a tick shows *)
(* ===================================================================== *)

Module SchedulerMore.
Import JSDate JSDateFacts Model Generator GeneratorFacts GeneratorMore Scheduler.
Local Open Scope Z_scope.

#[local] Opaque addDays addMonths formatISO_date Date_setDate DateFromTime
  YearFromTime MonthFromTime DaysInMonth DayFromYearMonth TimeWithinDay MakeDay.
#[local] Arguments formatISO_date : simpl never.
#[local] Arguments generateFutureInstancesForNotifications : simpl never.
#[local] Arguments addDays : simpl never.
#[local] Arguments startOfDay : simpl never.
#[local] Arguments endOfDay : simpl never.

(** *** Days *)

Lemma Day_getStartOfDayUtil (d : Z) : Day (getStartOfDayUtil d) = Day d.
Proof. apply Day_startOfDay. Qed.

Lemma Day_end_of_day (d : Z) : Day (endOfDay d) = Day d.
Proof.
  unfold endOfDay, Date_setHours. apply Day_MakeDate.
  unfold MakeTime, msPerHour, msPerMinute, msPerSecond, msPerDay. lia.
Qed.

Lemma today_le_endOfDay (d : Z) :
  getStartOfDayUtil d <= endOfDay (getStartOfDayUtil d).
Proof.
  unfold endOfDay. unfold Date_setHours at 1. rewrite Day_getStartOfDayUtil.
  unfold getStartOfDayUtil, Date_setHours, MakeDate, MakeTime,
    msPerHour, msPerMinute, msPerSecond.
  lia.
Qed.

Lemma subDays_addDays (d n : Z) : subDays d n = addDays d (- n).
Proof. reflexivity. Qed.

Lemma subWeeks_addDays (d : Z) : subWeeks d 1 = addDays d (- (7)).
Proof. reflexivity. Qed.

(** [n] days before [d] is on the day of [today]: [d] is [n] days on. *)
Lemma isSameDay_before (today d n : Z) :
  isSameDay today (startOfDay (addDays d (- n))) = true ->
  Day d = Day today + n.
Proof.
  unfold isSameDay. intros H. apply Z.eqb_eq in H.
  rewrite (startOfDay_spec today), (startOfDay_spec (startOfDay _)) in H.
  rewrite Day_startOfDay, addDays_spec, Day_add_days in H.
  unfold msPerDay in H. lia.
Qed.

(** *** Times of day *)

(** A time the form lets through is read, on line 725, as an hour from 0
    to 23 and a minute from 0 to 59. *)
Lemma timePattern_hoursMinutes (t : string) :
  Modal.timePattern t = true ->
  exists hours minutes,
    hoursMinutes t = Some (hours, minutes)
    /\ 0 <= hours <= 23 /\ 0 <= minutes <= 59
    /\ t <> EmptyString.
Proof.
  intros Hp.
  destruct t as [|h1 [|h2 [|c [|m1 [|m2 [|x rest]]]]]]; try discriminate.
  unfold Modal.timePattern, Modal.isDigit, Modal.code in Hp.
  set (n1 := Z.of_N (Ascii.N_of_ascii h1)) in *.
  set (n2 := Z.of_N (Ascii.N_of_ascii h2)) in *.
  set (nc := Z.of_N (Ascii.N_of_ascii c)) in *.
  set (k1 := Z.of_N (Ascii.N_of_ascii m1)) in *.
  set (k2 := Z.of_N (Ascii.N_of_ascii m2)) in *.
  apply andb_prop in Hp as [Hp Hk2].
  apply andb_prop in Hp as [Hp Hk1].
  apply andb_prop in Hp as [Hh Hc].
  assert (Hhours : 48 <= n1 <= 50 /\ 48 <= n2 <= 57
                   /\ 0 <= 10 * (n1 - 48) + (n2 - 48) <= 23).
  { apply orb_prop in Hh as [Hh | Hh].
    - apply andb_prop in Hh as [H1 H2]. lia.
    - apply andb_prop in Hh as [Hh H3]. apply andb_prop in Hh as [H1 H2]. lia. }
  assert (Hmins : 48 <= k1 <= 53 /\ 48 <= k2 <= 57) by lia.
  assert (Hcolon : nc = 58) by lia.
  exists (10 * (n1 - 48) + (n2 - 48)), (10 * (k1 - 48) + (k2 - 48)).
  split.
  { unfold hoursMinutes. cbn [splitColon].
    fold n1 n2 nc k1 k2.
    assert ((n1 =? 58) = false) as -> by lia.
    assert ((n2 =? 58) = false) as -> by lia.
    assert ((nc =? 58) = true) as -> by lia.
    assert ((k1 =? 58) = false) as -> by lia.
    assert ((k2 =? 58) = false) as -> by lia.
    cbn [digitsValue]. fold n1 n2 k1 k2.
    assert ((48 <=? n1) && (n1 <=? 57) = true) as -> by lia.
    assert ((48 <=? n2) && (n2 <=? 57) = true) as -> by lia.
    assert ((48 <=? k1) && (k1 <=? 57) = true) as -> by lia.
    assert ((48 <=? k2) && (k2 <=? 57) = true) as -> by lia.
    repeat f_equal; lia. }
  split; [lia|]. split; [lia|]. discriminate.
Qed.

(** *** What a tick shows *)

Section Shown.
Variable notified : gset string.
Variable now : Z.

Lemma startingSoon_elem (today : Z) (A : Activity) (e : Emission) :
  e ∈ startingSoon notified now today A ->
  exists instance t hours minutes,
    instance ∈ generateFutureInstancesForNotifications A today (endOfDay today)
    /\ e = mkEmission (id A) (instanceDate instance) "5min_soon"
    /\ time A = Some t /\ t <> EmptyString
    /\ hoursMinutes t = Some (hours, minutes)
    /\ isCompletedOn (completedOccurrences A)
                     (formatISO_date (instanceDate instance)) = false
    /\ 0 <= Date_setHours (instanceDate instance) hours minutes 0 0 - now
       <= fiveMinutesInMs.
Proof.
  unfold startingSoon.
  destruct (time A) as [t|]; [|intros He; inversion He].
  destruct (decide (t = EmptyString)) as [|Hne]; [intros He; inversion He|].
  intros He. apply list_elem_of_In, in_flat_map in He as (instance & Hin & He).
  apply list_elem_of_In in He, Hin.
  destruct (negb (isCompletedOn _ _) && negb (bool_decide _)) eqn:E;
    [|inversion He].
  apply andb_prop in E as [E _]. apply negb_true_iff in E.
  destruct (hoursMinutes t) as [[hours minutes]|] eqn:Hhm; [|inversion He].
  destruct ((0 <=? _) && (_ <=? _)) eqn:Hdiff; [|inversion He].
  apply list_elem_of_singleton in He.
  apply andb_prop in Hdiff as [H1 H2]. unfold getTime in *.
  exists instance, t, hours, minutes.
  repeat split; try assumption; lia.
Qed.

(** The reminders of lines 772-786: the kind of rule, the key and the
    number of days between the tick and the occurrence. *)
Definition reminderKind (ty : RecurrenceType) (tk : string) (n : Z) : Prop :=
  (ty = Weekly /\ tk = "1day_weekly" /\ n = 1)
  \/ (ty = Monthly /\ tk = "1week_monthly" /\ n = 7)
  \/ (ty = Monthly /\ tk = "2days_monthly" /\ n = 2)
  \/ (ty = Monthly /\ tk = "1day_monthly" /\ n = 1).

Lemma notify_elem (A : Activity) (instance : FutureInstance) (tk : string)
    (e : Emission) :
  e ∈ notify notified A instance tk ->
  e = mkEmission (id A) (instanceDate instance) tk.
Proof.
  unfold notify. destruct (bool_decide _); intros He; [inversion He|].
  apply list_elem_of_singleton in He. exact He.
Qed.

Lemma upcoming_elem (today : Z) (A : Activity) (e : Emission) :
  e ∈ upcoming notified today A ->
  exists instance r tk n,
    recurringRule A = Some r
    /\ instance ∈ generateFutureInstancesForNotifications
                    A (addDays today 1) (addDays today 8)
    /\ e = mkEmission (id A) (instanceDate instance) tk
    /\ isCompletedOn (completedOccurrences A)
                     (formatISO_date (instanceDate instance)) = false
    /\ reminderKind (type r) tk n
    /\ isSameDay today (startOfDay (addDays (instanceDate instance) (- n)))
       = true.
Proof.
  unfold upcoming.
  destruct (recurringRule A) as [r|] eqn:Hr; [|intros He; inversion He].
  intros He. apply list_elem_of_In, in_flat_map in He as (instance & Hin & He).
  apply list_elem_of_In in He, Hin.
  destruct (isCompletedOn _ _) eqn:Hdone; [inversion He|].
  rewrite !subDays_addDays, subWeeks_addDays in He.
  destruct (type r) eqn:Hty; try (inversion He; fail).
  - destruct (isSameDay _ _) eqn:Hsame; [|inversion He].
    apply notify_elem in He.
    exists instance, r, "1day_weekly", 1. rewrite Hty.
    repeat split; try assumption. left. auto.
  - apply elem_of_app in He as [He | He];
      [|apply elem_of_app in He as [He | He]].
    + destruct (isSameDay _ _) eqn:Hsame; [|inversion He].
      apply notify_elem in He.
      exists instance, r, "1week_monthly", 7. rewrite Hty.
      repeat split; try assumption. right. left. auto.
    + destruct (isSameDay _ _) eqn:Hsame; [|inversion He].
      apply notify_elem in He.
      exists instance, r, "2days_monthly", 2. rewrite Hty.
      repeat split; try assumption. right. right. left. auto.
    + destruct (isSameDay _ _) eqn:Hsame; [|inversion He].
      apply notify_elem in He.
      exists instance, r, "1day_monthly", 1. rewrite Hty.
      repeat split; try assumption. right. right. right. auto.
Qed.

Lemma emissions_elem (acts : list Activity) (e : Emission) :
  e ∈ emissions notified now acts ->
  exists A, A ∈ acts
            /\ (e ∈ startingSoon notified now (getStartOfDayUtil now) A
                \/ e ∈ upcoming notified (getStartOfDayUtil now) A).
Proof.
  intros He. unfold emissions in He.
  apply list_elem_of_In, in_flat_map in He as (A & HA & He).
  apply list_elem_of_In in HA. apply list_elem_of_In, elem_of_app in He.
  exists A. split; assumption.
Qed.

End Shown.

(** A Tuesday seminar at 10:00 from 2024-01-02 on; a one-off appointment
    on 2024-01-08 at 12:03. *)
Definition seminar : Activity :=
  mkActivity "s1" "Seminar" "cat_study" [] (newDate 2024 0 2 10 0)
             (Some "10:00") false None
             (Some (mkRecurrenceRule Weekly None (Some [2]) None)) ∅ None.

Definition dentist : Activity :=
  mkActivity "d1" "Dentist" "cat_health" [] (newDate 2024 0 8 0 0)
             (Some "12:03") false None None ∅ None.

(** Monday 2024-01-08, 12:00. *)
Definition mondayNoon : Z := newDate 2024 0 8 12 0.

Definition firstRun : list Emission * DedupState :=
  tick (mkDedupState None ∅) mondayNoon [seminar; dentist].

Example firstRun_shows :
  firstRun.1 = [mkEmission "s1" (newDate 2024 0 9 0 0) "1day_weekly";
                mkEmission "d1" (newDate 2024 0 8 0 0) "5min_soon"].
Proof. vm_compute. reflexivity. Qed.

(** X19: Whatever a tick shows is about an activity of the scanned collection
    and about one of its occurrences that is not ticked off: the key of
    the occurrence's date is not marked in the activity's ledger, the
    occurrence is not before the activity's start, and a one-off activity
    is shown only while its [completed] flag is unset. *)
Theorem nothing_shown_for_completed
    (st : DedupState) (now : Z) (acts : list Activity) (e : Emission) :
  e ∈ (tick st now acts).1 ->
  exists A,
    A ∈ acts
    /\ activityId e = id A
    /\ isCompletedOn (completedOccurrences A) (occurrenceDateKey e) = false
    /\ createdAt A <= occurrence e
    /\ (recurringRule A = None ->
        completed A = false /\ occurrence e = createdAt A).
Proof.
  intros He. cbn [tick fst] in He.
  apply emissions_elem in He as (A & HA & [He | He]).
  - apply startingSoon_elem in He
      as (instance & t & h & m & Hin & -> & _ & _ & _ & Hdone & _).
    exists A. split; [exact HA|]. split; [reflexivity|].
    split; [exact Hdone|].
    destruct (generate_bounds _ _ _ _ Hin) as (_ & Hcreated & _).
    split; [exact Hcreated|]. intros Hnone.
    unfold generateFutureInstancesForNotifications in Hin.
    rewrite Hnone in Hin. unfold singleInstance in Hin.
    destruct (_ && negb (completed A)) eqn:E; [|inversion Hin].
    apply list_elem_of_singleton in Hin. subst instance.
    apply andb_prop in E as [_ E]. apply negb_true_iff in E.
    split; [exact E | reflexivity].
  - apply upcoming_elem in He
      as (instance & r & tk & n & Hr & Hin & -> & Hdone & _).
    exists A. split; [exact HA|]. split; [reflexivity|].
    split; [exact Hdone|].
    destruct (generate_bounds _ _ _ _ Hin) as (_ & Hcreated & _).
    split; [exact Hcreated|]. intros Hnone. congruence.
Qed.

Lemma nothing_shown_for_completed_witness :
  exists A,
    A ∈ [seminar; dentist]
    /\ activityId (mkEmission "d1" (newDate 2024 0 8 0 0) "5min_soon") = id A
    /\ isCompletedOn (completedOccurrences A)
         (occurrenceDateKey (mkEmission "d1" (newDate 2024 0 8 0 0) "5min_soon"))
       = false
    /\ createdAt A
       <= occurrence (mkEmission "d1" (newDate 2024 0 8 0 0) "5min_soon")
    /\ (recurringRule A = None ->
        completed A = false
        /\ occurrence (mkEmission "d1" (newDate 2024 0 8 0 0) "5min_soon")
           = createdAt A).
Proof.
  apply (nothing_shown_for_completed (mkDedupState None ∅) mondayNoon
                                     [seminar; dentist]).
  vm_compute. apply list_elem_of_further, list_elem_of_here.
Defined.

(** X20: When every scanned activity has a time the form lets through
    ([HH:MM], or none), a "starting soon" notification is shown only for
    an occurrence of the day of the tick, of an activity with a time
    [HH:MM], an hour from 0 to 23 and a minute from 0 to 59, when that time
    of that day is at the tick or at most five minutes after it. *)
Theorem starting_soon_within_five_minutes
    (st : DedupState) (now : Z) (acts : list Activity) (e : Emission) :
  (forall A, A ∈ acts -> Modal.timeFieldValid (time A) = true) ->
  e ∈ (tick st now acts).1 ->
  typeKey e = "5min_soon" ->
  Day (occurrence e) = Day now
  /\ exists A t hours minutes,
       A ∈ acts
       /\ activityId e = id A
       /\ time A = Some t
       /\ Modal.timePattern t = true
       /\ hoursMinutes t = Some (hours, minutes)
       /\ 0 <= hours <= 23 /\ 0 <= minutes <= 59
       /\ now <= MakeDate (Day now) (MakeTime hours minutes 0 0)
          <= now + 5 * 60 * 1000.
Proof.
  intros Hform He Hk. cbn [tick fst] in He.
  apply emissions_elem in He as (A & HA & [He | He]).
  - apply startingSoon_elem in He
      as (instance & t & h & m & Hin & -> & Ht & Hne & Hhm & _ & Hdiff).
    cbn [occurrence activityId].
    destruct (generate_bounds _ _ _ _ Hin) as (_ & _ & Hwin & _).
    pose proof (today_le_endOfDay now) as Hle.
    rewrite Z.min_l, Z.max_r in Hwin by exact Hle.
    assert (Hday : Day (instanceDate instance) = Day now).
    { destruct Hwin as [H1 H2].
      apply Day_le_mono in H1, H2.
      rewrite Day_end_of_day in H2. rewrite Day_getStartOfDayUtil in H1, H2.
      lia. }
    assert (Hpattern : Modal.timePattern t = true).
    { specialize (Hform A HA). rewrite Ht in Hform.
      cbn [Modal.timeFieldValid] in Hform.
      apply orb_prop in Hform as [Hp | Hp]; [exact Hp|].
      apply bool_decide_eq_true_1 in Hp. contradiction. }
    destruct (timePattern_hoursMinutes t Hpattern)
      as (h' & m' & Hhm' & Hhours & Hmins & _).
    rewrite Hhm in Hhm'. inversion Hhm'; subst h' m'.
    split; [exact Hday|].
    exists A, t, h, m.
    split; [exact HA|]. split; [reflexivity|]. split; [exact Ht|].
    split; [exact Hpattern|]. split; [exact Hhm|].
    split; [exact Hhours|]. split; [exact Hmins|].
    unfold Date_setHours, fiveMinutesInMs in Hdiff. rewrite Hday in Hdiff. lia.
  - apply upcoming_elem in He
      as (instance & r & tk & n & _ & _ & -> & _ & Hkind & _).
    cbn [typeKey] in Hk. subst tk.
    destruct Hkind as [(_ & H & _) | [(_ & H & _) | [(_ & H & _) | (_ & H & _)]]];
      discriminate.
Qed.

Lemma starting_soon_within_five_minutes_witness :
  Day (occurrence (mkEmission "d1" (newDate 2024 0 8 0 0) "5min_soon"))
  = Day mondayNoon
  /\ exists A t hours minutes,
       A ∈ [seminar; dentist]
       /\ activityId (mkEmission "d1" (newDate 2024 0 8 0 0) "5min_soon") = id A
       /\ time A = Some t
       /\ Modal.timePattern t = true
       /\ hoursMinutes t = Some (hours, minutes)
       /\ 0 <= hours <= 23 /\ 0 <= minutes <= 59
       /\ mondayNoon <= MakeDate (Day mondayNoon) (MakeTime hours minutes 0 0)
          <= mondayNoon + 5 * 60 * 1000.
Proof.
  apply (starting_soon_within_five_minutes (mkDedupState None ∅) mondayNoon
                                           [seminar; dentist]).
  - intros A HA. inversion HA as [|? ? ? HA']; subst; [reflexivity|].
    apply list_elem_of_singleton in HA' as ->. reflexivity.
  - vm_compute. apply list_elem_of_further, list_elem_of_here.
  - reflexivity.
Defined.

(** X21: An advance reminder is shown only for a weekly activity, the day
    before the occurrence, and for a monthly activity, seven days, two
    days and one day before the occurrence (calendar days, whatever the
    times of day); a daily or a one-off activity gets none. *)
Theorem advance_reminder_days
    (st : DedupState) (now : Z) (acts : list Activity) (e : Emission) :
  e ∈ (tick st now acts).1 ->
  typeKey e <> "5min_soon" ->
  exists A r n,
    A ∈ acts
    /\ activityId e = id A
    /\ recurringRule A = Some r
    /\ reminderKind (type r) (typeKey e) n
    /\ Day (occurrence e) = Day now + n.
Proof.
  intros He Hk. cbn [tick fst] in He.
  apply emissions_elem in He as (A & HA & [He | He]).
  - apply startingSoon_elem in He as (instance & t & h & m & _ & -> & _).
    exfalso. apply Hk. reflexivity.
  - apply upcoming_elem in He
      as (instance & r & tk & n & Hr & _ & -> & _ & Hkind & Hsame).
    exists A, r, n. cbn [activityId typeKey occurrence].
    repeat split; try assumption.
    apply isSameDay_before in Hsame.
    rewrite Day_getStartOfDayUtil in Hsame. exact Hsame.
Qed.

Lemma advance_reminder_days_witness :
  exists A r n,
    A ∈ [seminar; dentist]
    /\ activityId (mkEmission "s1" (newDate 2024 0 9 0 0) "1day_weekly") = id A
    /\ recurringRule A = Some r
    /\ reminderKind (type r)
         (typeKey (mkEmission "s1" (newDate 2024 0 9 0 0) "1day_weekly")) n
    /\ Day (occurrence (mkEmission "s1" (newDate 2024 0 9 0 0) "1day_weekly"))
       = Day mondayNoon + n.
Proof.
  apply (advance_reminder_days (mkDedupState None ∅) mondayNoon
                               [seminar; dentist]).
  - vm_compute. apply list_elem_of_here.
  - discriminate.
Defined.

End SchedulerMore.

(* ===================================================================== *)
(** ** Sign-in state and the notification list: results *)
(* ===================================================================== *)

Module SessionSpec.
Import Model Store StoreSpec Session.
Local Open Scope Z_scope.

Definition quiet : Shell :=
  mkShell (mkState Personal [] [] [] []
                   [mkHistoryLogEntry "h0" 10 "historyLogAddAssignee"
                                      [("name", DString "Ana")] "assignee"])
          false 2 (Some 5000) None
          [mkUINotification "n0" 20 false "Hello" "World" None None]
          WorkPhase 100 true 3 true.

(** X22: Signing in from a signed-out state and signing out both leave the
    history log empty: the entry that the same call writes ("login",
    "logout") is queued before [setHistoryLog([])] and is discarded with
    the rest.  Signing in sets the expiry time to 24 hours after the clock
    reading, 30 days with [rememberMe], and the test made at mount accepts
    the session up to and including that instant; it adds one unread
    notification.  Signing out resets the attempt counter, the lockout and
    the expiry time and leaves activities, categories, assignees and
    notifications alone. *)
Theorem sign_in_and_out_empty_the_log
    (t : string -> string) (envLog envNotif env : Env) (nowTime : Z)
    (rememberMe swController : bool) (sh : Shell) :
  (isAuthenticated sh = false ->
   let sh' := setIsAuthenticated t envLog envNotif nowTime true rememberMe sh in
   let lifetime := if rememberMe then 30 * 86400000 else 86400000 in
   historyLog (store sh') = []
   /\ isAuthenticated sh' = true
   /\ sessionExpiryTimestamp sh' = Some (nowTime + lifetime)
   /\ (forall later,
          sessionExpired later (nowTime + lifetime) = false
          <-> later <= nowTime + lifetime)
   /\ (exists n, uiNotifications sh' = n :: take 49 (uiNotifications sh)
                 /\ read n = false))
  /\ (let sh' := logout env swController sh in
      historyLog (store sh') = []
      /\ isAuthenticated sh' = false
      /\ loginAttempts sh' = 0
      /\ lockoutEndTime sh' = None
      /\ sessionExpiryTimestamp sh' = None
      /\ personalActivities (store sh') = personalActivities (store sh)
      /\ workActivities (store sh') = workActivities (store sh)
      /\ allCategories (store sh') = allCategories (store sh)
      /\ allAssignees (store sh') = allAssignees (store sh)
      /\ uiNotifications sh' = uiNotifications sh).
Proof.
  split.
  - intros Hout. cbv zeta. unfold setIsAuthenticated. rewrite Hout.
    cbn [andb negb]. cbn.
    split; [reflexivity|]. split; [reflexivity|].
    split; [destruct rememberMe; reflexivity|].
    split.
    + intros later. unfold sessionExpired. lia.
    + eexists. split; reflexivity.
  - cbv zeta. unfold logout. destruct swController; cbn; repeat split.
Qed.

Lemma sign_in_and_out_empty_the_log_witness :
  let sh' := setIsAuthenticated (fun k => k) (mkEnv "h1" 1000) (mkEnv "n1" 1001)
                                1002 true false quiet in
  let lifetime := if false then 30 * 86400000 else 86400000 in
  historyLog (store sh') = []
  /\ isAuthenticated sh' = true
  /\ sessionExpiryTimestamp sh' = Some (1002 + lifetime)
  /\ (forall later,
         sessionExpired later (1002 + lifetime) = false
         <-> later <= 1002 + lifetime)
  /\ (exists n, uiNotifications sh' = n :: take 49 (uiNotifications quiet)
                /\ read n = false).
Proof.
  apply (proj1 (sign_in_and_out_empty_the_log
                  (fun k => k) (mkEnv "h1" 1000) (mkEnv "n1" 1001)
                  (mkEnv "h2" 1003) 1002 false false quiet)).
  reflexivity.
Defined.

(** While signed in, [setIsAuthenticated(true)] keeps the log and moves the
    expiry time; [setIsAuthenticated(false)] clears the expiry time and,
    unlike [logout], keeps the log and the attempt counter. *)
Example setIsAuthenticated_other_cases :
  historyLog (store (setIsAuthenticated
                       (fun k => k) (mkEnv "h1" 1000) (mkEnv "n1" 1001) 1002
                       false false quiet))
  = historyLog (store quiet)
  /\ loginAttempts (setIsAuthenticated
                      (fun k => k) (mkEnv "h1" 1000) (mkEnv "n1" 1001) 1002
                      false false quiet) = 2
  /\ sessionExpiryTimestamp (setIsAuthenticated
                               (fun k => k) (mkEnv "h1" 1000) (mkEnv "n1" 1001)
                               1002 false false quiet) = None.
Proof. repeat split. Qed.

(** What marking does to one notification: only [read] may change, and
    only to [true]. *)
Definition marked (n n' : UINotification) : Prop :=
  notifId n' = notifId n /\ notifTimestamp n' = notifTimestamp n
  /\ notifTitle n' = notifTitle n /\ notifDescription n' = notifDescription n
  /\ notifActivityId n' = notifActivityId n
  /\ notifInstanceDate n' = notifInstanceDate n
  /\ (read n = true -> read n' = true).

(** X23: The notification list holds the newest notification first, unread, and
    never more than 50 notifications after an addition.  Marking one or
    all as read keeps every notification in its place and changes nothing
    but [read], which is never set back to [false]; marking all leaves
    none unread; marking one is idempotent and leaves the notifications
    with another identifier as they are. *)
Theorem notification_list_laws
    (env : Env) (data : NotificationData) (notificationId : string)
    (sh : Shell) :
  (exists n,
      uiNotifications (addUINotification env data sh)
      = n :: take 49 (uiNotifications sh)
      /\ read n = false /\ notifId n = uuid env /\ notifTimestamp n = now env
      /\ (length (uiNotifications (addUINotification env data sh)) <= 50)%nat)
  /\ (Forall2 marked (uiNotifications sh)
              (uiNotifications (markAllUINotificationsAsRead sh))
      /\ Forall (fun n => read n = true)
                (uiNotifications (markAllUINotificationsAsRead sh)))
  /\ (Forall2 (fun n n' =>
                 marked n n'
                 /\ (notifId n = notificationId -> read n' = true)
                 /\ (notifId n <> notificationId -> n' = n))
              (uiNotifications sh)
              (uiNotifications (markUINotificationAsRead notificationId sh))
      /\ markUINotificationAsRead notificationId
           (markUINotificationAsRead notificationId sh)
         = markUINotificationAsRead notificationId sh)
  /\ uiNotifications (clearAllUINotifications sh) = [].
Proof.
  split; [|split; [|split]].
  - eexists. split; [reflexivity|]. repeat split.
    cbn. rewrite length_take. lia.
  - split.
    + apply Forall2_map_r_same. intros n. unfold marked. cbn. tauto.
    + cbn. apply Forall_forall. intros n Hn.
      apply list_elem_of_fmap in Hn as (n0 & -> & _). reflexivity.
  - split.
    + apply Forall2_map_r_same. intros n. unfold marked.
      destruct (decide (notifId n = notificationId)); cbn; tauto.
    + unfold markUINotificationAsRead, setUINotifications. cbn. f_equal.
      rewrite map_map. apply map_ext. intros n.
      destruct (decide (notifId n = notificationId)) as [E|E].
      * cbn. rewrite (decide_True _ _ E). reflexivity.
      * rewrite (decide_False _ _ E). reflexivity.
  - reflexivity.
Qed.

End SessionSpec.

(* ===================================================================== *)
(** ** The activity form: results *)
(* ===================================================================== *)

Module ModalSpec.
Import JSDate JSDateFacts Model Generator GeneratorFacts Store StoreSpec
       Scheduler Modal StoreMore.
Local Open Scope Z_scope.

#[local] Arguments formatISO_date : simpl never.
#[local] Arguments generateFutureInstancesForNotifications : simpl never.

(** *** The time field *)

(** X24: Every time the form accepts is read by the scheduler as an hour from
    0 to 23 and a minute from 0 to 59, so the instant it computes with
    [setHours] is on the day of the occurrence. *)
Theorem accepted_time_is_parsed (t : string) :
  timePattern t = true ->
  exists hours minutes,
    hoursMinutes t = Some (hours, minutes)
    /\ 0 <= hours <= 23 /\ 0 <= minutes <= 59
    /\ t <> EmptyString
    /\ forall d, Day (Date_setHours d hours minutes 0 0) = Day d.
Proof.
  intros Hp.
  destruct (SchedulerMore.timePattern_hoursMinutes t Hp)
    as (hours & minutes & Hhm & Hhours & Hmins & Hne).
  exists hours, minutes.
  split; [exact Hhm|]. split; [exact Hhours|]. split; [exact Hmins|].
  split; [exact Hne|].
  intros d. unfold Date_setHours. apply Day_MakeDate.
  unfold MakeTime, msPerHour, msPerMinute, msPerSecond, msPerDay. lia.
Qed.

Lemma accepted_time_is_parsed_witness :
  exists hours minutes,
    hoursMinutes "23:59" = Some (hours, minutes)
    /\ 0 <= hours <= 23 /\ 0 <= minutes <= 59
    /\ "23:59" <> EmptyString
    /\ forall d, Day (Date_setHours d hours minutes 0 0) = Day d.
Proof. apply (accepted_time_is_parsed "23:59"). reflexivity. Defined.

(** The pattern at its edges. *)
Example timePattern_edges :
  timePattern "00:00" = true /\ timePattern "23:59" = true
  /\ timePattern "24:00" = false /\ timePattern "12:60" = false
  /\ timePattern "9:30" = false /\ timePattern "09:30 " = false
  /\ timeFieldValid (Some EmptyString) = true.
Proof. repeat split. Qed.

(** *** The rule the form writes *)

Definition noneRule : RecurrenceRule := mkRecurrenceRule TNone None None None.

(** X25: Saving the form with recurrence "none" hands [updateActivity] no rule
    ([null]), and [updateActivity] then keeps the rule the activity has: a
    recurring activity stays recurring, with its ledger.  This holds for
    every update that carries the rule the form built, whatever its other
    fields. *)
Theorem form_none_keeps_rule
    (env : Env) (activityId : string) (updates : ActivityUpdates)
    (originalActivity : option Activity) (data : RecurrenceForm) (s : State) :
  rf_type data = TNone ->
  u_recurrence updates = recurrenceRule data ->
  Forall2 (fun act act' =>
             recurrence act' = recurrence act
             /\ completedOccurrences act' = completedOccurrences act)
          (getRawActivities s)
          (getRawActivities
             (updateActivity env activityId updates originalActivity s)).
Proof.
  intros Hty Hur. unfold recurrenceRule in Hur. rewrite Hty in Hur.
  rewrite getRaw_updateActivity. apply Forall2_map_r_same. intros act.
  destruct (decide (id act = activityId)); [|split; reflexivity].
  unfold updatedActivity, clearsLedger. rewrite Hur.
  cbn [recurrence completedOccurrences]. split; reflexivity.
Qed.

Definition formNone : RecurrenceForm :=
  mkRecurrenceForm TNone None (Some []) (Some 2).

Definition saveAsNone : ActivityUpdates :=
  mkActivityUpdates None (Some "Shopping") (Some "cat_home") (Some [])
                    (Some 86400000) (Some None) None (Some None)
                    (recurrenceRule formNone) (Some ∅) (Some (Some "asg_1")).

Lemma form_none_keeps_rule_witness :
  Forall2 (fun act act' =>
             recurrence act' = recurrence act
             /\ completedOccurrences act' = completedOccurrences act)
          (getRawActivities home)
          (getRawActivities
             (updateActivity clock "a1" saveAsNone (Some shopping) home)).
Proof.
  apply (form_none_keeps_rule clock "a1" saveAsNone (Some shopping) formNone home);
    reflexivity.
Defined.

(** The weekly series is still there after it was saved as "none". *)
Example saved_as_none_still_weekly :
  (fun act => type <$> recurrence act)
    <$> getRawActivities
          (updateActivity clock "a1" saveAsNone (Some shopping) home)
  = [Some Weekly].
Proof. rewrite getRaw_updateActivity. reflexivity. Qed.

(** A rule as the form writes it: a weekly rule has a list of days and no
    day of the month, a monthly rule a day of the month other than 0 and
    no list of days, a daily rule neither. *)
Definition asFormWrites (r : RecurrenceRule) : Prop :=
  match type r with
  | TNone => True
  | Daily => daysOfWeek r = None /\ dayOfMonth r = None
  | Weekly => (exists days, daysOfWeek r = Some days) /\ dayOfMonth r = None
  | Monthly =>
      daysOfWeek r = None /\ exists dom, dayOfMonth r = Some dom /\ dom <> 0
  end.

(** What [onSubmit] builds is such a rule, but for a monthly rule without
    a day of the month. *)
Lemma recurrenceRule_asFormWrites (data : RecurrenceForm) (r : RecurrenceRule) :
  recurrenceRule data = Some r ->
  (type r = Monthly -> dayOfMonth r <> None) ->
  asFormWrites r.
Proof.
  unfold recurrenceRule, asFormWrites.
  destruct (rf_type data) eqn:Hty; [discriminate| | |];
    intros H; inversion H; subst; cbn [type daysOfWeek dayOfMonth]; intros Hm.
  - split; reflexivity.
  - split; [eexists; reflexivity | reflexivity].
  - split; [reflexivity|].
    specialize (Hm eq_refl).
    destruct (rf_dayOfMonth data) as [d|]; [|contradiction].
    cbn [truthyZ] in *. destruct (d =? 0) eqn:E; [contradiction|].
    exists d. split; [reflexivity | lia].
Qed.

Lemma truthyZ_idem (o : option Z) : truthyZ (truthyZ o) = truthyZ o.
Proof.
  destruct o as [e|]; [|reflexivity]. cbn [truthyZ].
  destruct (e =? 0) eqn:E; [reflexivity|]. cbn [truthyZ]. rewrite E. reflexivity.
Qed.

(** The rule [onSubmit] builds from the values the form is reset to. *)
Lemma recurrenceRule_reset (act : Activity) :
  recurrenceRule (recurrenceFormOf act)
  = match recurrence act with
    | None => None
    | Some r =>
        match type r with
        | TNone => None
        | Daily => Some (mkRecurrenceRule Daily (truthyZ (endDate r)) None None)
        | Weekly =>
            Some (mkRecurrenceRule Weekly (truthyZ (endDate r))
                                   (Some (default [] (daysOfWeek r))) None)
        | Monthly =>
            Some (mkRecurrenceRule
                    Monthly (truthyZ (endDate r)) None
                    (Some (default (getDate (createdAt act))
                                   (truthyZ (dayOfMonth r)))))
        end
    end.
Proof.
  unfold recurrenceRule, recurrenceFormOf.
  cbn [rf_type rf_endDate rf_daysOfWeek rf_dayOfMonth].
  destruct (recurrence act) as [r|]; [|reflexivity].
  cbn [fmap option_fmap option_map mbind option_bind default from_option
       Datatypes.id].
  assert (Hend : match truthyZ (endDate r) with
                 | Some e => Some (getTime e)
                 | None => None
                 end = truthyZ (endDate r))
    by (destruct (truthyZ (endDate r)); reflexivity).
  destruct (type r); rewrite ?Hend; try reflexivity.
  f_equal. f_equal.
  pose proof (DateFromTime_range (createdAt act)) as Hrange.
  destruct (dayOfMonth r) as [d|]; cbn [truthyZ default from_option Datatypes.id].
  - destruct (d =? 0) eqn:E; cbn [default from_option Datatypes.id truthyZ].
    + unfold getDate. destruct (DateFromTime (createdAt act) =? 0) eqn:E2;
        [lia | reflexivity].
    + rewrite E. reflexivity.
  - unfold getDate. destruct (DateFromTime (createdAt act) =? 0) eqn:E2;
      [lia | reflexivity].
Qed.

(** X26: Opening the form on an activity and saving it unchanged keeps the
    ledger, for an activity whose rule is as the form writes it and for
    every update that carries the rule the form builds from its reset
    values and the unchanged start date.  The rule keeps its type, its
    days and its day of the month, and its end date unless that is the
    time value 0, which the form reads as "no end date". *)
Theorem form_resave_keeps_ledger
    (mode : AppMode) (updates : ActivityUpdates) (act : Activity) :
  (forall r, recurrence act = Some r -> asFormWrites r) ->
  u_recurrence updates = recurrenceRule (recurrenceFormOf act) ->
  u_createdAt updates = Some (createdAt act) ->
  completedOccurrences (updatedActivity mode updates act)
  = completedOccurrences act
  /\ (type <$> recurrence (updatedActivity mode updates act))
     = (type <$> recurrence act)
  /\ (recurrence (updatedActivity mode updates act) ≫= daysOfWeek)
     = (recurrence act ≫= daysOfWeek)
  /\ (recurrence (updatedActivity mode updates act) ≫= dayOfMonth)
     = (recurrence act ≫= dayOfMonth)
  /\ truthyZ (recurrence (updatedActivity mode updates act) ≫= endDate)
     = truthyZ (recurrence act ≫= endDate).
Proof.
  intros Hshape Hur Hcreated.
  unfold updatedActivity, clearsLedger. rewrite Hur, Hcreated.
  cbn [recurrence completedOccurrences].
  rewrite (recurrenceRule_reset act).
  destruct (recurrence act) as [r|] eqn:Hrec; [|repeat split].
  specialize (Hshape r eq_refl). unfold asFormWrites in Hshape.
  assert (Htime : match truthyZ (Some (createdAt act)) with
                  | Some c => bool_decide (getTime c ≠ getTime (createdAt act))
                  | None => false
                  end = false).
  { cbn [truthyZ]. destruct (createdAt act =? 0); [reflexivity|].
    apply bool_decide_eq_false_2. intros Hne. apply Hne. reflexivity. }
  cbn [fmap option_fmap option_map mbind option_bind].
  destruct (type r) eqn:Hty.
  - repeat split; cbn; rewrite ?Hty; reflexivity.
  - destruct Hshape as [Hdays Hdom].
    rewrite decide_False by discriminate.
    cbn [type daysOfWeek dayOfMonth endDate].
    rewrite Hdays, Hdom, Htime.
    rewrite !bool_decide_eq_false_2 by (intros Hne; apply Hne; reflexivity).
    cbn [orb]. repeat split. apply truthyZ_idem.
  - destruct Hshape as [[days Hdays] Hdom].
    rewrite decide_False by discriminate.
    cbn [type daysOfWeek dayOfMonth endDate].
    rewrite Hdays, Hdom, Htime.
    rewrite !bool_decide_eq_false_2 by (intros Hne; apply Hne; reflexivity).
    cbn [orb]. repeat split. apply truthyZ_idem.
  - destruct Hshape as [Hdays (dom & Hdom & Hnz)].
    rewrite decide_False by discriminate.
    cbn [type daysOfWeek dayOfMonth endDate].
    rewrite Hdays, Hdom, Htime. cbn [truthyZ].
    assert ((dom =? 0) = false) as -> by lia.
    rewrite !bool_decide_eq_false_2 by (intros Hne; apply Hne; reflexivity).
    cbn [orb]. repeat split. apply truthyZ_idem.
Qed.

(** The values the form is reset to for [shopping], saved as they are. *)
Definition saveUnchanged : ActivityUpdates :=
  mkActivityUpdates None (Some "Shopping") (Some "cat_home") (Some [])
                    (Some 86400000) (Some None) None (Some None)
                    (recurrenceRule (recurrenceFormOf shopping)) (Some ∅)
                    (Some (Some "asg_1")).

Lemma form_resave_keeps_ledger_witness :
  completedOccurrences (updatedActivity Personal saveUnchanged shopping)
  = completedOccurrences shopping
  /\ (type <$> recurrence (updatedActivity Personal saveUnchanged shopping))
     = (type <$> recurrence shopping)
  /\ (recurrence (updatedActivity Personal saveUnchanged shopping) ≫= daysOfWeek)
     = (recurrence shopping ≫= daysOfWeek)
  /\ (recurrence (updatedActivity Personal saveUnchanged shopping) ≫= dayOfMonth)
     = (recurrence shopping ≫= dayOfMonth)
  /\ truthyZ (recurrence (updatedActivity Personal saveUnchanged shopping)
                ≫= endDate)
     = truthyZ (recurrence shopping ≫= endDate).
Proof.
  apply (form_resave_keeps_ledger Personal saveUnchanged shopping).
  - intros r Hr. inversion Hr; subst. unfold asFormWrites. cbn.
    split; [eexists; reflexivity | reflexivity].
  - reflexivity.
  - reflexivity.
Defined.

(** A monthly activity stored without a day of the month is not as the
    form writes it: the form fills in the day of [createdAt], and saving
    it unchanged empties the ledger. *)
Definition monthlyNoDay : Activity :=
  mkActivity "a9" "Rent" "cat_home" [] (newDate 2024 0 15 9 0) None false None
             (Some (mkRecurrenceRule Monthly None None None))
             {["2024-02-15" := true]} None.

Example resave_monthly_without_day :
  let updates :=
    mkActivityUpdates None None None None (Some (createdAt monthlyNoDay)) None
                      None None
                      (recurrenceRule (recurrenceFormOf monthlyNoDay))
                      None None in
  (recurrence (updatedActivity Personal updates monthlyNoDay) ≫= dayOfMonth)
  = Some 15
  /\ completedOccurrences (updatedActivity Personal updates monthlyNoDay) = ∅.
Proof. cbv zeta. split; vm_compute; reflexivity. Qed.

(** *** A new activity *)

(** X27: Submitting the form on a new activity, with an identifier that is not
    in the selected collection, appends one activity that starts at the
    chosen date, has the title and category of the form, an empty ledger
    and the [completed] flag unset.  Its todos carry the texts of the form,
    in order, and are all open: what the form's checkboxes say is dropped.
    Its rule is the one the form built, or of type none. *)
Theorem form_creates_activity
    (env : Env) (activityUuid : string) (todoUuid : nat -> string)
    (data : ActivityFormData) (s : State) :
  (forall act, act ∈ getRawActivities s -> id act <> activityUuid) ->
  let s' := onSubmitNew env activityUuid todoUuid data s in
  exists act,
    getRawActivities s' = getRawActivities s ++ [act]
    /\ findActivity activityUuid (getRawActivities s') = Some act
    /\ id act = activityUuid
    /\ title act = fd_title data
    /\ categoryId act = fd_categoryId data
    /\ createdAt act = fd_activityDate data
    /\ completed act = false
    /\ completedOccurrences act = ∅
    /\ text <$> todos act = ft_text <$> default [] (fd_todos data)
    /\ Forall (fun t => todoCompleted t = false) (todos act)
    /\ recurrence act
       = Some (default noneRule (recurrenceRule (fd_recurrence data))).
Proof.
  intros Hfresh. cbv zeta. unfold onSubmitNew.
  destruct (getRaw_addActivity env activityUuid todoUuid
              (newActivityData (appModeState s) data)
              (Some (getTime (fd_activityDate data))) s)
    as (act & Hraw & Hid & Htitle & Hcat & Hcreated & Hdone & Hledger & Hrec
        & Htexts & Hopen & _).
  exists act. rewrite Hraw.
  split; [reflexivity|]. split.
  { unfold findActivity. rewrite find_app_fresh.
    - rewrite bool_decide_eq_true_2 by exact Hid. reflexivity.
    - intros y Hy. apply bool_decide_eq_false_2. apply Hfresh. exact Hy. }
  repeat (split; [assumption|]). exact Hrec.
Qed.

Definition newForm : ActivityFormData :=
  mkActivityFormData "Yoga" "cat_home" (newDate 2024 0 8 0 0) (Some "07:30")
    (Some [mkFormTodo None "Mat" (Some true); mkFormTodo None "Towel" None])
    (Some EmptyString)
    (mkRecurrenceForm Weekly None (Some []) (Some 8)) None.

Lemma form_creates_activity_witness :
  let s' := onSubmitNew clock "a2" (fun k => "t" +:+ pretty k) newForm home in
  exists act,
    getRawActivities s' = getRawActivities home ++ [act]
    /\ findActivity "a2" (getRawActivities s') = Some act
    /\ id act = "a2"
    /\ title act = fd_title newForm
    /\ categoryId act = fd_categoryId newForm
    /\ createdAt act = fd_activityDate newForm
    /\ completed act = false
    /\ completedOccurrences act = ∅
    /\ text <$> todos act = ft_text <$> default [] (fd_todos newForm)
    /\ Forall (fun t => todoCompleted t = false) (todos act)
    /\ recurrence act
       = Some (default noneRule (recurrenceRule (fd_recurrence newForm))).
Proof.
  apply (form_creates_activity clock "a2" (fun k => "t" +:+ pretty k) newForm home).
  intros act Hact. simpl in Hact.
  apply list_elem_of_singleton in Hact. subst act. simpl. discriminate.
Defined.

(** X28: A weekly activity saved with no day of the week ticked is stored with
    an empty list of days, and the generator returns no instance of it for
    any window: it never shows up and never notifies. *)
Theorem form_weekly_without_days_never_occurs
    (env : Env) (activityUuid : string) (todoUuid : nat -> string)
    (data : ActivityFormData) (s : State) (act : Activity) (rs re : Z) :
  rf_type (fd_recurrence data) = Weekly ->
  rf_daysOfWeek (fd_recurrence data) = None
  \/ rf_daysOfWeek (fd_recurrence data) = Some [] ->
  act ∈ getRawActivities (onSubmitNew env activityUuid todoUuid data s) ->
  id act = activityUuid ->
  (forall old, old ∈ getRawActivities s -> id old <> activityUuid) ->
  (recurrence act ≫= daysOfWeek) = Some []
  /\ generateFutureInstancesForNotifications act rs re = [].
Proof.
  intros Hty Hdays Hact Hid Hfresh. unfold onSubmitNew in Hact.
  destruct (getRaw_addActivity env activityUuid todoUuid
              (newActivityData (appModeState s) data)
              (Some (getTime (fd_activityDate data))) s)
    as (new & Hraw & _ & _ & _ & _ & _ & _ & Hrec & _).
  rewrite Hraw in Hact. apply elem_of_app in Hact as [Hact | Hact].
  { exfalso. exact (Hfresh act Hact Hid). }
  apply list_elem_of_singleton in Hact. subst new.
  cbn [d_recurrence newActivityData] in Hrec.
  unfold recurrenceRule in Hrec. rewrite Hty in Hrec. cbn [default] in Hrec.
  assert (Hempty : default [] (rf_daysOfWeek (fd_recurrence data)) = []).
  { destruct Hdays as [-> | ->]; reflexivity. }
  rewrite Hempty in Hrec.
  split; [rewrite Hrec; reflexivity|].
  set (r := mkRecurrenceRule Weekly
              match rf_endDate (fd_recurrence data) with
              | Some endDate => Some (getTime endDate)
              | None => None
              end (Some []) None) in *.
  assert (Hr : recurringRule act = Some r).
  { apply recurringRule_Some. split; [exact Hrec | discriminate]. }
  pose proof (generate_recurring act rs re r Hr) as Hall.
  destruct (generateFutureInstancesForNotifications act rs re) as [|i l];
    [reflexivity|].
  inversion Hall as [|? ? [(_ & _ & _ & Hvalid & _) _] _]; subst.
  discriminate Hvalid.
Qed.

Lemma form_weekly_without_days_never_occurs_witness :
  (recurrence
     (mkActivity "a2" "Yoga" "cat_home"
                 [mkTodo "t0" "Mat" false; mkTodo "t1" "Towel" false]
                 (newDate 2024 0 8 0 0) (Some "07:30") false None
                 (Some (mkRecurrenceRule Weekly None (Some []) None)) ∅ None)
     ≫= daysOfWeek) = Some []
  /\ generateFutureInstancesForNotifications
       (mkActivity "a2" "Yoga" "cat_home"
                   [mkTodo "t0" "Mat" false; mkTodo "t1" "Towel" false]
                   (newDate 2024 0 8 0 0) (Some "07:30") false None
                   (Some (mkRecurrenceRule Weekly None (Some []) None)) ∅ None)
       (newDate 2024 0 1 0 0) (newDate 2024 11 31 0 0) = [].
Proof.
  apply (form_weekly_without_days_never_occurs
           clock "a2" (fun k => "t" +:+ pretty k) newForm home).
  - reflexivity.
  - right. reflexivity.
  - vm_compute. apply list_elem_of_further, list_elem_of_here.
  - reflexivity.
  - intros old Hold. simpl in Hold.
    apply list_elem_of_singleton in Hold. subst old. simpl. discriminate.
Defined.

End ModalSpec.

(* ===================================================================== *)
(** ** The row of an activity: results *)
(* ===================================================================== *)

Module ListItemSpec.
Import JSDate Model Store StoreSpec ListItem StoreMore.
Local Open Scope Z_scope.

#[local] Arguments formatISO_date : simpl never.

(** A master activity as the list shows it. *)
Definition plain (act : Activity) : Shown := mkShown act false None None.

(** What the checkbox of a one-off activity sends to [updateActivity]. *)
Definition checkboxUpdates (shown : Shown) (completedValue : bool)
  : ActivityUpdates :=
  mkActivityUpdates None None None
    (Some (if completedValue then map todoDone (todos (activity shown))
           else todos (activity shown)))
    None None (Some completedValue) None None None None.

Lemma handle_one_off (env : Env) (shown : Shown) (completedValue : bool)
    (s : State) :
  isRecurringInstance shown = false ->
  handleActivityCompletedChange env shown completedValue s
  = updateActivity env (id (activity shown))
                   (checkboxUpdates shown completedValue) None s.
Proof.
  intros Hrec. unfold handleActivityCompletedChange, checkboxUpdates.
  rewrite Hrec.
  assert (Htodos : (if completedValue
                       && (0 <? Z.of_nat (length (todos (activity shown))))
                    then map todoDone (todos (activity shown))
                    else todos (activity shown))
                   = (if completedValue
                      then map todoDone (todos (activity shown))
                      else todos (activity shown))).
  { destruct completedValue; [|reflexivity].
    destruct (todos (activity shown)); reflexivity. }
  rewrite Htodos. reflexivity.
Qed.

Lemma todoDone_all (l : list Todo) :
  Forall (fun t => todoCompleted t = true) (map todoDone l)
  /\ todoId <$> map todoDone l = todoId <$> l
  /\ text <$> map todoDone l = text <$> l.
Proof.
  induction l as [|t l (IH1 & IH2 & IH3)]; [repeat split; constructor|].
  split; [constructor; [reflexivity | exact IH1]|].
  cbn [map fmap list_fmap] in *. split; f_equal; assumption.
Qed.

(** The activity that the checkbox of a one-off activity leaves in place
    of a stored activity with the identifier shown. *)
Lemma checked_one_off (env : Env) (shown : Shown) (completedValue : bool)
    (s : State) (act' : Activity) :
  isRecurringInstance shown = false ->
  act' ∈ getRawActivities
           (handleActivityCompletedChange env shown completedValue s) ->
  id act' = id (activity shown) ->
  completed act' = completedValue
  /\ todos act' = (if completedValue then map todoDone (todos (activity shown))
                   else todos (activity shown))
  /\ exists act, act ∈ getRawActivities s
                 /\ id act = id act'
                 /\ title act' = title act
                 /\ createdAt act' = createdAt act
                 /\ recurrence act' = recurrence act
                 /\ completedOccurrences act' = completedOccurrences act.
Proof.
  intros Hrec Hact Hid.
  rewrite handle_one_off, getRaw_updateActivity in Hact by exact Hrec.
  apply list_elem_of_fmap in Hact as (act & -> & Hact).
  destruct (decide (id act = id (activity shown))) as [E|E].
  - split; [reflexivity|]. split; [reflexivity|].
    exists act. repeat split; assumption || reflexivity.
  - contradiction.
Qed.

(** X29: Ticking a one-off activity marks it completed and replaces its todos
    by the todos of the row, all marked done; unticking it afterwards
    unsets [completed] and leaves every todo done: the todos are not
    reopened.  The rule, the ledger, the title and the start date of the
    activity stay. *)
Theorem check_then_uncheck_leaves_todos_done
    (env1 env2 : Env) (act act1 act2 : Activity) (s : State) :
  let s1 := handleActivityCompletedChange env1 (plain act) true s in
  let s2 := handleActivityCompletedChange env2 (plain act1) false s1 in
  act1 ∈ getRawActivities s1 ->
  id act1 = id act ->
  act2 ∈ getRawActivities s2 ->
  id act2 = id act ->
  (completed act1 = true
   /\ todos act1 = map todoDone (todos act))
  /\ (completed act2 = false
      /\ todos act2 = map todoDone (todos act)
      /\ Forall (fun t => todoCompleted t = true) (todos act2)
      /\ text <$> todos act2 = text <$> todos act)
  /\ exists act0, act0 ∈ getRawActivities s
                  /\ id act0 = id act
                  /\ recurrence act2 = recurrence act0
                  /\ completedOccurrences act2 = completedOccurrences act0
                  /\ createdAt act2 = createdAt act0.
Proof.
  cbv zeta. intros H1 Hid1 H2 Hid2.
  destruct (checked_one_off env1 (plain act) true s act1 eq_refl H1 Hid1)
    as (Hc1 & Ht1 & act0 & Hact0 & Hid0 & _ & Hcr0 & Hrec0 & Hled0).
  cbn [activity plain] in Ht1.
  assert (Hid21 : id act2 = id (activity (plain act1)))
    by (cbn [activity plain]; congruence).
  destruct (checked_one_off env2 (plain act1) false _ act2 eq_refl H2 Hid21)
    as (Hc2 & Ht2 & act1' & Hact1' & Hid1' & _ & Hcr1 & Hrec1 & Hled1).
  cbn [activity plain] in Ht2.
  assert (Hid1'' : id act1' = id (activity (plain act)))
    by (cbn [activity plain]; congruence).
  destruct (checked_one_off env1 (plain act) true s act1' eq_refl Hact1' Hid1'')
    as (_ & _ & act0' & Hact0' & Hid0' & _ & Hcr0' & Hrec0' & Hled0').
  split; [split; assumption|]. split.
  - rewrite Ht2, Ht1. split; [exact Hc2|]. split; [reflexivity|].
    destruct (todoDone_all (todos act)) as (Hall & _ & Htext).
    split; assumption.
  - exists act0'. split; [exact Hact0'|].
    split; [congruence|]. split; [congruence|]. split; congruence.
Qed.

Definition letter : Activity :=
  mkActivity "o1" "Post a letter" "cat_home"
             [mkTodo "t1" "Stamp" false; mkTodo "t2" "Envelope" true]
             86400000 None false None None ∅ None.

Definition desk : State := mkState Personal [letter] [] [] [] [].

Definition letterTicked : Activity :=
  mkActivity "o1" "Post a letter" "cat_home"
             [mkTodo "t1" "Stamp" true; mkTodo "t2" "Envelope" true]
             86400000 None true None None ∅ None.

Definition letterUnticked : Activity :=
  mkActivity "o1" "Post a letter" "cat_home"
             [mkTodo "t1" "Stamp" true; mkTodo "t2" "Envelope" true]
             86400000 None false None None ∅ None.

Lemma check_then_uncheck_leaves_todos_done_witness :
  (completed letterTicked = true
   /\ todos letterTicked = map todoDone (todos letter))
  /\ (completed letterUnticked = false
      /\ todos letterUnticked = map todoDone (todos letter)
      /\ Forall (fun t => todoCompleted t = true) (todos letterUnticked)
      /\ text <$> todos letterUnticked = text <$> todos letter)
  /\ exists act0, act0 ∈ getRawActivities desk
                  /\ id act0 = id letter
                  /\ recurrence letterUnticked = recurrence act0
                  /\ completedOccurrences letterUnticked
                     = completedOccurrences act0
                  /\ createdAt letterUnticked = createdAt act0.
Proof.
  apply (check_then_uncheck_leaves_todos_done clock clock letter letterTicked
                                              letterUnticked desk).
  - vm_compute. apply list_elem_of_here.
  - reflexivity.
  - vm_compute. apply list_elem_of_here.
  - reflexivity.
Defined.

(** X30: The checkbox of a generated instance calls
    [toggleOccurrenceCompletion] for the master activity and the date of
    the instance; it does nothing at all, not even a log entry, when the
    instance carries no master identifier or an empty one, or no date or
    the time value 0 (the instant 1970-01-01T00:00:00Z).  In every case
    the stored activities keep all their fields but the ledger, so
    [completed] and the todos are never changed from such a row. *)
Theorem checkbox_of_recurring_instance
    (env : Env) (shown : Shown) (completedValue : bool) (s : State) :
  isRecurringInstance shown = true ->
  (forall masterId instanceDate,
      ListItem.masterActivityId shown = Some masterId ->
      masterId <> EmptyString ->
      originalInstanceDate shown = Some instanceDate ->
      instanceDate <> 0 ->
      handleActivityCompletedChange env shown completedValue s
      = toggleOccurrenceCompletion env masterId instanceDate completedValue s)
  /\ (ListItem.masterActivityId shown = None
      \/ ListItem.masterActivityId shown = Some EmptyString
      \/ originalInstanceDate shown = None
      \/ originalInstanceDate shown = Some 0 ->
      handleActivityCompletedChange env shown completedValue s = s)
  /\ Forall2 (fun act act' => act' = withLedger act (completedOccurrences act'))
             (getRawActivities s)
             (getRawActivities
                (handleActivityCompletedChange env shown completedValue s)).
Proof.
  intros Hrec. unfold handleActivityCompletedChange. rewrite Hrec.
  split; [|split].
  - intros masterId instanceDate Hm Hne Hd Hnz. rewrite Hm, Hd.
    cbn [truthyId truthyZ]. rewrite decide_False by exact Hne.
    assert ((instanceDate =? 0) = false) as -> by lia. reflexivity.
  - intros [Hm | [Hm | [Hd | Hd]]]; rewrite ?Hm, ?Hd; cbn [truthyId truthyZ].
    + reflexivity.
    + reflexivity.
    + destruct (truthyId (ListItem.masterActivityId shown)); reflexivity.
    + destruct (truthyId (ListItem.masterActivityId shown)); reflexivity.
  - assert (Hsame : Forall2 (fun act act' =>
                               act' = withLedger act (completedOccurrences act'))
                            (getRawActivities s) (getRawActivities s)).
    { apply Forall_Forall2_diag, Forall_forall. intros act _.
      symmetry. apply withLedger_same. }
    destruct (truthyId (ListItem.masterActivityId shown)) as [masterId|];
      [|exact Hsame].
    destruct (truthyZ (originalInstanceDate shown)) as [instanceDate|];
      [|exact Hsame].
    rewrite getRaw_toggle. apply Forall2_map_r_same. intros act.
    destruct (decide (id act = masterId)).
    + reflexivity.
    + symmetry. apply withLedger_same.
Qed.

(** An instance of [shopping] at the epoch: the checkbox is dead. *)
Definition epochInstance : Shown := mkShown shopping true (Some "a1") (Some 0).

Lemma checkbox_of_recurring_instance_witness :
  handleActivityCompletedChange clock epochInstance true home = home.
Proof.
  apply (proj1 (proj2 (checkbox_of_recurring_instance clock epochInstance true
                                                      home eq_refl))).
  right. right. right. reflexivity.
Defined.

End ListItemSpec.
